(** * Presentation Annotator: slide extraction pipeline and annotation store

    A shallow embedding of [server/services/presentationService.ts] and
    [server/storage.ts], with the properties of the design document that
    concern them; and of the mirror ([server/services/sqliteService.ts]),
    the handlers of [server/routes.ts] and the handlers of the annotation
    form and of the slide pager of the client, with further properties of
    the code.

    Conventions of the embedding.
    - A JavaScript string is a [string]: a sequence of code units below 256.
    - A JavaScript number that the code only ever uses as an integer (slide
      numbers, counts, the result of [parseInt] on a digit run) is a [Z];
      this is exact below 2^53.
    - [console.log] and [console.error] have no effect on the state and are
      left out. *)

From Stdlib Require Import ZArith List Bool Ascii String Lia Permutation Sorted.
From Stdlib Require Import DecimalString.
From stdpp Require Import gmap strings.

Import ListNotations.
Local Open Scope string_scope.
Local Open Scope list_scope.
Local Open Scope Z_scope.

(** ** JavaScript strings *)

Module JsString.

(** The double quote character and the line feed. *)
Definition dq : ascii := ascii_of_nat 34.
Definition lf : ascii := ascii_of_nat 10.

Definition code (c : ascii) : nat := nat_of_ascii c.

Definition isDigit (c : ascii) : bool :=
  (48 <=? code c)%nat && (code c <=? 57)%nat.

(** [\s] and the characters removed by [trim], among code units below 256. *)
Definition isSpace (c : ascii) : bool :=
  let n := code c in
  ((9 <=? n)%nat && (n <=? 13)%nat) || (n =? 32)%nat || (n =? 160)%nat.

(** [.] without the [s] flag: anything but a line terminator. *)
Definition notLineTerminator (c : ascii) : bool :=
  negb ((code c =? 10)%nat || (code c =? 13)%nat).

Definition notChar (x : ascii) (c : ascii) : bool := negb (Ascii.eqb x c).

Definition lowerChar (c : ascii) : ascii :=
  let n := code c in
  if ((65 <=? n)%nat && (n <=? 90)%nat)
     || ((192 <=? n)%nat && (n <=? 222)%nat && negb (n =? 215)%nat)
  then ascii_of_nat (n + 32) else c.

Fixpoint toLowerCase (s : string) : string :=
  match s with
  | EmptyString => EmptyString
  | String c s' => String (lowerChar c) (toLowerCase s')
  end.

Definition startsWith (s p : string) : bool := String.prefix p s.

Fixpoint dropString (n : nat) (s : string) : string :=
  match n, s with
  | O, _ => s
  | S n', String _ s' => dropString n' s'
  | S _, EmptyString => EmptyString
  end.

Definition endsWith (s p : string) : bool :=
  (String.length p <=? String.length s)%nat
  && String.eqb (dropString (String.length s - String.length p) s) p.

Fixpoint trimStart (s : string) : string :=
  match s with
  | String c s' => if isSpace c then trimStart s' else s
  | EmptyString => EmptyString
  end.

Fixpoint revString (acc s : string) : string :=
  match s with
  | EmptyString => acc
  | String c s' => revString (String c acc) s'
  end.

Definition trimEnd (s : string) : string :=
  revString EmptyString (trimStart (revString EmptyString s)).

Definition trim (s : string) : string := trimEnd (trimStart s).

(** [substring(n)]. *)
Definition substringFrom (n : nat) (s : string) : string := dropString n s.

(** Template interpolation of an integer. *)
Definition ofZ (z : Z) : string := NilEmpty.string_of_int (Z.to_int z).

(** Lexicographic order on code units, the order of [sort()] without a
    comparator. *)
Fixpoint ltb (a b : string) : bool :=
  match a, b with
  | EmptyString, EmptyString => false
  | EmptyString, String _ _ => true
  | String _ _, EmptyString => false
  | String x a', String y b' =>
      if (code x <? code y)%nat then true
      else if (code y <? code x)%nat then false
      else ltb a' b'
  end.

(** String literals of this file are written with a backquote wherever the
    source has a double quote; [q] puts the double quotes back. *)
Fixpoint q (s : string) : string :=
  match s with
  | EmptyString => EmptyString
  | String c s' => String (if Ascii.eqb c "`"%char then dq else c) (q s')
  end.

(** [s.includes(p)]. *)
Fixpoint includes (s p : string) : bool :=
  String.prefix p s
  || match s with
     | EmptyString => false
     | String _ s' => includes s' p
     end.

End JsString.

(** ** Regular expressions

    The fragment of JavaScript regular expressions the source uses: a
    sequence of literal characters and of repeated character classes
    (greedy or lazy, with a lower bound), with at most one capture group.
    Matching is by backtracking, leftmost first, as in JavaScript. *)

Module Regex.
Import JsString.

Inductive atom : Type :=
| Chr (c : ascii)
| Rep (cls : ascii -> bool) (min : nat) (greedy : bool)
| GOpen
| GClose.

Definition regex : Type := list atom.

Fixpoint lit (s : string) : regex :=
  match s with
  | EmptyString => []
  | String c s' => Chr c :: lit s'
  end.

(** What has been consumed so far, most recent character first. *)
Record mstate : Type := MState {
  consumed : list ascii;
  captured : list ascii;
  capturing : bool
}.

Definition start : mstate := MState [] [] false.

Definition push (c : ascii) (st : mstate) : mstate :=
  MState (c :: consumed st)
         (if capturing st then c :: captured st else captured st)
         (capturing st).

Definition openGroup (st : mstate) : mstate := MState (consumed st) [] true.
Definition closeGroup (st : mstate) : mstate :=
  MState (consumed st) (captured st) false.

(** [rep rest cls min greedy n st s]: repeat the class [cls], of which [n]
    characters have been read, then continue with [rest].  A greedy
    repetition reads on as long as it can and gives characters back one
    by one; a lazy one continues with [rest] as soon as it may. *)
Fixpoint rep (rest : mstate -> string -> option (mstate * string))
    (cls : ascii -> bool) (min : nat) (greedy : bool)
    (n : nat) (st : mstate) (s : string) {struct s}
  : option (mstate * string) :=
  let more (_ : unit) :=
    match s with
    | String c s' =>
        if cls c then rep rest cls min greedy (S n) (push c st) s' else None
    | EmptyString => None
    end in
  let stop (_ : unit) := if (min <=? n)%nat then rest st s else None in
  if greedy then
    match more tt with Some r => Some r | None => stop tt end
  else
    match stop tt with Some r => Some r | None => more tt end.

(** [matchHere p st s]: match all of [p] at the beginning of [s]. *)
Fixpoint matchHere (p : regex) : mstate -> string -> option (mstate * string) :=
  match p with
  | [] => fun st s => Some (st, s)
  | Chr c :: p' =>
      fun st s =>
        match s with
        | String c' s' =>
            if Ascii.eqb c c' then matchHere p' (push c' st) s' else None
        | EmptyString => None
        end
  | GOpen :: p' => fun st s => matchHere p' (openGroup st) s
  | GClose :: p' => fun st s => matchHere p' (closeGroup st) s
  | Rep cls min greedy :: p' => rep (matchHere p') cls min greedy O
  end.

Definition ofRev (l : list ascii) : string :=
  string_of_list_ascii (rev l).

Record result : Type := Result {
  before : string;   (* the input up to the match *)
  whole : string;    (* m[0] *)
  group1 : string;   (* m[1] *)
  after : string     (* the input from the end of the match *)
}.

Definition mkResult (pre : list ascii) (r : mstate * string) : result :=
  Result (ofRev pre) (ofRev (consumed (fst r))) (ofRev (captured (fst r)))
         (snd r).

(** [searchFrom p pre s]: the leftmost match of [p] in [s]; [pre] is the
    text already skipped, most recent character first. *)
Fixpoint searchFrom (p : regex) (pre : list ascii) (s : string)
  : option result :=
  match matchHere p start s with
  | Some r => Some (mkResult pre r)
  | None =>
      match s with
      | String c s' => searchFrom p (c :: pre) s'
      | EmptyString => None
      end
  end.

(** [s.match(p)] and [p.exec(s)] for a pattern without the [g] flag. *)
Definition search (p : regex) (s : string) : option result :=
  searchFrom p [] s.

(** [p.test(s)]. *)
Definition test (p : regex) (s : string) : bool :=
  match search p s with Some _ => true | None => false end.

(** All matches from left to right, each search resuming where the last
    match ended ([s.match(p)] and the [exec] loop for a pattern with the
    [g] flag).  After a match, [skip] characters still belong to it.
    Only [whole] and [group1] of these results are meaningful. *)
Fixpoint matchAllFrom (p : regex) (skip : nat) (s : string) : list result :=
  match s with
  | EmptyString => []
  | String c s' =>
      match skip with
      | S k => matchAllFrom p k s'
      | O =>
          match matchHere p start s with
          | Some r =>
              mkResult [] r
                :: matchAllFrom p (Nat.pred (List.length (consumed (fst r)))) s'
          | None => matchAllFrom p O s'
          end
      end
  end.

Definition matchAll (p : regex) (s : string) : list result :=
  matchAllFrom p O s.

(** [s.replace(p, f(m))] for a pattern without the [g] flag. *)
Definition replaceFirst (p : regex) (s : string) (f : result -> string)
  : string :=
  match search p s with
  | Some r => before r +:+ f r +:+ after r
  | None => s
  end.

End Regex.

(** ** JavaScript numbers, [parseInt] and [Array.prototype.sort] *)

Module Js.
Import JsString.

(** A number is an integer or [NaN]. *)
Definition number : Type := option Z.
Definition NaN : number := None.

Definition sub (a b : number) : number :=
  match a, b with
  | Some x, Some y => Some (x - y)
  | _, _ => NaN
  end.

(** [x || d] on numbers: [NaN] and [0] are falsy. *)
Definition orElse (x : number) (d : Z) : number :=
  match x with
  | Some 0 | None => Some d
  | Some n => Some n
  end.

Definition digitValue (radix : nat) (c : ascii) : option Z :=
  let n := code c in
  let v :=
    if isDigit c then Some (n - 48)%nat
    else if (97 <=? n)%nat && (n <=? 102)%nat then Some (n - 87)%nat
    else if (65 <=? n)%nat && (n <=? 70)%nat then Some (n - 55)%nat
    else None in
  match v with
  | Some d => if (d <? radix)%nat then Some (Z.of_nat d) else None
  | None => None
  end.

(** The value of the longest prefix of digits of [s] in base [radix], read
    after the digits of value [acc]; [seen] tells whether a digit was read. *)
Fixpoint digitsValue (radix : nat) (seen : bool) (acc : Z) (s : string)
  : number :=
  match s with
  | String c s' =>
      match digitValue radix c with
      | Some d => digitsValue radix true (acc * Z.of_nat radix + d) s'
      | None => if seen then Some acc else NaN
      end
  | EmptyString => if seen then Some acc else NaN
  end.

(** [parseInt(s)] with no radix argument. *)
Definition parseInt (s : string) : number :=
  let s1 := trimStart s in
  let '(sign, s2) :=
    match s1 with
    | String c r =>
        if Ascii.eqb c "-"%char then (-1, r)
        else if Ascii.eqb c "+"%char then (1, r)
        else (1, s1)
    | EmptyString => (1, s1)
    end in
  let '(radix, s3) :=
    if String.prefix "0x" s2 || String.prefix "0X" s2
    then (16%nat, dropString 2 s2) else (10%nat, s2) in
  match digitsValue radix false 0 s3 with
  | Some v => Some (sign * v)
  | None => NaN
  end.

(** ** Sorting.
    [Array.prototype.sort] is stable.  A comparator result that is
    negative or zero, or [NaN], leaves the first argument in front. *)

Definition notAfter {A : Type} (cmp : A -> A -> number) (a b : A) : bool :=
  match cmp a b with
  | Some d => d <=? 0
  | None => true
  end.

Fixpoint insertBy {A : Type} (cmp : A -> A -> number) (x : A) (l : list A)
  : list A :=
  match l with
  | [] => [x]
  | y :: l' => if notAfter cmp x y then x :: l else y :: insertBy cmp x l'
  end.

Definition sortBy {A : Type} (cmp : A -> A -> number) (l : list A) : list A :=
  fold_right (insertBy cmp) [] l.

(** [sort()] without a comparator orders strings by code units. *)
Definition defaultCompare (a b : string) : number :=
  if JsString.ltb a b then Some (-1)
  else if JsString.ltb b a then Some 1 else Some 0.

End Js.

(** ** Buffers: UTF-8 and base64 *)

Module Buffer.
Import JsString.

Definition byte : Type := N.

(** [Buffer.from(s)]: the UTF-8 encoding of a string of code units below
    256. *)
Definition utf8 (c : ascii) : list byte :=
  let n := N_of_ascii c in
  if (n <? 128)%N then [n]
  else [N.lor 192 (N.shiftr n 6); N.lor 128 (N.land n 63)].

Fixpoint fromString (s : string) : list byte :=
  match s with
  | EmptyString => []
  | String c s' => utf8 c ++ fromString s'
  end.

(** The bytes of a file or of an archive entry, one per character. *)
Fixpoint fromBinary (s : string) : list byte :=
  match s with
  | EmptyString => []
  | String c s' => N_of_ascii c :: fromBinary s'
  end.

Definition alphabet : string :=
  "ABCDEFGHIJKLMNOPQRSTUVWXYZabcdefghijklmnopqrstuvwxyz0123456789+/".

Definition sextet (n : N) : ascii :=
  match String.get (N.to_nat n) alphabet with
  | Some c => c
  | None => "="%char
  end.

(** [buf.toString('base64')]. *)
Fixpoint toBase64 (l : list byte) : string :=
  match l with
  | [] => EmptyString
  | [a] =>
      String (sextet (N.shiftr a 2))
        (String (sextet (N.shiftl (N.land a 3) 4)) "==")
  | [a; b] =>
      String (sextet (N.shiftr a 2))
        (String (sextet (N.lor (N.shiftl (N.land a 3) 4) (N.shiftr b 4)))
           (String (sextet (N.shiftl (N.land b 15) 2)) "="))
  | a :: b :: c :: l' =>
      String (sextet (N.shiftr a 2))
        (String (sextet (N.lor (N.shiftl (N.land a 3) 4) (N.shiftr b 4)))
           (String (sextet (N.lor (N.shiftl (N.land b 15) 2) (N.shiftr c 6)))
              (String (sextet (N.land c 63)) (toBase64 l'))))
  end.

Definition unsextet (c : ascii) : option N :=
  let n := N_of_ascii c in
  if ((65 <=? n) && (n <=? 90))%N then Some (n - 65)%N
  else if ((97 <=? n) && (n <=? 122))%N then Some (n - 71)%N
  else if ((48 <=? n) && (n <=? 57))%N then Some (n + 4)%N
  else if (n =? 43)%N || (n =? 45)%N then Some 62%N
  else if (n =? 47)%N || (n =? 95)%N then Some 63%N
  else None.

(** The sextets of a base64 text up to the padding; characters outside the
    alphabet are skipped. *)
Fixpoint sextets (s : string) : list N :=
  match s with
  | EmptyString => []
  | String c s' =>
      if Ascii.eqb c "="%char then []
      else match unsextet c with
           | Some v => v :: sextets s'
           | None => sextets s'
           end
  end.

Fixpoint bytesOfSextets (l : list N) : list byte :=
  match l with
  | a :: b :: c :: d :: l' =>
      N.lor (N.shiftl a 2) (N.shiftr b 4)
        :: N.lor (N.shiftl (N.land b 15) 4) (N.shiftr c 2)
        :: N.lor (N.shiftl (N.land c 3) 6) d
        :: bytesOfSextets l'
  | [a; b; c] =>
      [N.lor (N.shiftl a 2) (N.shiftr b 4);
       N.lor (N.shiftl (N.land b 15) 4) (N.shiftr c 2)]
  | [a; b] => [N.lor (N.shiftl a 2) (N.shiftr b 4)]
  | _ => []
  end.

(** [Buffer.from(s, 'base64')]. *)
Definition fromBase64 (s : string) : list byte := bytesOfSextets (sextets s).

End Buffer.

(** ** The state of the server

    The file system, the primary relational store (the three tables of the
    schema), the SQLite mirror (its [input] and [output] tables) and the
    number of identifiers drawn so far.

    A statement sent to a store may fail for reasons outside the program;
    [pgFaults] and [sqliteFaults] list, statement by statement, whether the
    next statements will throw.  An empty list means that the store answers
    every statement.  The integrity constraints of the schema are not
    checked: the pipeline only inserts rows for a presentation it has just
    created, under identifiers it has just drawn. *)

Inductive Node : Type :=
| File (bytes : string)
| Dir.

(** Paths with their nodes, in the order in which the system lists them. *)
Definition FS : Type := list (string * Node).

Record Tag : Type := mkTag { key : string; value : string }.

Record PresentationRow : Type := mkPresentationRow {
  pres_id : string;
  pres_name : string;
  pres_submitted : bool
}.

Record SlideRow : Type := mkSlideRow {
  slide_presentation_id : string;
  slide_id : string;
  slide_number : Z;
  slide_image : string
}.

(** The [tags] column holds [JSON.stringify(tags)] and is only ever read
    back through [JSON.parse]; the row keeps the list itself. *)
Record AnnotationRow : Type := mkAnnotationRow {
  ann_presentation_id : string;
  ann_slide_id : string;
  ann_tags : list Tag
}.

Record Pg : Type := mkPg {
  presentationsT : list PresentationRow;
  slidesT : list SlideRow;
  slideAnnotationsT : list AnnotationRow
}.

Record InputRow : Type := mkInputRow {
  in_presentation_id : string;
  in_name : string;
  in_slide_id : string;
  in_slide_number : Z;
  in_image : string
}.

Record OutputRow : Type := mkOutputRow {
  out_presentation_id : string;
  out_slide_id : string;
  out_tags : list Tag
}.

Record Sqlite : Type := mkSqlite {
  inputT : list InputRow;
  outputT : list OutputRow
}.

Record World : Type := mkWorld {
  fs : FS;
  pg : Pg;
  sqlite : Sqlite;
  uuids : nat;
  pgFaults : list bool;
  sqliteFaults : list bool
}.

(** ** Computations that read and write the state and may throw *)

Inductive outcome (A : Type) : Type :=
| Ok (a : A)
| Throw (e : string).
Arguments Ok {A} a.
Arguments Throw {A} e.

Definition M (A : Type) : Type := World -> outcome A * World.

Definition ret {A : Type} (a : A) : M A := fun w => (Ok a, w).

Definition throw {A : Type} (e : string) : M A := fun w => (Throw e, w).

Definition bind {A B : Type} (m : M A) (k : A -> M B) : M B :=
  fun w =>
    match m w with
    | (Ok a, w') => k a w'
    | (Throw e, w') => (Throw e, w')
    end.

(** [try { m } catch (e) { h e }]. *)
Definition tryCatch {A : Type} (m : M A) (h : string -> M A) : M A :=
  fun w =>
    match m w with
    | (Ok a, w') => (Ok a, w')
    | (Throw e, w') => h e w'
    end.

Declare Scope js_scope.
Delimit Scope js_scope with js.
Notation "'let*' x ':=' m 'in' k" := (bind m (fun x => k))
  (at level 10, x name, m at level 100, k at level 200) : js_scope.
Notation "m >> k" := (bind m (fun _ => k))
  (at level 100, k at level 200, right associativity) : js_scope.
Local Open Scope js_scope.

(** [if (c) { m }]. *)
Definition when (c : bool) (m : M unit) : M unit := if c then m else ret tt.

(** [for (let i = from; i < from + xs.length; i++) body(i, xs[i - from])]. *)
Fixpoint forEachFrom {A : Type} (from : Z) (xs : list A)
    (body : Z -> A -> M unit) : M unit :=
  match xs with
  | [] => ret tt
  | x :: xs' => body from x >> forEachFrom (from + 1) xs' body
  end.

(** [for (const x of xs) body(x)]. *)
Fixpoint forOf {A : Type} (xs : list A) (body : A -> M unit) : M unit :=
  match xs with
  | [] => ret tt
  | x :: xs' => body x >> forOf xs' body
  end.

(** ** The file system ([fs] and [path] of Node.js) *)

Module Fs.
Import JsString.

Definition lookup (p : string) (t : FS) : option Node :=
  match List.find (fun e => String.eqb (fst e) p) t with
  | Some e => Some (snd e)
  | None => None
  end.

Definition remove (p : string) (t : FS) : FS :=
  List.filter (fun e => negb (String.eqb (fst e) p)) t.

Definition getFs : M FS := fun w => (Ok (fs w), w).

Definition putFs (t : FS) : M unit :=
  fun w =>
    (Ok tt, mkWorld t (pg w) (sqlite w) (uuids w) (pgFaults w) (sqliteFaults w)).

(** [path.join(dir, name)], for a normalised [dir] and a plain [name]. *)
Definition join (dir name : string) : string := dir +:+ "/" +:+ name.

Fixpoint hasSlash (s : string) : bool :=
  match s with
  | EmptyString => false
  | String c s' => Ascii.eqb c "/"%char || hasSlash s'
  end.

(** The name of [p] inside [dir] when [p] lies directly in [dir]. *)
Definition childOf (dir p : string) : option string :=
  if String.prefix (dir +:+ "/") p then
    let name := dropString (String.length dir + 1) p in
    if hasSlash name || String.eqb name "" then None else Some name
  else None.

Definition existsSync (p : string) : M bool :=
  let* t := getFs in ret (match lookup p t with Some _ => true | None => false end).

(** [fs.mkdirSync(p, { recursive: true })]; the directories above [p] are
    not recorded, nothing lists or tests them. *)
Definition mkdirSync (p : string) : M unit :=
  let* t := getFs in
  match lookup p t with
  | Some Dir => ret tt
  | Some (File _) => throw "EEXIST"
  | None => putFs (t ++ [(p, Dir)])
  end.

Definition readdirSync (dir : string) : M (list string) :=
  let* t := getFs in
  match lookup dir t with
  | Some Dir =>
      ret (List.flat_map
             (fun e => match childOf dir (fst e) with
                       | Some n => [n]
                       | None => []
                       end) t)
  | Some (File _) => throw "ENOTDIR"
  | None => throw "ENOENT"
  end.

Definition readFileSync (p : string) : M string :=
  let* t := getFs in
  match lookup p t with
  | Some (File b) => ret b
  | Some Dir => throw "EISDIR"
  | None => throw "ENOENT"
  end.

Definition unlinkSync (p : string) : M unit :=
  let* t := getFs in
  match lookup p t with
  | Some (File _) => putFs (remove p t)
  | Some Dir => throw "EISDIR"
  | None => throw "ENOENT"
  end.

Definition renameSync (a b : string) : M unit :=
  let* t := getFs in
  match lookup a t with
  | Some n =>
      putFs (List.map (fun e => if String.eqb (fst e) a then (b, n) else e)
               (if String.eqb a b then t else remove b t))
  | None => throw "ENOENT"
  end.

(** The part of [s] after its last occurrence of [c], and whether there
    is one. *)
Fixpoint afterLast (c : ascii) (s : string) : option string :=
  match s with
  | EmptyString => None
  | String x s' =>
      match afterLast c s' with
      | Some r => Some r
      | None => if Ascii.eqb x c then Some s' else None
      end
  end.

(** [path.basename(p)]. *)
Definition basename (p : string) : string :=
  match afterLast "/"%char p with Some r => r | None => p end.

(** [path.extname(p)]: from the last dot of the base name, unless the
    base name starts with it. *)
Definition extname (p : string) : string :=
  match basename p with
  | EmptyString => ""
  | String c rest =>
      match afterLast "."%char rest with
      | Some e => String "."%char e
      | None => ""
      end
  end.

(** [path.basename(p, ext)]. *)
Definition basenameWithout (p ext : string) : string :=
  let b := basename p in
  if negb (String.eqb b ext) && endsWith b ext
  then String.substring 0 (String.length b - String.length ext) b
  else b.

End Fs.

(** ** What the server takes from outside

    [uuidSource n] is the identifier that the [n]-th call of [uuidv4]
    returns; [shell cmd t] runs a command line on the file system [t] and
    tells whether it exited normally; [unzip bytes] is the archive reader
    ([None] when the bytes are not an archive); [cwd] is [process.cwd()]. *)

Record ZipEntry : Type := mkZipEntry {
  entryName : string;
  entryData : option string   (* [None]: the entry cannot be decompressed *)
}.

Record Env : Type := mkEnv {
  uuidSource : nat -> string;
  shell : string -> FS -> bool * FS;
  unzip : string -> option (list ZipEntry);
  cwd : string
}.

(** ** The stores *)

Definition pgStatement {A : Type} (f : Pg -> A * Pg) : M A :=
  fun w =>
    match pgFaults w with
    | true :: r =>
        (Throw "database error",
         mkWorld (fs w) (pg w) (sqlite w) (uuids w) r (sqliteFaults w))
    | false :: r =>
        let '(a, d) := f (pg w) in
        (Ok a, mkWorld (fs w) d (sqlite w) (uuids w) r (sqliteFaults w))
    | [] =>
        let '(a, d) := f (pg w) in
        (Ok a, mkWorld (fs w) d (sqlite w) (uuids w) [] (sqliteFaults w))
    end.

Definition sqliteStatement {A : Type} (f : Sqlite -> A * Sqlite) : M A :=
  fun w =>
    match sqliteFaults w with
    | true :: r =>
        (Throw "SqliteError",
         mkWorld (fs w) (pg w) (sqlite w) (uuids w) (pgFaults w) r)
    | false :: r =>
        let '(a, d) := f (sqlite w) in
        (Ok a, mkWorld (fs w) (pg w) d (uuids w) (pgFaults w) r)
    | [] =>
        let '(a, d) := f (sqlite w) in
        (Ok a, mkWorld (fs w) (pg w) d (uuids w) (pgFaults w) [])
    end.

Definition uuidv4 (env : Env) : M string :=
  fun w =>
    (Ok (uuidSource env (uuids w)),
     mkWorld (fs w) (pg w) (sqlite w) (S (uuids w)) (pgFaults w) (sqliteFaults w)).

(** [ORDER BY key] of both stores, ascending.  Rows with equal keys stay in
    table order here; the stores promise no order among them. *)
Definition orderBy {A : Type} (key : A -> Z) (rows : list A) : list A :=
  Js.sortBy (fun a b => Some (key a - key b)) rows.

(** [server/services/sqliteService.ts] *)
Module sqliteStorage.

Definition insertSlide (presentationId name slideId : string)
    (slideNumber : Z) (image : string) : M unit :=
  sqliteStatement (fun d =>
    (tt, mkSqlite
           (inputT d ++ [mkInputRow presentationId name slideId slideNumber
                           (if String.eqb image "" then "BLOB" else image)])
           (outputT d))).

Definition sameSlide (presentationId slideId : string) (r : OutputRow) : bool :=
  String.eqb (out_presentation_id r) presentationId
  && String.eqb (out_slide_id r) slideId.

Definition insertAnnotations (presentationId slideId : string)
    (tags : list Tag) : M unit :=
  let* existing :=
    sqliteStatement (fun d =>
      (List.find (sameSlide presentationId slideId) (outputT d), d)) in
  match existing with
  | Some _ =>
      sqliteStatement (fun d =>
        (tt, mkSqlite (inputT d)
               (List.map (fun r =>
                  if sameSlide presentationId slideId r
                  then mkOutputRow (out_presentation_id r) (out_slide_id r) tags
                  else r) (outputT d))))
  | None =>
      sqliteStatement (fun d =>
        (tt, mkSqlite (inputT d)
               (outputT d ++ [mkOutputRow presentationId slideId tags])))
  end.

Definition getSlides (presentationId : string) : M (list InputRow) :=
  sqliteStatement (fun d =>
    (orderBy in_slide_number
       (List.filter (fun r => String.eqb (in_presentation_id r) presentationId)
          (inputT d)), d)).

Definition getSlide (slideId : string) : M (option InputRow) :=
  sqliteStatement (fun d =>
    (List.find (fun r => String.eqb (in_slide_id r) slideId) (inputT d), d)).

(** The slide identifiers of a presentation with their tags. *)
Definition getAnnotations (presentationId : string)
  : M (list (string * list Tag)) :=
  sqliteStatement (fun d =>
    (List.map (fun row => (out_slide_id row, out_tags row))
       (List.filter (fun r => String.eqb (out_presentation_id r) presentationId)
          (outputT d)), d)).

(** The tags of the first row of the slide, and no tag without a row (the
    text of the [tags] column is never empty). *)
Definition getSlideAnnotations (slideId : string) : M (list Tag) :=
  let* result :=
    sqliteStatement (fun d =>
      (List.find (fun r => String.eqb (out_slide_id r) slideId) (outputT d), d)) in
  match result with
  | Some row => ret (out_tags row)
  | None => ret []
  end.

End sqliteStorage.

(** [server/storage.ts] *)
Module storage.

Definition createPresentation (env : Env) (name : string) : M string :=
  let* presentationId := uuidv4 env in
  pgStatement (fun d =>
    (tt, mkPg (presentationsT d ++ [mkPresentationRow presentationId name false])
           (slidesT d) (slideAnnotationsT d))) >>
  ret presentationId.

Definition getPresentation (id : string) : M (option PresentationRow) :=
  pgStatement (fun d =>
    (List.find (fun r => String.eqb (pres_id r) id) (presentationsT d), d)).

Definition saveSlide (presentationId : string) (slideNumber : Z)
    (slideId imageBase64 : string) : M unit :=
  pgStatement (fun d =>
    (tt, mkPg (presentationsT d)
           (slidesT d ++ [mkSlideRow presentationId slideId slideNumber imageBase64])
           (slideAnnotationsT d))) >>
  tryCatch
    (let* presentation := getPresentation presentationId in
     match presentation with
     | Some p =>
         sqliteStorage.insertSlide presentationId (pres_name p) slideId
           slideNumber imageBase64
     | None => ret tt
     end)
    (fun _ => ret tt).

Definition getSlide (slideId : string) : M (option SlideRow) :=
  pgStatement (fun d =>
    (List.find (fun r => String.eqb (slide_id r) slideId) (slidesT d), d)).

Definition saveAnnotations (slideId : string) (tags : list Tag) : M unit :=
  pgStatement (fun d =>
    (tt, mkPg (presentationsT d) (slidesT d)
           (List.filter (fun r => negb (String.eqb (ann_slide_id r) slideId))
              (slideAnnotationsT d)))) >>
  if (0 <? Z.of_nat (List.length tags)) then
    let* slide := getSlide slideId in
    match slide with
    | None => throw "Slide not found"
    | Some s =>
        pgStatement (fun d =>
          (tt, mkPg (presentationsT d) (slidesT d)
                 (slideAnnotationsT d
                    ++ [mkAnnotationRow (slide_presentation_id s) slideId tags]))) >>
        tryCatch
          (sqliteStorage.insertAnnotations (slide_presentation_id s) slideId tags)
          (fun _ => ret tt)
    end
  else ret tt.

(** The result object, one property per slide identifier; a later row
    for the same slide overwrites the property. *)
Definition getAnnotations (presentationId : string)
  : M (gmap string (list Tag)) :=
  let* annotations :=
    pgStatement (fun d =>
      (List.filter (fun r => String.eqb (ann_presentation_id r) presentationId)
         (slideAnnotationsT d), d)) in
  ret (List.fold_left
         (fun result annotation =>
            <[ann_slide_id annotation := ann_tags annotation]> result)
         annotations ∅).

Definition getSlides (presentationId : string) : M (list SlideRow) :=
  pgStatement (fun d =>
    (orderBy slide_number
       (List.filter (fun r => String.eqb (slide_presentation_id r) presentationId)
          (slidesT d)), d)).

Definition submitPresentation (presentationId : string) : M unit :=
  pgStatement (fun d =>
    (tt, mkPg
           (List.map
              (fun r =>
                 if String.eqb (pres_id r) presentationId
                 then mkPresentationRow (pres_id r) (pres_name r) true
                 else r)
              (presentationsT d))
           (slidesT d) (slideAnnotationsT d))).

Definition getSQLiteSlides (presentationId : string) : M (list InputRow) :=
  tryCatch (sqliteStorage.getSlides presentationId) (fun _ => ret []).

Definition getSQLiteAnnotations (presentationId : string)
  : M (list (string * list Tag)) :=
  tryCatch (sqliteStorage.getAnnotations presentationId) (fun _ => ret []).

End storage.

(** ** The archive reader ([adm-zip]) *)

Module AdmZip.

(** [new AdmZip(filePath)]. *)
Definition open (env : Env) (filePath : string) : M (list ZipEntry) :=
  let* t := Fs.getFs in
  match Fs.lookup filePath t with
  | Some (File bytes) =>
      match unzip env bytes with
      | Some entries => ret entries
      | None => throw "Invalid or unsupported zip format"
      end
  | _ => throw "Invalid filename"
  end.

Definition getEntry (zip : list ZipEntry) (name : string) : option ZipEntry :=
  List.find (fun e => String.eqb (entryName e) name) zip.

(** [entry.getData()]. *)
Definition getData (e : ZipEntry) : M string :=
  match entryData e with
  | Some d => ret d
  | None => throw "Invalid or unsupported zip format"
  end.

(** [zip.readAsText(name)]: the empty string when there is no such entry. *)
Definition readAsText (zip : list ZipEntry) (name : string) : M string :=
  match getEntry zip name with
  | Some e => getData e
  | None => ret ""
  end.

End AdmZip.

(** ** [server/services/presentationService.ts]: the functions without effects *)

Module Pure.
Import JsString Regex.

Fixpoint joinWith (sep : string) (l : list string) : string :=
  match l with
  | [] => ""
  | [x] => x
  | x :: l' => x +:+ sep +:+ joinWith sep l'
  end.

(** [l.map((x, index) => f(x, index))], counting from [index]. *)
Fixpoint mapIndexed {A B : Type} (index : Z) (f : A -> Z -> B) (l : list A)
  : list B :=
  match l with
  | [] => []
  | x :: l' => f x index :: mapIndexed (index + 1) f l'
  end.

(** [/slide-(\d+)\.png/] *)
Definition dashPattern : regex :=
  lit "slide-" ++ [GOpen; Rep isDigit 1 true; GClose] ++ lit ".png".

(** [/slide(\d+)\.png/] *)
Definition noDashPattern : regex :=
  lit "slide" ++ [GOpen; Rep isDigit 1 true; GClose] ++ lit ".png".

(** [/(\d+)/] *)
Definition anyNumberPattern : regex := [GOpen; Rep isDigit 1 true; GClose].

(** [/slide-\d+\.jpg/] and [/slide-(\d+)\.jpg/] *)
Definition jpgPattern : regex :=
  lit "slide-" ++ [GOpen; Rep isDigit 1 true; GClose] ++ lit ".jpg".

(** [/ppt\/slides\/slide[0-9]+\.xml/] *)
Definition slideXmlPattern : regex :=
  lit "ppt/slides/slide" ++ [Rep isDigit 1 true] ++ lit ".xml".

(** [/slide([0-9]+)\.xml/] *)
Definition slideNumberPattern : regex :=
  lit "slide" ++ [GOpen; Rep isDigit 1 true; GClose] ++ lit ".xml".

(** [/<p:sldId/g] *)
Definition sldIdPattern : regex := lit "<p:sldId".

(** The title pattern: an opening [a:t] tag, a lazy run of characters
    other than line terminators (the group), the closing tag. *)
Definition titlePattern : regex :=
  lit "<a:t>" ++ [GOpen; Rep notLineTerminator 0 false; GClose] ++ lit "</a:t>".

(** The text-run pattern: an opening [a:t] tag, a greedy run of characters
    other than [<] (the group), the closing tag. *)
Definition textPattern : regex :=
  lit "<a:t>" ++ [GOpen; Rep (notChar "<"%char) 0 true; GClose] ++ lit "</a:t>".

(** The embed pattern: [r:embed=], then between double quotes the group
    [rId] followed by digits. *)
Definition embedPattern : regex :=
  lit (q "r:embed=`") ++ [GOpen] ++ lit "rId" ++ [Rep isDigit 1 true; GClose]
    ++ lit (q "`").

(** The relationship pattern built for [rId] (letters and digits): [Id=]
    with [rId] between double quotes, a greedy run of characters other
    than [>], [Target=] and between double quotes the group, a non-empty
    run of characters other than the double quote. *)
Definition targetPattern (rId : string) : regex :=
  lit (q "Id=`") ++ lit rId ++ lit (q "`") ++ [Rep (notChar ">"%char) 0 true]
    ++ lit (q "Target=`") ++ [GOpen; Rep (notChar dq) 1 true; GClose]
    ++ lit (q "`").

(** The comparator helper [getNumber] of [processPresentation]. *)
Definition getNumber (filename : string) : Js.number :=
  match search dashPattern filename with
  | Some dashMatch => Js.parseInt (group1 dashMatch)
  | None =>
      match search noDashPattern filename with
      | Some noDashMatch => Js.parseInt (group1 noDashMatch)
      | None =>
          match search anyNumberPattern filename with
          | Some anyNumber => Js.parseInt (group1 anyNumber)
          | None => Some 0
          end
      end
  end.

Definition byNumber (a b : string) : Js.number :=
  Js.sub (getNumber a) (getNumber b).

(** The comparator of the second listing:
    [parseInt(a.match(slidePattern)?.[1] || '0')]. *)
Definition dashNumber (a : string) : Js.number :=
  Js.parseInt
    (match search dashPattern a with
     | Some m => if String.eqb (group1 m) "" then "0" else group1 m
     | None => "0"
     end).

Definition byDashNumber (a b : string) : Js.number :=
  Js.sub (dashNumber a) (dashNumber b).

(** [parseInt(a.replace(/slide-(\d+)\.jpg/, '$1')) || 0] *)
Definition jpgNumber (a : string) : Js.number :=
  Js.orElse (Js.parseInt (replaceFirst jpgPattern a group1)) 0.

Definition byJpgNumber (a b : string) : Js.number :=
  Js.sub (jpgNumber a) (jpgNumber b).

(** The comparator of [processSlides] on entry names. *)
Definition entryNumber (name : string) : Js.number :=
  match search slideNumberPattern name with
  | Some m => if String.eqb (group1 m) "" then Some 0 else Js.parseInt (group1 m)
  | None => Some 0
  end.

Definition byEntryNumber (a b : ZipEntry) : Js.number :=
  Js.sub (entryNumber (entryName a)) (entryNumber (entryName b)).

Definition isSlideXml (entry : ZipEntry) : bool :=
  negb (String.eqb (entryName entry) "") && test slideXmlPattern (entryName entry).

(** The filter of [createFallbackSlides], which has no test on the name
    being empty. *)
Definition isSlideXmlEntry (entry : ZipEntry) : bool :=
  test slideXmlPattern (entryName entry).

Record SlideText : Type := mkSlideText { title : string; content : list string }.

(** The text runs of a slide: every match of [textPattern] with its two
    tags removed. *)
Definition textRuns (slideXML : string) : list string :=
  List.map
    (fun m =>
       replaceFirst (lit "</a:t>")
         (replaceFirst (lit "<a:t>") (whole m) (fun _ => ""))
         (fun _ => ""))
    (matchAll textPattern slideXML).

Definition slideTitle (slideXML : string) : string :=
  match search titlePattern slideXML with
  | Some m => if String.eqb (group1 m) "" then "Slide Title" else group1 m
  | None => "Slide Title"
  end.

Definition extractTextFromSlideXML (slideXML : string) : SlideText :=
  let title := slideTitle slideXML in
  let content :=
    List.filter
      (fun text =>
         (0 <? String.length (trim text))%nat && negb (String.eqb text title))
      (textRuns slideXML) in
  mkSlideText title content.

Definition extractImageReferencesFromXML (slideXML : string) : list string :=
  List.map group1 (matchAll embedPattern slideXML).

Fixpoint replaceChar (c : ascii) (by_ : string) (s : string) : string :=
  match s with
  | EmptyString => EmptyString
  | String x s' =>
      if Ascii.eqb x c then by_ +:+ replaceChar c by_ s'
      else String x (replaceChar c by_ s')
  end.

Definition escapeHtml (text : string) : string :=
  replaceChar "'"%char "&#039;"
    (replaceChar dq "&quot;"
       (replaceChar ">"%char "&gt;"
          (replaceChar "<"%char "&lt;"
             (replaceChar "&"%char "&amp;" text)))).

(** The declared type of an embedded image, from its first bytes. *)
Definition imageTypeOf (base64Image : string) : string :=
  let imageData := Buffer.fromBase64 base64Image in
  let at_ (i : nat) : N := List.nth i imageData 0%N in
  let len := List.length imageData in
  if (2 <? len)%nat then
    if ((at_ 0%nat =? 255) && (at_ 1%nat =? 216))%N then "image/jpeg"
    else if (8 <? len)%nat
            && ((at_ 0%nat =? 137) && (at_ 1%nat =? 80)
                && (at_ 2%nat =? 78) && (at_ 3%nat =? 71))%N
    then "image/png"
    else if (3 <? len)%nat
            && ((at_ 0%nat =? 71) && (at_ 1%nat =? 73) && (at_ 2%nat =? 70))%N
    then "image/gif"
    else "image/png"
  else "image/png".

(** [createRichSlideVisualization].  The source also computes [titleText]
    and [contentElements] with its helper [createTextElement] and never
    uses them; they are left out. *)
Definition createRichSlideVisualization (slideNumber totalSlides : Z)
    (title : string) (content images : list string) : string :=
  let imageElements :=
    if (0 <? List.length images)%nat then
      joinWith (String lf "")
        (mapIndexed 0
           (fun base64Image index =>
              let x := 50 + (index mod 3) * 250 in
              let y := 160 + (index / 3) * 180 in
              let imageType := imageTypeOf base64Image in
              q "
        <image x=`"
      +:+ ofZ x
      +:+ q "` y=`"
      +:+ ofZ y
      +:+ q "` width=`200` height=`150` href=`data:"
      +:+ imageType
      +:+ q ";base64,"
      +:+ base64Image
      +:+ q "` />
        ")
           images)
    else if (0 <? List.length content)%nat then ""
    else q "
        <g>
          <rect x=`100` y=`180` width=`600` height=`300` fill=`#f5f5f5` stroke=`#cccccc` stroke-width=`1` />
          <text x=`400` y=`330` font-family=`Arial` font-size=`16` text-anchor=`middle` fill=`#666666`>
            Slide Content
          </text>
        </g>
      " in
  let contentText :=
    joinWith (String lf "")
      (mapIndexed 0
         (fun text index =>
            q "<text x=`50` y=`"
    +:+ ofZ (150 + index * 30)
    +:+ q "` font-family=`Arial` font-size=`16` fill=`#333333`>"
    +:+ escapeHtml text
    +:+ q "</text>")
         content) in
  let svgContent :=
    q "<?xml version=`1.0` encoding=`UTF-8` standalone=`no`?>
  <svg width=`800` height=`600` xmlns=`http://www.w3.org/2000/svg`>
    <!-- Background with gradient -->
    <defs>
      <linearGradient id=`slideGradient` x1=`0%` y1=`0%` x2=`0%` y2=`100%`>
        <stop offset=`0%` style=`stop-color:#f0f4ff;stop-opacity:1` />
        <stop offset=`100%` style=`stop-color:#e0e8ff;stop-opacity:1` />
      </linearGradient>
    </defs>
    <rect width=`800` height=`600` fill=`url(#slideGradient)`/>
    
    <!-- Slide border -->
    <rect width=`798` height=`598` x=`1` y=`1` fill=`none` stroke=`#dddddd` stroke-width=`2`/>
    
    <!-- Slide number -->
    <text x=`750` y=`30` font-family=`Arial` font-size=`14` text-anchor=`end` fill=`#666666`>
      "
  +:+ ofZ slideNumber
  +:+ q " / "
  +:+ ofZ totalSlides
  +:+ q "
    </text>
    
    <!-- Title area with background -->
    <rect x=`0` y=`40` width=`800` height=`70` fill=`#4a86e8` opacity=`0.8`/>
    <text x=`50` y=`85` font-family=`Arial` font-size=`28` font-weight=`bold` fill=`white`>
      "
  +:+ escapeHtml title
  +:+ q "
    </text>
    
    <!-- Content text elements -->
    "
  +:+ contentText
  +:+ q "
    
    <!-- Image elements -->
    "
  +:+ imageElements
  +:+ q "
  </svg>
  " in
  Buffer.toBase64 (Buffer.fromString svgContent).

Definition placeholderSvg (slideNumber totalSlides : Z) : string :=
  q "<?xml version=`1.0` encoding=`UTF-8` standalone=`no`?>
  <svg width=`800` height=`600` xmlns=`http://www.w3.org/2000/svg`>
    <!-- Background with gradient -->
    <defs>
      <linearGradient id=`slideGradient` x1=`0%` y1=`0%` x2=`0%` y2=`100%`>
        <stop offset=`0%` style=`stop-color:#f0f4ff;stop-opacity:1` />
        <stop offset=`100%` style=`stop-color:#e0e8ff;stop-opacity:1` />
      </linearGradient>
    </defs>
    <rect width=`800` height=`600` fill=`url(#slideGradient)`/>
    
    <!-- Slide border -->
    <rect width=`798` height=`598` x=`1` y=`1` fill=`none` stroke=`#dddddd` stroke-width=`2`/>
    
    <!-- Slide number -->
    <text x=`750` y=`30` font-family=`Arial` font-size=`14` text-anchor=`end` fill=`#666666`>
      "
  +:+ ofZ slideNumber
  +:+ q " / "
  +:+ ofZ totalSlides
  +:+ q "
    </text>
    
    <!-- Title area with background -->
    <rect x=`0` y=`40` width=`800` height=`70` fill=`#4a86e8` opacity=`0.8`/>
    <text x=`50` y=`85` font-family=`Arial` font-size=`28` font-weight=`bold` fill=`white`>
      Slide "
  +:+ ofZ slideNumber
  +:+ q "
    </text>
    
    <!-- Center content area with placeholder message -->
    <rect x=`150` y=`200` width=`500` height=`200` rx=`8` ry=`8` fill=`#f9f9f9` stroke=`#dddddd` stroke-width=`1`/>
    <text x=`400` y=`270` font-family=`Arial` font-size=`22` text-anchor=`middle` fill=`#333333` font-weight=`bold`>
      PowerPoint Slide "
  +:+ ofZ slideNumber
  +:+ q "
    </text>
    <text x=`400` y=`310` font-family=`Arial` font-size=`16` text-anchor=`middle` fill=`#666666`>
      This slide will display content from your presentation
    </text>
    <text x=`400` y=`340` font-family=`Arial` font-size=`16` text-anchor=`middle` fill=`#666666`>
      You can add annotations using the form on the right
    </text>
    
    <!-- Logo/branding element -->
    <rect x=`350` y=`500` width=`100` height=`40` rx=`20` ry=`20` fill=`#4a86e8`/>
    <text x=`400` y=`525` font-family=`Arial` font-size=`18` text-anchor=`middle` fill=`white` font-weight=`bold`>
      Slide "
  +:+ ofZ slideNumber
  +:+ q "
    </text>
  </svg>
  ".

Definition createPlaceholderImage (slideNumber totalSlides : Z) : string :=
  let svgImage := placeholderSvg slideNumber totalSlides in
  let base64 := Buffer.toBase64 (Buffer.fromString svgImage) in
  base64.

End Pure.

(** ** [server/services/presentationService.ts]: the pipeline *)

Module presentationService.
Import JsString Regex Pure.

(** [await execPromise(command)]: throws when the command fails. *)
Definition execPromise (env : Env) (command : string) : M unit :=
  fun w =>
    let '(ok, t) := shell env command (fs w) in
    (if ok then Ok tt else Throw "Command failed",
     mkWorld t (pg w) (sqlite w) (uuids w) (pgFaults w) (sqliteFaults w)).

(** [for (let i = from; i <= to; i++) body(i)], run [count] times. *)
Fixpoint forCount (count : nat) (i : Z) (body : Z -> M unit) : M unit :=
  match count with
  | O => ret tt
  | S c => body i >> forCount c (i + 1) body
  end.

Definition forRange (from to : Z) (body : Z -> M unit) : M unit :=
  forCount (Z.to_nat (to - from + 1)) from body.

(** A loop that pushes onto a local array: [acc] is the array so far. *)
Fixpoint foldOf {A S : Type} (xs : list A) (acc : S) (body : S -> A -> M S)
  : M S :=
  match xs with
  | [] => ret acc
  | x :: xs' => let* acc' := body acc x in foldOf xs' acc' body
  end.

Definition getSlideCount (env : Env) (filePath : string) : M Z :=
  if negb (endsWith (toLowerCase filePath) ".pptx") then ret 10
  else
    tryCatch
      (let* zip := AdmZip.open env filePath in
       let slideEntries := List.filter isSlideXml zip in
       if (0 <? List.length slideEntries)%nat
       then ret (Z.of_nat (List.length slideEntries))
       else
         match AdmZip.getEntry zip "ppt/presentation.xml" with
         | Some _ =>
             let* content := AdmZip.readAsText zip "ppt/presentation.xml" in
             let sldIdMatches := matchAll sldIdPattern content in
             if (0 <? List.length sldIdMatches)%nat
             then ret (Z.of_nat (List.length sldIdMatches))
             else ret 10
         | None => ret 10
         end)
      (fun _ => ret 10).

Definition createAndSavePlaceholder (env : Env) (presentationId : string)
    (slideNumber totalSlides : Z) : M unit :=
  let* slideId := uuidv4 env in
  let placeholderImage := createPlaceholderImage slideNumber totalSlides in
  storage.saveSlide presentationId slideNumber slideId placeholderImage.

Definition createFallbackSlides (env : Env) (presentationId filePath : string)
  : M unit :=
  tryCatch
    (let* zip := AdmZip.open env filePath in
     let slideEntries := List.filter isSlideXmlEntry zip in
     let totalSlides :=
       if (0 <? List.length slideEntries)%nat
       then Z.of_nat (List.length slideEntries) else 10 in
     forRange 1 totalSlides
       (fun i => createAndSavePlaceholder env presentationId i totalSlides))
    (fun _ =>
       forRange 1 10 (fun i => createAndSavePlaceholder env presentationId i 10)).

Definition isSlideRels (entry : ZipEntry) : bool :=
  startsWith (entryName entry) "ppt/slides/_rels/"
  && endsWith (entryName entry) ".rels".

Definition isMedia (entry : ZipEntry) : bool :=
  startsWith (entryName entry) "ppt/media/"
  && (endsWith (entryName entry) ".png" || endsWith (entryName entry) ".jpg"
      || endsWith (entryName entry) ".jpeg" || endsWith (entryName entry) ".gif").

Definition pushData (images : list string) (entry : ZipEntry) : M (list string) :=
  tryCatch
    (let* imageData := AdmZip.getData entry in
     ret (images ++ [Buffer.toBase64 (Buffer.fromBinary imageData)]))
    (fun _ => ret images).

Definition findImagesInPresentation (zip : list ZipEntry)
    (imageRefs : list string) (outputDir : string) : M (list string) :=
  let slideRelsEntries := List.filter isSlideRels zip in
  let* images :=
    foldOf slideRelsEntries []
      (fun images relsEntry =>
         let* relsContent := AdmZip.readAsText zip (entryName relsEntry) in
         foldOf imageRefs images
           (fun images rId =>
              match search (targetPattern rId) relsContent with
              | Some targetMatch =>
                  if String.eqb (group1 targetMatch) "" then ret images
                  else
                    let targetPath := group1 targetMatch in
                    let mediaPath :=
                      if startsWith targetPath "../"
                      then "ppt/" +:+ substringFrom 3 targetPath
                      else "ppt/slides/" +:+ targetPath in
                    match AdmZip.getEntry zip mediaPath with
                    | Some imageEntry => pushData images imageEntry
                    | None => ret images
                    end
              | None => ret images
              end)) in
  if (List.length images =? 0)%nat
  then foldOf (List.filter isMedia zip) images pushData
  else ret images.

(** [totalSlides || detectedSlideCount], for an optional [totalSlides]. *)
Definition orDetected (totalSlides : option Z) (detectedSlideCount : Z) : Z :=
  match totalSlides with
  | Some 0 | None => detectedSlideCount
  | Some n => n
  end.

Definition renderSlide (env : Env) (zip : list ZipEntry)
    (presentationId outputDir : string) (actualTotalSlides : Z)
    (i : Z) (slideXML : ZipEntry) : M unit :=
  let slideNumber := i + 1 in
  let* slideId := uuidv4 env in
  let* slideContent := AdmZip.readAsText zip (entryName slideXML) in
  let text := extractTextFromSlideXML slideContent in
  let slideImageRefs := extractImageReferencesFromXML slideContent in
  let* slideImages := findImagesInPresentation zip slideImageRefs outputDir in
  let imageBase64 :=
    createRichSlideVisualization slideNumber actualTotalSlides
      (title text) (content text) slideImages in
  storage.saveSlide presentationId slideNumber slideId imageBase64.

Definition processSlides (env : Env) (filePath presentationId outputDir : string)
    (totalSlides : option Z) : M unit :=
  tryCatch
    (if negb (endsWith (toLowerCase filePath) ".pptx")
     then throw "Only PPTX files are supported"
     else
       let* zip := AdmZip.open env filePath in
       let slideXMLs := Js.sortBy byEntryNumber (List.filter isSlideXml zip) in
       let detectedSlideCount := Z.of_nat (List.length slideXMLs) in
       let actualTotalSlides := orDetected totalSlides detectedSlideCount in
       if detectedSlideCount =? 0 then
         createAndSavePlaceholder env presentationId 1
           (if 0 <? actualTotalSlides then actualTotalSlides else 1)
       else
         forEachFrom 0 slideXMLs
           (renderSlide env zip presentationId outputDir actualTotalSlides))
    (fun _ => createFallbackSlides env presentationId filePath).

(** The loop that stores the images of a listing; [cleanUp] tells whether
    each image file is removed once stored (only the first listing of
    [processPresentation] does that). *)
Definition saveImages (env : Env) (presentationId imagesDir : string)
    (cleanUp : bool) (files : list string) : M unit :=
  forEachFrom 0 files
    (fun i file =>
       let slideNumber := i + 1 in
       let* slideId := uuidv4 env in
       let imagePath := Fs.join imagesDir file in
       let* there := Fs.existsSync imagePath in
       when there
         (let* bytes := Fs.readFileSync imagePath in
          let imageData := Buffer.toBase64 (Buffer.fromBinary bytes) in
          storage.saveSlide presentationId slideNumber slideId imageData >>
          when cleanUp (tryCatch (Fs.unlinkSync imagePath) (fun _ => ret tt)))).

Definition sofficeCommand (outputDir filePath : string) : string :=
  q "soffice --headless --convert-to pdf --outdir `" +:+ outputDir
    +:+ q "` `" +:+ filePath +:+ q "`".

Definition pdftoppmCommand (options pdfPath imagesDir : string) : string :=
  "pdftoppm -png " +:+ options +:+ q "`" +:+ pdfPath +:+ q "` `" +:+ imagesDir
    +:+ q "/slide`".

Definition convertCommand (pdfPath imagesDir : string) : string :=
  q "convert -density 96 -quality 85 -background white -alpha remove `"
    +:+ pdfPath +:+ q "` `" +:+ imagesDir +:+ q "/slide-%d.jpg`".

(** How a [try] block of [processPresentation] ends without throwing:
    by [return presentationId], or at its end with the flag [success]. *)
Inductive Attempt : Type :=
| Returned (presentationId : string)
| Finished (success : bool).

(** The steps shared by both conversion blocks: export to PDF and give
    the PDF its standard name. *)
Definition exportPdf (env : Env) (filePath outputDir pdfPath : string) : M unit :=
  execPromise env (sofficeCommand outputDir filePath) >>
  let baseFileName := Fs.basenameWithout filePath (Fs.extname filePath) in
  let generatedPdfPath := Fs.join outputDir (baseFileName +:+ ".pdf") in
  let* generated := Fs.existsSync generatedPdfPath in
  when (generated && negb (String.eqb generatedPdfPath pdfPath))
    (Fs.renameSync generatedPdfPath pdfPath).

Definition ensureDir (dir : string) : M unit :=
  let* there := Fs.existsSync dir in when (negb there) (Fs.mkdirSync dir).

(** The first [try] block (lines 35 to 174 of the source). *)
Definition firstAttempt (env : Env) (filePath presentationId outputDir : string)
  : M Attempt :=
  let imagesDir := Fs.join outputDir "images" in
  ensureDir imagesDir >>
  let pdfPath := Fs.join outputDir "presentation.pdf" in
  exportPdf env filePath outputDir pdfPath >>
  let* pdf := Fs.existsSync pdfPath in
  let* returned :=
    (if pdf then
       execPromise env (pdftoppmCommand "-r 150 " pdfPath imagesDir) >>
       let* names := Fs.readdirSync imagesDir in
       let slideFiles :=
         Js.sortBy byNumber (List.filter (fun file => endsWith file ".png") names) in
       if (0 <? List.length slideFiles)%nat then
         saveImages env presentationId imagesDir true slideFiles >>
         tryCatch (Fs.unlinkSync pdfPath) (fun _ => ret tt) >>
         ret true
       else ret false
     else ret false) in
  if returned then ret (Returned presentationId)
  else
    let* names := Fs.readdirSync imagesDir in
    let files := Js.sortBy byDashNumber (List.filter (test dashPattern) names) in
    if (0 <? List.length files)%nat then
      saveImages env presentationId imagesDir false files >>
      ret (Finished true)
    else
      let* names := Fs.readdirSync imagesDir in
      let pngFiles :=
        Js.sortBy Js.defaultCompare
          (List.filter (fun file => endsWith file ".png") names) in
      if (0 <? List.length pngFiles)%nat then
        saveImages env presentationId imagesDir false pngFiles >>
        ret (Finished true)
      else ret (Finished false).

(** The second [try] block (lines 181 to 293), run when the first one
    has not set [success]; its result is the flag. *)
Definition secondAttempt (env : Env) (filePath presentationId outputDir : string)
  : M bool :=
  let pdfPath := Fs.join outputDir "presentation.pdf" in
  let imagesDir := Fs.join outputDir "images" in
  ensureDir imagesDir >>
  exportPdf env filePath outputDir pdfPath >>
  let* pdf := Fs.existsSync pdfPath in
  if pdf then
    tryCatch
      (execPromise env "which pdftoppm" >>
       execPromise env (pdftoppmCommand "" pdfPath imagesDir) >>
       let* names := Fs.readdirSync imagesDir in
       let images :=
         Js.sortBy byNumber (List.filter (fun file => endsWith file ".png") names) in
       if (0 <? List.length images)%nat then
         saveImages env presentationId imagesDir false images >> ret true
       else ret false)
      (fun _ =>
         tryCatch
           (execPromise env (convertCommand pdfPath imagesDir) >>
            let* names := Fs.readdirSync imagesDir in
            let images :=
              Js.sortBy byJpgNumber (List.filter (test jpgPattern) names) in
            if (0 <? List.length images)%nat then
              saveImages env presentationId imagesDir false images >> ret true
            else ret false)
           (fun _ => ret false))
  else ret false.

(** The clean-up of the uploaded file (lines 303 to 309 and 316 to 322). *)
Definition cleanUpUpload (filePath : string) : M unit :=
  tryCatch
    (let* there := Fs.existsSync filePath in when there (Fs.unlinkSync filePath))
    (fun _ => ret tt).

Definition processPresentation (env : Env) (filename filePath : string)
  : M string :=
  tryCatch
    (let* presentationId := storage.createPresentation env filename in
     let outputDir := Fs.join (Fs.join (cwd env) "uploads") presentationId in
     ensureDir outputDir >>
     let* totalSlides := getSlideCount env filePath in
     let* first :=
       tryCatch (firstAttempt env filePath presentationId outputDir)
         (fun _ => ret (Finished false)) in
     match first with
     | Returned id => ret id
     | Finished success1 =>
         let* success :=
           (if negb success1 then
              tryCatch (secondAttempt env filePath presentationId outputDir)
                (fun _ => ret false)
            else ret success1) in
         when (negb success)
           (processSlides env filePath presentationId outputDir (Some totalSlides)) >>
         cleanUpUpload filePath >>
         ret presentationId
     end)
    (fun error => cleanUpUpload filePath >> throw error).

End presentationService.

(** ** [server/routes.ts]: the handlers

    A handler answers with at most one reply.  [status] is 200 unless the
    handler sets it; [contentType] and [cacheControl] are the headers it
    sets itself. *)

Module routes.
Import JsString.

Inductive Body : Type :=
| Message (message : string)
| Created (message presentation_id : string)
| PresentationBody (presentation : PresentationRow)
| SlidesBody (slides : list SlideRow)
| AnnotationsBody (annotations : gmap string (list Tag))
| Saved (message slideId : string) (tags : list Tag)
| Table (message table : string) (count : nat)
    (data : list (string * list Tag))
| Text (text : string)                (* [res.send] of a string *)
| Bytes (bytes : list Buffer.byte).   (* [res.send] of a buffer *)

Record Reply : Type := mkReply {
  status : Z;
  contentType : option string;
  cacheControl : option string;
  body : Body
}.

Definition json (status : Z) (body : Body) : Reply :=
  mkReply status None None body.

(** The body of a request that should hold tags. *)
Inductive RequestBody : Type :=
| NotAnArray
| TagArray (tags : list Tag).


(** [GET /api/presentations/:id] *)
Definition getPresentation (presentationId : string) : M (option Reply) :=
  tryCatch
    (let* presentation := storage.getPresentation presentationId in
     match presentation with
     | None => ret (Some (json 404 (Message "Presentation not found")))
     | Some p => ret (Some (json 200 (PresentationBody p)))
     end)
    (fun error => ret (Some (json 500 (Message error)))).

(** [GET /api/presentations/:id/slides] *)
Definition getSlides (presentationId : string) : M (option Reply) :=
  tryCatch
    (let* slides := storage.getSlides presentationId in
     ret (Some (json 200 (SlidesBody slides))))
    (fun error => ret (Some (json 500 (Message error)))).

(** The content type read from the signature of a binary image. *)
Definition signatureType (imageBuffer : list Buffer.byte) : string :=
  let at_ (i : nat) : N := List.nth i imageBuffer 0%N in
  let len := List.length imageBuffer in
  if (2 <? len)%nat then
    if ((at_ 0%nat =? 255) && (at_ 1%nat =? 216))%N then "image/jpeg"
    else if (8 <? len)%nat
            && ((at_ 0%nat =? 137) && (at_ 1%nat =? 80)
                && (at_ 2%nat =? 78) && (at_ 3%nat =? 71))%N
    then "image/png"
    else if (3 <? len)%nat
            && ((at_ 0%nat =? 71) && (at_ 1%nat =? 73) && (at_ 2%nat =? 70))%N
    then "image/gif"
    else "image/png"
  else "image/png".

Definition sendBinary (imageBuffer : list Buffer.byte) : Reply :=
  mkReply 200 (Some (signatureType imageBuffer)) (Some "public, max-age=86400")
    (Bytes imageBuffer).

Definition sendSvg (text : string) : Reply :=
  mkReply 200 (Some "image/svg+xml") (Some "public, max-age=86400") (Text text).

(** [GET /api/slides/:id/image]; [toStringUtf8] is [buf.toString('utf8')]. *)
Definition getSlideImage (toStringUtf8 : list Buffer.byte -> string)
    (slideId : string) : M (option Reply) :=
  tryCatch
    (let* slide := storage.getSlide slideId in
     match slide with
     | None => ret (Some (json 404 (Message "Slide image not found")))
     | Some slide =>
         if String.eqb (slide_image slide) "" then
           ret (Some (json 404 (Message "Slide image not found")))
         else
           let imageBuffer := Buffer.fromBase64 (slide_image slide) in
           let svgString := toStringUtf8 imageBuffer in
           if (startsWith (slide_image slide) "PHN2Zy"
               || startsWith (slide_image slide) "PD94bWw=")
              && (includes svgString "<svg" || includes svgString "<?xml")
           then
             if includes svgString "<foreignObject"
                || includes svgString "xmlns:xhtml"
             then
               if negb (startsWith svgString "<?xml") then
                 ret (Some (sendSvg
                              (q "<?xml version=`1.0` encoding=`UTF-8` standalone=`no`?>"
                                 +:+ String lf "" +:+ svgString)))
               else ret (Some (sendSvg svgString))
             else ret (Some (sendSvg svgString))
           else ret (Some (sendBinary imageBuffer))
     end)
    (fun error => ret (Some (json 500 (Message error)))).

(** [GET /api/presentations/:id/annotations] *)
Definition getAnnotations (presentationId : string) : M (option Reply) :=
  tryCatch
    (let* annotations := storage.getAnnotations presentationId in
     ret (Some (json 200 (AnnotationsBody annotations))))
    (fun error => ret (Some (json 500 (Message error)))).

(** [POST /api/slides/:id/annotations] *)
Definition saveAnnotations (slideId : string) (requestBody : RequestBody)
  : M (option Reply) :=
  tryCatch
    (match requestBody with
     | NotAnArray =>
         ret (Some (json 400
                      (Message "Invalid tags format. Expected an array of key-value pairs")))
     | TagArray tags =>
         storage.saveAnnotations slideId tags >>
         ret (Some (json 200 (Saved "Annotations saved successfully" slideId tags)))
     end)
    (fun error => ret (Some (json 500 (Message error)))).

(** [POST /api/presentations/:id/submit] *)
Definition submitPresentation (presentationId : string) : M (option Reply) :=
  tryCatch
    (storage.submitPresentation presentationId >>
     ret (Some (json 200 (Message "Annotations submitted successfully"))))
    (fun error => ret (Some (json 500 (Message error)))).

(** [GET /api/sqlite/output/:presentationId] *)
Definition getSqliteOutput (presentationId : string) : M (option Reply) :=
  tryCatch
    (let* annotations := sqliteStorage.getAnnotations presentationId in
     ret (Some (json 200
                  (Table "SQLite output table data retrieved successfully"
                     "output" (List.length annotations) annotations))))
    (fun error => ret (Some (json 500 (Message error)))).

End routes.

(** ** The annotation form and the slide pager of the client

    The handlers of [AnnotationForm] as functions of the state of the form
    ([annotationFields]) and of its property [annotations]; a call of
    [onSave(slideId, tags)] is the list [tags].  [handleFieldChange] writes
    into the objects that the state shares with [annotations] and is not
    embedded. *)

Module AnnotationForm.

Definition blank : Tag := mkTag "" "".

(** The effect that follows [annotations]. *)
Definition fieldsFor (annotations : list Tag) : list Tag :=
  if (0 <? List.length annotations)%nat then annotations else [blank].

Definition handleAddField (annotationFields : list Tag) : list Tag :=
  annotationFields ++ [blank].

(** [l.filter((_, i) => i !== index)], counting from [i]. *)
Fixpoint withoutIndex {A : Type} (index i : nat) (l : list A) : list A :=
  match l with
  | [] => []
  | x :: l' =>
      if (i =? index)%nat then withoutIndex index (S i) l'
      else x :: withoutIndex index (S i) l'
  end.

Definition handleRemoveField (index : nat) (annotationFields : list Tag)
  : list Tag :=
  let updatedFields := withoutIndex index 0 annotationFields in
  if (0 <? List.length updatedFields)%nat then updatedFields else [blank].

(** The tags handed to [onSave]. *)
Definition handleRemoveAnnotation (key_ : string) (annotations : list Tag)
  : list Tag :=
  List.filter (fun annotation => negb (String.eqb (key annotation) key_))
    annotations.

(** The tags handed to [onSave], when it is called. *)
Definition handleSubmit (annotationFields : list Tag) : option (list Tag) :=
  let validFields :=
    List.filter
      (fun field =>
         negb (String.eqb (JsString.trim (key field)) "")
         && negb (String.eqb (JsString.trim (value field)) ""))
      annotationFields in
  if (0 <? List.length validFields)%nat then Some validFields else None.

End AnnotationForm.

(** The pager of [SlideAnnotation]: the index of the slide on display. *)
Module SlideAnnotation.

Definition handlePreviousSlide (currentSlideIndex : Z) : Z :=
  if 0 <? currentSlideIndex then currentSlideIndex - 1 else currentSlideIndex.

Definition handleNextSlide (slides : list SlideRow) (currentSlideIndex : Z) : Z :=
  if currentSlideIndex <? Z.of_nat (List.length slides) - 1
  then currentSlideIndex + 1 else currentSlideIndex.

End SlideAnnotation.

(** ** Vocabulary of the properties *)

(** The primary store after [DELETE FROM slide_annotations WHERE slide_id]. *)
Definition deleteAnnotations (slideId : string) (d : Pg) : Pg :=
  mkPg (presentationsT d) (slidesT d)
    (List.filter (fun r => negb (String.eqb (ann_slide_id r) slideId))
       (slideAnnotationsT d)).

Definition withPg (w : World) (d : Pg) : World :=
  mkWorld (fs w) d (sqlite w) (uuids w) (pgFaults w) (sqliteFaults w).

(** What [getAnnotations] answers on a healthy primary store. *)
Definition annotationsOf (presentationId : string) (d : Pg)
  : gmap string (list Tag) :=
  List.fold_left
    (fun result annotation =>
       <[ann_slide_id annotation := ann_tags annotation]> result)
    (List.filter (fun r => String.eqb (ann_presentation_id r) presentationId)
       (slideAnnotationsT d))
    ∅.

(** The annotation rows that [saveAnnotations] inserts. *)
Definition insertedRows (slide : SlideRow) (slideId : string) (tags : list Tag)
  : list AnnotationRow :=
  match tags with
  | [] => []
  | _ :: _ => [mkAnnotationRow (slide_presentation_id slide) slideId tags]
  end.

(** What is then retrieved for the slide. *)
Definition retrievedTags (tags : list Tag) : option (list Tag) :=
  match tags with
  | [] => None
  | _ :: _ => Some tags
  end.

(** *** The slide-count detector, in the words of the design document *)




(** The number of places of [s] at which [p] starts. *)
Fixpoint occurrences (p s : string) : nat :=
  match s with
  | EmptyString => O
  | String _ s' => ((if String.prefix p s then 1 else 0) + occurrences p s')%nat
  end.

(** The number of slide-id markers in the manifest: none without a
    manifest, and [None] when the manifest cannot be read. *)
Definition manifestMarkers (zip : list ZipEntry) : option Z :=
  match AdmZip.getEntry zip "ppt/presentation.xml" with
  | Some e =>
      match entryData e with
      | Some content => Some (Z.of_nat (occurrences "<p:sldId" content))
      | None => None
      end
  | None => Some 0
  end.



(** *** The slide number embedded in a file name, in the words of the
    design document *)

(** The longest run of digits at the beginning of [s], and what follows. *)
Fixpoint digitRun (s : string) : string * string :=
  match s with
  | String c s' =>
      if JsString.isDigit c
      then let '(d, r) := digitRun s' in (String c d, r)
      else ("", s)
  | EmptyString => ("", "")
  end.





(** The state of a match after reading the characters of [s]. *)
Fixpoint pushString (s : string) (st : Regex.mstate) : Regex.mstate :=
  match s with
  | EmptyString => st
  | String c s' => pushString s' (Regex.push c st)
  end.


(** What may follow the digits of such a pattern: nothing, or a text that
    does not begin with a digit. *)
Definition noDigitFirst (post : string) : bool :=
  match post with
  | EmptyString => true
  | String c _ => negb (JsString.isDigit c)
  end.

Definition allDigits (d : string) : Prop :=
  Forall (fun c => JsString.isDigit c = true) (list_ascii_of_string d).




(** *** Rows of the [slides] table *)

Definition addSlide (row : SlideRow) (d : Pg) : Pg :=
  mkPg (presentationsT d) (slidesT d ++ [row]) (slideAnnotationsT d).



(** The ten files of a ten-page conversion. *)
Definition tenFiles : list string :=
  ["slide-01.png"; "slide-02.png"; "slide-03.png"; "slide-04.png";
   "slide-05.png"; "slide-06.png"; "slide-07.png"; "slide-08.png";
   "slide-09.png"; "slide-10.png"].

(** *** The fallback extractor *)

(** Whether [zip.readAsText(name)] answers rather than throws. *)
Definition readable (zip : list ZipEntry) (name : string) : bool :=
  match AdmZip.getEntry zip name with
  | Some e => match entryData e with Some _ => true | None => false end
  | None => true
  end.


Definition relsReadable (zip : list ZipEntry) : bool :=
  List.forallb (fun e => readable zip (entryName e))
    (List.filter presentationService.isSlideRels zip).




(** *** Text extraction *)

Definition nonBlank (text : string) : bool :=
  (0 <? String.length (JsString.trim text))%nat.

Fixpoint allChars (f : ascii -> bool) (s : string) : bool :=
  match s with
  | EmptyString => true
  | String c s' => f c && allChars f s'
  end.

(** No text tag opens in [before]. *)
Definition noTextTag (before : string) : bool :=
  (occurrences "<a:t>" before =? 0)%nat.

(** A text that is not empty and holds neither [<] nor a line terminator. *)
Definition plainRun (text : string) : bool :=
  negb (String.eqb text "")
  && allChars
       (fun c => JsString.notLineTerminator c && JsString.notChar "<"%char c)
       text.

(** The claim of the design document as it is worded: the title is the
    first text run, and the content is the other runs that are not blank. *)
Definition titleIsFirstRun (slideXML : string) : Prop :=
  forall first others,
    Pure.textRuns slideXML = first :: others ->
    Pure.title (Pure.extractTextFromSlideXML slideXML) = first
    /\ Pure.content (Pure.extractTextFromSlideXML slideXML)
       = List.filter nonBlank others.

(** *** Bytes and their base64 text *)

Definition isByte (b : Buffer.byte) : Prop := (b < 256)%N.

Definition byteRange : list N := List.map N.of_nat (List.seq 0 256).

(** The character of a sextet is no padding and decodes to the sextet. *)
Definition sextetOk (n : N) : bool :=
  negb (Ascii.eqb (Buffer.sextet n) "="%char)
  && match Buffer.unsextet (Buffer.sextet n) with
     | Some m => (m =? n)%N
     | None => false
     end.

(** *** Characters of a text *)

Fixpoint hasChar (c : ascii) (s : string) : bool :=
  match s with
  | EmptyString => false
  | String x s' => Ascii.eqb x c || hasChar c s'
  end.

(** *** The placeholders of the last resort *)



(** *** The mirror *)


(** Whether the primary store answers its next statement. *)
Definition primaryAnswers (w : World) : bool :=
  match pgFaults w with
  | true :: _ => false
  | _ => true
  end.


(** The rows of the [output] table for a slide of a presentation, and the
    other rows. *)
Definition rowsOf (presentationId slideId : string) (rows : list OutputRow)
  : list OutputRow :=
  List.filter (sqliteStorage.sameSlide presentationId slideId) rows.

Definition rowsBeside (presentationId slideId : string) (rows : list OutputRow)
  : list OutputRow :=
  List.filter (fun r => negb (sqliteStorage.sameSlide presentationId slideId r))
    rows.

(** *** Replies *)

(** The row of a presentation once [presentationId] has been submitted. *)
Definition markSubmitted (presentationId : string) (r : PresentationRow)
  : PresentationRow :=
  if String.eqb (pres_id r) presentationId
  then mkPresentationRow (pres_id r) (pres_name r) true
  else r.

(** The reply to a request that saves annotations, on a primary store that
    answers. *)
Definition annotationReply (slideId : string) (requestBody : routes.RequestBody)
    (d : Pg) : routes.Reply :=
  match requestBody with
  | routes.NotAnArray =>
      routes.json 400
        (routes.Message "Invalid tags format. Expected an array of key-value pairs")
  | routes.TagArray [] =>
      routes.json 200 (routes.Saved "Annotations saved successfully" slideId [])
  | routes.TagArray tags =>
      match List.find (fun r => String.eqb (slide_id r) slideId) (slidesT d) with
      | Some _ =>
          routes.json 200
            (routes.Saved "Annotations saved successfully" slideId tags)
      | None => routes.json 500 (routes.Message "Slide not found")
      end
  end.

(** *** The number of a slide-XML entry *)



(** *** The media of an archive *)

(** The base64 texts of the media entries that can be decompressed, in the
    order of the archive. *)
Definition mediaOf (entries : list ZipEntry) : list string :=
  List.flat_map
    (fun e =>
       match entryData e with
       | Some d => [Buffer.toBase64 (Buffer.fromBinary d)]
       | None => []
       end)
    entries.

Definition allMedia (zip : list ZipEntry) : list string :=
  mediaOf (List.filter presentationService.isMedia zip).

(** *** The annotation form and the pager *)

(** A field that [handleSubmit] keeps. *)
Definition complete (field : Tag) : bool :=
  negb (String.eqb (JsString.trim (key field)) "")
  && negb (String.eqb (JsString.trim (value field)) "").

(** The buttons of the pager, and the index after a run of them. *)
Inductive Move : Type :=
| Previous
| Next.

Definition page (slides : list SlideRow) (currentSlideIndex : Z)
    (moves : list Move) : Z :=
  List.fold_left
    (fun i move =>
       match move with
       | Previous => SlideAnnotation.handlePreviousSlide i
       | Next => SlideAnnotation.handleNextSlide slides i
       end)
    moves currentSlideIndex.

(** *** What a computation keeps of the primary store *)






(** What [processPresentation] does once its working directory exists. *)
Definition conversion (env : Env) (filePath presentationId outputDir : string)
  : M string :=
  let* totalSlides := presentationService.getSlideCount env filePath in
  let* first :=
    tryCatch
      (presentationService.firstAttempt env filePath presentationId outputDir)
      (fun _ => ret (presentationService.Finished false)) in
  match first with
  | presentationService.Returned id => ret id
  | presentationService.Finished success1 =>
      let* success :=
        (if negb success1 then
           tryCatch
             (presentationService.secondAttempt env filePath presentationId
                outputDir)
             (fun _ => ret false)
         else ret success1) in
      when (negb success)
        (presentationService.processSlides env filePath presentationId
           outputDir (Some totalSlides)) >>
      presentationService.cleanUpUpload filePath >>
      ret presentationId
  end.

(** *** Image references *)

(** A relationship identifier: [rId] and a number. *)
Definition plainReference (rId : string) : Prop :=
  exists d, rId = "rId" +:+ d /\ allDigits d /\ d <> "".

(** *** The numbers of the other listings *)





(** *** The mirror of the slides *)


(** A computation whose runs are all related by [R]. *)
Definition steady {A : Type} (R : World -> World -> Prop) (m : M A) : Prop :=
  forall w r w', m w = (r, w') -> R w w'.


(** ** Example states *)

Module Examples.

Definition emptyWorld : World :=
  mkWorld [] (mkPg [] [] []) (mkSqlite [] []) 0 [] [].

(** One presentation with one annotated slide. *)
Definition annotatedWorld : World :=
  mkWorld []
    (mkPg [mkPresentationRow "p1" "deck.pptx" false]
          [mkSlideRow "p1" "s1" 1 "aW1hZ2U="]
          [mkAnnotationRow "p1" "s1" [mkTag "topic" "old"]])
    (mkSqlite [] []) 0 [] [].

Definition uuidOf (n : nat) : string := "id-" +:+ JsString.ofZ (Z.of_nat n).

(** A deck of three slides whose second slide cannot be decompressed. *)
Definition damagedDeck : list ZipEntry :=
  [mkZipEntry "ppt/slides/slide1.xml" (Some "<p:sld><a:t>One</a:t></p:sld>");
   mkZipEntry "ppt/slides/slide2.xml" None;
   mkZipEntry "ppt/slides/slide3.xml" (Some "<p:sld><a:t>Three</a:t></p:sld>")].

(** A deck of three slides in good order. *)
Definition soundDeck : list ZipEntry :=
  [mkZipEntry "ppt/slides/slide2.xml" (Some "<p:sld><a:t>Two</a:t></p:sld>");
   mkZipEntry "ppt/slides/slide1.xml" (Some "<p:sld><a:t>One</a:t></p:sld>");
   mkZipEntry "ppt/slides/slide3.xml" (Some "<p:sld><a:t>Three</a:t></p:sld>")].

(** An archive without any slide, whose manifest lists none. *)
Definition emptyDeck : list ZipEntry :=
  [mkZipEntry "ppt/presentation.xml" (Some "<p:presentation/>")].

Definition unzipExample (bytes : string) : option (list ZipEntry) :=
  if String.eqb bytes "PK damaged" then Some damagedDeck
  else if String.eqb bytes "PK sound" then Some soundDeck
  else if String.eqb bytes "PK empty" then Some emptyDeck
  else None.

(** No converter is installed: every command fails. *)
Definition noTools (command : string) (t : FS) : bool * FS := (false, t).

(** The converters are installed: the office suite writes the PDF of the
    first presentation, and the rasteriser its ten pages. *)
Definition converters (command : string) (t : FS) : bool * FS :=
  if String.prefix "soffice" command then
    (true, t ++ [("/srv/uploads/id-0/deck.pdf", File "%PDF")])
  else if String.prefix "pdftoppm" command then
    (true,
     t ++ List.map
            (fun f => (Fs.join "/srv/uploads/id-0/images" f, File ("png " +:+ f)))
            (List.rev tenFiles))
  else (false, t).

Definition bareEnv : Env := mkEnv uuidOf noTools unzipExample "/srv".
Definition convertingEnv : Env := mkEnv uuidOf converters unzipExample "/srv".

(** A state in which [deck.pptx] has just been uploaded. *)
Definition uploaded (bytes : string) : World :=
  mkWorld [("/srv/uploads", Dir); ("/srv/uploads/deck.pptx", File bytes)]
    (mkPg [] [] []) (mkSqlite [] []) 0 [] [].


(** One presentation whose only slide is a placeholder. *)
Definition placeholderWorld : World :=
  mkWorld []
    (mkPg [mkPresentationRow "p1" "deck.pptx" false]
          [mkSlideRow "p1" "s1" 1 (Pure.createPlaceholderImage 1 10)]
          [])
    (mkSqlite [] []) 0 [] [].

End Examples.

(** * Properties *)

(** ** The stores *)

Section StoreFacts.

Lemma pgStatement_healthy {A : Type} (f : Pg -> A * Pg) (w : World) :
  pgFaults w = [] ->
  pgStatement f w
  = (Ok (fst (f (pg w))),
     mkWorld (fs w) (snd (f (pg w))) (sqlite w) (uuids w) [] (sqliteFaults w)).
Proof.
  intros H. unfold pgStatement. rewrite H. destruct (f (pg w)); reflexivity.
Qed.

(** A statement sent to the mirror changes nothing but the mirror. *)
Lemma sqliteStatement_frame {A : Type} (f : Sqlite -> A * Sqlite) (w : World) :
  exists r d faults,
    sqliteStatement f w
    = (r, mkWorld (fs w) (pg w) d (uuids w) (pgFaults w) faults).
Proof.
  unfold sqliteStatement.
  destruct (sqliteFaults w) as [|[] faults]; try destruct (f (sqlite w));
    eauto.
Qed.

End StoreFacts.

(** C10.  Saving the empty list of annotations for a slide deletes the
    annotation rows of that slide, inserts nothing and succeeds, whether or
    not a slide with that identifier exists: the search for the slide, which
    throws "Slide not found", is done for a non-empty list only. *)
Theorem saveAnnotations_empty_succeeds (slideId : string) (w : World) :
  pgFaults w = [] ->
  storage.saveAnnotations slideId [] w
  = (Ok tt, withPg w (deleteAnnotations slideId (pg w)))
  /\ (forall tag tags,
        List.find (fun r => String.eqb (slide_id r) slideId) (slidesT (pg w)) = None ->
        storage.saveAnnotations slideId (tag :: tags) w
        = (Throw "Slide not found", withPg w (deleteAnnotations slideId (pg w)))).
Proof.
  intros H. unfold storage.saveAnnotations, storage.getSlide, bind, withPg.
  rewrite (pgStatement_healthy _ w H). cbn [fst snd].
  split.
  - cbn. rewrite H. reflexivity.
  - intros tag tags Hnone.
    replace (0 <? Z.of_nat (List.length (tag :: tags))) with true
      by (symmetry; apply Z.ltb_lt; cbn [List.length]; lia).
    rewrite pgStatement_healthy by reflexivity.
    cbn [fst snd pg slidesT fs sqlite uuids sqliteFaults].
    rewrite Hnone. unfold throw. rewrite H. reflexivity.
Qed.

Lemma saveAnnotations_empty_succeeds_witness :
  storage.saveAnnotations "ghost" [] Examples.annotatedWorld
  = (Ok tt, Examples.annotatedWorld)
  /\ storage.saveAnnotations "s1" [] Examples.annotatedWorld
     = (Ok tt, withPg Examples.annotatedWorld
                 (mkPg [mkPresentationRow "p1" "deck.pptx" false]
                       [mkSlideRow "p1" "s1" 1 "aW1hZ2U="] [])).
Proof.
  split.
  - exact (proj1 (saveAnnotations_empty_succeeds "ghost" Examples.annotatedWorld
                    eq_refl)).
  - exact (proj1 (saveAnnotations_empty_succeeds "s1" Examples.annotatedWorld
                    eq_refl)).
Defined.

Section AnnotationFacts.

Lemma world_eta (w : World) :
  pgFaults w = [] ->
  mkWorld (fs w) (pg w) (sqlite w) (uuids w) [] (sqliteFaults w) = w.
Proof. destruct w; cbn; intros ->; reflexivity. Qed.

Lemma getAnnotations_healthy (presentationId : string) (w : World) :
  pgFaults w = [] ->
  storage.getAnnotations presentationId w
  = (Ok (annotationsOf presentationId (pg w)), w).
Proof.
  intros H. unfold storage.getAnnotations, bind.
  rewrite pgStatement_healthy by assumption. cbn [fst snd].
  rewrite world_eta by assumption. reflexivity.
Qed.

Lemma insertAnnotations_frame (presentationId slideId : string)
    (tags : list Tag) (w : World) :
  exists r d faults,
    sqliteStorage.insertAnnotations presentationId slideId tags w
    = (r, mkWorld (fs w) (pg w) d (uuids w) (pgFaults w) faults).
Proof.
  unfold sqliteStorage.insertAnnotations, bind.
  destruct (sqliteStatement_frame
              (fun d => (List.find (sqliteStorage.sameSlide presentationId slideId)
                           (outputT d), d)) w)
    as (r & d & faults & ->).
  destruct r as [[row|]|e]; [| |eauto].
  - match goal with
    | |- context [sqliteStatement ?f ?w'] =>
        destruct (sqliteStatement_frame f w') as (r' & d' & faults' & ->)
    end.
    cbn. eauto.
  - match goal with
    | |- context [sqliteStatement ?f ?w'] =>
        destruct (sqliteStatement_frame f w') as (r' & d' & faults' & ->)
    end.
    cbn. eauto.
Qed.

Lemma fold_insert_other (k : string) (l : list AnnotationRow)
    (m : gmap string (list Tag)) :
  Forall (fun r => ann_slide_id r <> k) l ->
  List.fold_left (fun result a => <[ann_slide_id a := ann_tags a]> result) l m
    !! k = m !! k.
Proof.
  intros H. revert m. induction H as [|r l Hr _ IH]; intros m; cbn.
  - reflexivity.
  - rewrite IH. apply lookup_insert_ne. exact Hr.
Qed.

Lemma deleted_rows_other (slideId presentationId : string) (d : Pg) :
  Forall (fun r => ann_slide_id r <> slideId)
    (List.filter (fun r => String.eqb (ann_presentation_id r) presentationId)
       (slideAnnotationsT (deleteAnnotations slideId d))).
Proof.
  apply List.Forall_forall. intros r Hr.
  apply List.filter_In in Hr. destruct Hr as [Hr _].
  cbn in Hr. apply List.filter_In in Hr. destruct Hr as [_ Hr].
  apply negb_true_iff, String.eqb_neq in Hr. exact Hr.
Qed.

End AnnotationFacts.

(** C6.  Saving a set of annotations for an existing slide deletes the
    annotation rows of the slide and then inserts the new set as one row;
    afterwards the annotations retrieved for the presentation of the slide
    hold exactly the new set under the slide (nothing when the set is
    empty), and no other presentation holds anything under it. *)
Theorem saveAnnotations_replaces (slideId : string) (tags : list Tag)
    (slide : SlideRow) (w : World) :
  pgFaults w = [] ->
  List.find (fun r => String.eqb (slide_id r) slideId) (slidesT (pg w)) = Some slide ->
  exists w',
    storage.saveAnnotations slideId tags w = (Ok tt, w')
    /\ slideAnnotationsT (pg w')
       = slideAnnotationsT (deleteAnnotations slideId (pg w))
           ++ insertedRows slide slideId tags
    /\ forall presentationId,
         storage.getAnnotations presentationId w'
         = (Ok (annotationsOf presentationId (pg w')), w')
         /\ annotationsOf presentationId (pg w') !! slideId
            = if String.eqb (slide_presentation_id slide) presentationId
              then retrievedTags tags else None.
Proof.
  intros H Hslide.
  assert (Hlookup : forall d presentationId,
    slideAnnotationsT d
    = slideAnnotationsT (deleteAnnotations slideId (pg w))
        ++ insertedRows slide slideId tags ->
    annotationsOf presentationId d !! slideId
    = if String.eqb (slide_presentation_id slide) presentationId
      then retrievedTags tags else None).
  { intros d presentationId Hd. unfold annotationsOf. rewrite Hd.
    rewrite List.filter_app, List.fold_left_app.
    destruct tags as [|tag tags]; cbn [insertedRows retrievedTags List.filter].
    - cbn [List.fold_left]. rewrite fold_insert_other
        by apply deleted_rows_other.
      rewrite lookup_empty. destruct (String.eqb _ _); reflexivity.
    - cbn [ann_presentation_id].
      destruct (String.eqb (slide_presentation_id slide) presentationId);
        cbn [List.fold_left ann_slide_id ann_tags].
      + apply lookup_insert_eq.
      + rewrite fold_insert_other by apply deleted_rows_other.
        apply lookup_empty. }
  unfold storage.saveAnnotations, storage.getSlide, bind.
  rewrite (pgStatement_healthy _ w H). cbn [fst snd].
  destruct tags as [|tag tags].
  - cbn [List.length Z.of_nat Z.ltb Z.compare ret].
    eexists. split; [reflexivity|].
    cbn [pg slideAnnotationsT deleteAnnotations insertedRows].
    split; [symmetry; apply List.app_nil_r|].
    intros presentationId. split.
    + apply getAnnotations_healthy. reflexivity.
    + apply (Hlookup _ presentationId).
      cbn [pg slideAnnotationsT deleteAnnotations insertedRows].
      symmetry. apply List.app_nil_r.
  - replace (0 <? Z.of_nat (List.length (tag :: tags))) with true
      by (symmetry; apply Z.ltb_lt; cbn [List.length]; lia).
    rewrite pgStatement_healthy by reflexivity.
    cbn [fst snd pg slidesT fs sqlite uuids sqliteFaults].
    rewrite Hslide.
    rewrite pgStatement_healthy by reflexivity.
    cbn [fst snd pg slidesT fs sqlite uuids sqliteFaults presentationsT
         slideAnnotationsT].
    unfold tryCatch.
    match goal with
    | |- context [sqliteStorage.insertAnnotations ?a ?b ?c ?w0] =>
        destruct (insertAnnotations_frame a b c w0) as (r & d & faults & ->)
    end.
    cbn [fs pg sqlite uuids pgFaults sqliteFaults].
    eexists. split.
    { destruct r as [[]|e]; reflexivity. }
    cbn [pg slideAnnotationsT deleteAnnotations insertedRows].
    split; [reflexivity|].
    intros presentationId. split.
    + apply getAnnotations_healthy. reflexivity.
    + apply (Hlookup _ presentationId). reflexivity.
Qed.

Lemma saveAnnotations_replaces_witness :
  exists w',
    storage.saveAnnotations "s1" [mkTag "topic" "intro"] Examples.annotatedWorld
    = (Ok tt, w')
    /\ slideAnnotationsT (pg w')
       = [mkAnnotationRow "p1" "s1" [mkTag "topic" "intro"]]
    /\ forall presentationId,
         storage.getAnnotations presentationId w'
         = (Ok (annotationsOf presentationId (pg w')), w')
         /\ annotationsOf presentationId (pg w') !! "s1"
            = if String.eqb "p1" presentationId
              then Some [mkTag "topic" "intro"] else None.
Proof.
  exact (saveAnnotations_replaces "s1" [mkTag "topic" "intro"]
           (mkSlideRow "p1" "s1" 1 "aW1hZ2U=") Examples.annotatedWorld
           eq_refl eq_refl).
Defined.

(** ** The slide-count detector *)

Section DetectorFacts.
Import JsString Regex Pure.



Lemma append_cons (c : ascii) (a b : string) :
  String c a +:+ b = String c (a +:+ b).
Proof. reflexivity. Qed.

Lemma append_nil (b : string) : "" +:+ b = b.
Proof. reflexivity. Qed.

Lemma prefix_nil (s : string) : String.prefix "" s = true.
Proof. destruct s; reflexivity. Qed.

Lemma prefix_cons (a b : ascii) (p s : string) :
  String.prefix (String a p) (String b s) = Ascii.eqb a b && String.prefix p s.
Proof.
  cbn [String.prefix]. destruct (Ascii.ascii_dec a b) as [->|Hne].
  - rewrite Ascii.eqb_refl. reflexivity.
  - apply Ascii.eqb_neq in Hne. rewrite Hne. reflexivity.
Qed.




Lemma prefix_app (p s : string) :
  String.prefix p s = true -> exists s', s = p +:+ s'.
Proof.
  revert s. induction p as [|c p IH]; intros s H.
  - exists s. reflexivity.
  - destruct s as [|c' s]; [discriminate|].
    rewrite prefix_cons in H. apply andb_true_iff in H. destruct H as [Hc H].
    apply Ascii.eqb_eq in Hc. subst c'.
    destruct (IH s H) as [s' ->]. exists s'. reflexivity.
Qed.



End DetectorFacts.


(** The marker is counted wherever its text stands.  The element that wraps
    the list of slide identifiers begins with it too: a manifest that lists
    two slides holds three markers. *)
Lemma manifest_markers_example :
  manifestMarkers
    [mkZipEntry "ppt/presentation.xml"
       (Some (JsString.q
          "<p:sldIdLst><p:sldId id=`256`/><p:sldId id=`257`/></p:sldIdLst>"))]
  = Some 3.
Proof. reflexivity. Qed.

(** ** Patterns with a number *)

Section NumberPatternFacts.
Import JsString Regex Pure.

Lemma matchHere_lit_app (pre : string) (p : regex) (st : mstate) (s : string) :
  matchHere (lit pre ++ p) st s
  = if String.prefix pre s
    then matchHere p (pushString pre st) (dropString (String.length pre) s)
    else None.
Proof.
  revert st s. induction pre as [|c pre IH]; intros st s.
  - rewrite prefix_nil. reflexivity.
  - destruct s as [|c' s]; [reflexivity|].
    rewrite prefix_cons. cbn [lit List.app matchHere].
    destruct (Ascii.eqb c c') eqn:Hc; [|reflexivity].
    apply Ascii.eqb_eq in Hc. subst c'. rewrite IH. reflexivity.
Qed.

Lemma pushString_capturing (s : string) (st : mstate) :
  capturing (pushString s st) = capturing st.
Proof. revert st. induction s as [|c s IH]; intros st; [reflexivity|]. cbn. rewrite IH. reflexivity. Qed.

Lemma pushString_captured_off (s : string) (st : mstate) :
  capturing st = false -> captured (pushString s st) = captured st.
Proof.
  revert st. induction s as [|c s IH]; intros st H; [reflexivity|].
  cbn [pushString]. rewrite IH by exact H. cbn. rewrite H. reflexivity.
Qed.

Lemma pushString_captured_on (s : string) (st : mstate) :
  capturing st = true ->
  captured (pushString s st) = rev (list_ascii_of_string s) ++ captured st.
Proof.
  revert st. induction s as [|c s IH]; intros st H; [reflexivity|].
  cbn [pushString]. rewrite IH by exact H. cbn. rewrite H.
  rewrite <- List.app_assoc. reflexivity.
Qed.

Lemma matchHere_lit_state (post : string) (st : mstate) (s : string) :
  matchHere (lit post) st s
  = if String.prefix post s
    then Some (pushString post st, dropString (String.length post) s)
    else None.
Proof.
  rewrite <- (List.app_nil_r (lit post)), matchHere_lit_app. reflexivity.
Qed.

(** A greedy run of digits reads all the digits there are, when what
    follows in the pattern cannot begin with a digit it has given back. *)
Lemma rep_greedy_digits
    (rest : mstate -> string -> option (mstate * string))
    (n : nat) (st : mstate) (s : string) :
  (forall st1 s1 st2 c s2,
      isDigit c = true -> rest st1 s1 = None -> rest st2 (String c s2) = None) ->
  rep rest isDigit 1 true n st s
  = if (1 <=? n + String.length (fst (digitRun s)))%nat
    then rest (pushString (fst (digitRun s)) st) (snd (digitRun s))
    else None.
Proof.
  intros Hrest. revert n st. induction s as [|c s IH]; intros n st.
  - cbn. rewrite Nat.add_0_r. reflexivity.
  - cbn [rep digitRun]. destruct (isDigit c) eqn:Hc.
    + rewrite IH. destruct (digitRun s) as [d r] eqn:Hd. cbn [fst snd String.length pushString].
      replace (1 <=? S n + String.length d)%nat with true
        by (symmetry; apply Nat.leb_le; lia).
      replace (1 <=? n + S (String.length d))%nat with true
        by (symmetry; apply Nat.leb_le; lia).
      destruct (rest (pushString d (push c st)) r) eqn:Hr; [reflexivity|].
      destruct (1 <=? n)%nat; [|reflexivity].
      apply (Hrest _ _ st c s Hc Hr).
    + cbn [fst snd String.length pushString]. rewrite Nat.add_0_r. reflexivity.
Qed.

Lemma digitRun_digits (s : string) :
  Forall (fun c => isDigit c = true) (list_ascii_of_string (fst (digitRun s))).
Proof.
  induction s as [|c s IH]; cbn; [constructor|].
  destruct (isDigit c) eqn:Hc; [|constructor].
  destruct (digitRun s) as [d r]. cbn in *. constructor; assumption.
Qed.

Lemma rest_after_digits (post : string) :
  noDigitFirst post = true ->
  forall st1 s1 st2 c s2,
    isDigit c = true ->
    matchHere (GClose :: lit post) st1 s1 = None ->
    matchHere (GClose :: lit post) st2 (String c s2) = None.
Proof.
  intros Hpost st1 s1 st2 c s2 Hc H. cbn [matchHere] in *.
  rewrite matchHere_lit_state in *.
  destruct post as [|c0 post].
  - rewrite prefix_nil in H. discriminate.
  - rewrite prefix_cons. cbn in Hpost.
    destruct (Ascii.eqb c0 c) eqn:E; [|reflexivity].
    apply Ascii.eqb_eq in E. subst c0. rewrite Hc in Hpost. discriminate.
Qed.

Lemma ofRev_rev (s : string) : ofRev (rev (list_ascii_of_string s)) = s.
Proof.
  unfold ofRev. rewrite List.rev_involutive. apply string_of_list_ascii_of_string.
Qed.




End NumberPatternFacts.

(** ** [parseInt] on a run of digits, and the number of a file name *)

Section GetNumberFacts.
Import JsString Regex Pure.















End GetNumberFacts.

(** ** Sorting *)

Section SortFacts.
Context {A : Type} (cmp : A -> A -> Js.number) (rank : A -> Z).
Hypothesis cmp_rank : forall a b, cmp a b = Some (rank a - rank b).

Lemma notAfter_rank (a b : A) : Js.notAfter cmp a b = (rank a <=? rank b).
Proof.
  unfold Js.notAfter. rewrite cmp_rank.
  destruct (rank a <=? rank b) eqn:E.
  - apply Z.leb_le in E. apply Z.leb_le. lia.
  - apply Z.leb_gt in E. apply Z.leb_gt. lia.
Qed.

Lemma insertBy_perm (x : A) (l : list A) :
  Permutation (Js.insertBy cmp x l) (x :: l).
Proof.
  induction l as [|y l IH]; cbn; [reflexivity|].
  destruct (Js.notAfter cmp x y); [reflexivity|].
  rewrite IH. apply perm_swap.
Qed.

Lemma sortBy_perm (l : list A) : Permutation (Js.sortBy cmp l) l.
Proof.
  induction l as [|x l IH]; cbn; [reflexivity|].
  rewrite insertBy_perm. constructor. exact IH.
Qed.

Lemma insertBy_sorted (x : A) (l : list A) :
  StronglySorted (fun a b => rank a <= rank b) l ->
  StronglySorted (fun a b => rank a <= rank b) (Js.insertBy cmp x l).
Proof.
  induction 1 as [|y l Hs IH Hy]; cbn.
  - repeat constructor.
  - rewrite notAfter_rank. destruct (rank x <=? rank y) eqn:E.
    + apply Z.leb_le in E. constructor; [constructor; assumption|].
      constructor; [exact E|].
      eapply List.Forall_impl; [|exact Hy]. cbn. intros; lia.
    + apply Z.leb_gt in E. constructor; [exact IH|].
      eapply Permutation_Forall; [symmetry; apply insertBy_perm|].
      constructor; [lia | exact Hy].
Qed.

Lemma sortBy_sorted (l : list A) :
  StronglySorted (fun a b => rank a <= rank b) (Js.sortBy cmp l).
Proof.
  induction l as [|x l IH]; cbn; [constructor|].
  apply insertBy_sorted. exact IH.
Qed.


End SortFacts.

(** ** Steps of the pipeline on a healthy primary store *)

Section PipelineFacts.
Import JsString Regex Pure.

Lemma insertSlide_frame (presentationId name slideId : string) (n : Z)
    (image : string) (w : World) :
  exists r d faults,
    sqliteStorage.insertSlide presentationId name slideId n image w
    = (r, mkWorld (fs w) (pg w) d (uuids w) (pgFaults w) faults).
Proof. apply sqliteStatement_frame. Qed.

(** On a healthy primary store [saveSlide] appends the row and succeeds,
    whatever happens to the mirror. *)
Lemma saveSlide_healthy (presentationId : string) (n : Z)
    (slideId image : string) (w : World) :
  pgFaults w = [] ->
  exists w',
    storage.saveSlide presentationId n slideId image w = (Ok tt, w')
    /\ fs w' = fs w
    /\ pg w' = addSlide (mkSlideRow presentationId slideId n image) (pg w)
    /\ uuids w' = uuids w
    /\ pgFaults w' = [].
Proof.
  intros H. unfold storage.saveSlide, storage.getPresentation, bind, tryCatch.
  rewrite (pgStatement_healthy _ w H). cbn [fst snd].
  rewrite pgStatement_healthy by reflexivity.
  cbn [fst snd fs pg sqlite uuids pgFaults sqliteFaults].
  match goal with
  | |- context [List.find ?f ?l] => destruct (List.find f l) as [p|]
  end.
  - match goal with
    | |- context [sqliteStorage.insertSlide ?a ?b ?c ?d ?e ?w0] =>
        destruct (insertSlide_frame a b c d e w0) as (r & d' & faults & ->)
    end.
    cbn [fs pg sqlite uuids pgFaults sqliteFaults].
    destruct r as [[]|e]; eexists; (split; [reflexivity|]);
      repeat split; reflexivity.
  - eexists. split; [reflexivity|]. repeat split; reflexivity.
Qed.




End PipelineFacts.

(** ** The listing of converted images *)

Section ListingFacts.
Import JsString Regex Pure.







End ListingFacts.



(** ** The fallback extractor *)

Section FallbackFacts.
Import JsString Regex Pure presentationService.

Lemma uuidv4_step (env : Env) (w : World) :
  uuidv4 env w
  = (Ok (uuidSource env (uuids w)),
     mkWorld (fs w) (pg w) (sqlite w) (S (uuids w)) (pgFaults w) (sqliteFaults w)).
Proof. reflexivity. Qed.


(** One placeholder on a healthy primary store. *)
Lemma createAndSavePlaceholder_healthy (env : Env) (presentationId : string)
    (n total : Z) (w : World) :
  pgFaults w = [] ->
  exists w',
    createAndSavePlaceholder env presentationId n total w = (Ok tt, w')
    /\ fs w' = fs w
    /\ pg w'
       = addSlide (mkSlideRow presentationId (uuidSource env (uuids w)) n
                     (createPlaceholderImage n total)) (pg w)
    /\ uuids w' = S (uuids w)
    /\ pgFaults w' = [].
Proof.
  intros H. unfold createAndSavePlaceholder, bind. rewrite uuidv4_step.
  match goal with
  | |- context [storage.saveSlide ?a ?n ?c ?d ?w0] =>
      destruct (saveSlide_healthy a n c d w0 H) as (w' & -> & H1 & H2 & H3 & H4)
  end.
  exists w'. split; [reflexivity|].
  split; [exact H1|]. split; [exact H2|]. split; [exact H3 | exact H4].
Qed.


Lemma readAsText_readable (zip : list ZipEntry) (name : string) (w : World) :
  readable zip name = true ->
  exists text, AdmZip.readAsText zip name w = (Ok text, w).
Proof.
  unfold readable, AdmZip.readAsText, AdmZip.getData.
  destruct (AdmZip.getEntry zip name) as [e|]; [|eexists; reflexivity].
  destruct (entryData e); [eexists; reflexivity | discriminate].
Qed.









End FallbackFacts.

Section FallbackResults.
Import JsString Regex Pure presentationService.



End FallbackResults.







(** ** The entry point *)

(** When the first block returns, [processPresentation] returns with it:
    nothing runs between that [return] and the caller. *)
Lemma first_block_return_is_final (env : Env) (filename filePath : string)
    (w w1 w2 w3 w4 : World) (presentationId returned : string) (totalSlides : Z) :
  storage.createPresentation env filename w = (Ok presentationId, w1) ->
  presentationService.ensureDir
    (Fs.join (Fs.join (cwd env) "uploads") presentationId) w1 = (Ok tt, w2) ->
  presentationService.getSlideCount env filePath w2 = (Ok totalSlides, w3) ->
  presentationService.firstAttempt env filePath presentationId
    (Fs.join (Fs.join (cwd env) "uploads") presentationId) w3
  = (Ok (presentationService.Returned returned), w4) ->
  presentationService.processPresentation env filename filePath w
  = (Ok returned, w4).
Proof.
  intros H1 H2 H3 H4. unfold presentationService.processPresentation.
  unfold tryCatch at 1. unfold bind at 1. rewrite H1.
  unfold bind at 1. rewrite H2. unfold bind at 1. rewrite H3.
  unfold bind at 1. unfold tryCatch at 1. rewrite H4. reflexivity.
Qed.

Section ExitPaths.
Import presentationService.




End ExitPaths.

(** C2 fails on the code.  With the converters installed the first block
    stores the ten pages and returns; the uploaded file is still there when
    [processPresentation] has returned. *)
Theorem upload_left_after_first_strategy :
  let filePath := "/srv/uploads/deck.pptx" in
  let r :=
    presentationService.processPresentation Examples.convertingEnv "deck.pptx"
      filePath (Examples.uploaded "PK sound") in
  fst r = Ok "id-0"
  /\ List.map slide_number (slidesT (pg (snd r))) = [1; 2; 3; 4; 5; 6; 7; 8; 9; 10]
  /\ Fs.lookup filePath (fs (snd r)) = Some (File "PK sound").
Proof. vm_compute. repeat split. Qed.

(** On the other paths the uploaded file is removed: here no converter is
    installed and the fallback extractor renders the three slides. *)
Lemma upload_removed_after_fallback :
  let filePath := "/srv/uploads/deck.pptx" in
  let r :=
    presentationService.processPresentation Examples.bareEnv "deck.pptx"
      filePath (Examples.uploaded "PK sound") in
  fst r = Ok "id-0"
  /\ List.map slide_number (slidesT (pg (snd r))) = [1; 2; 3]
  /\ Fs.lookup filePath (fs (snd r)) = None.
Proof. vm_compute. repeat split. Qed.

(** When the primary store fails on the first statement, the exception
    reaches the caller and the uploaded file has been removed. *)
Lemma upload_removed_before_rethrow :
  let filePath := "/srv/uploads/deck.pptx" in
  let w := Examples.uploaded "PK sound" in
  let r :=
    presentationService.processPresentation Examples.bareEnv "deck.pptx" filePath
      (mkWorld (fs w) (pg w) (sqlite w) (uuids w) [true] (sqliteFaults w)) in
  fst r = Throw "database error"
  /\ Fs.lookup filePath (fs (snd r)) = None.
Proof. vm_compute. repeat split. Qed.

(** End to end, without converters: an archive without slides gets one
    placeholder, which shows the count of the detector as its total. *)
Lemma empty_archive_end_to_end :
  let r :=
    presentationService.processPresentation Examples.bareEnv "deck.pptx"
      "/srv/uploads/deck.pptx" (Examples.uploaded "PK empty") in
  fst r = Ok "id-0"
  /\ slidesT (pg (snd r))
     = [mkSlideRow "id-0" "id-1" 1 (Pure.createPlaceholderImage 1 10)].
Proof. vm_compute. repeat split. Qed.

(** ** The placeholder synthesizer *)

(** C9.  The placeholder image is a function of the slide number and of the
    total alone: whatever the state, the collaborators and the presentation,
    the image persisted for a placeholder is the base64 text of the same
    SVG, and two calls with the same numbers give the same text. *)
Theorem placeholder_deterministic (env1 env2 : Env) (p1 p2 : string)
    (slideNumber totalSlides : Z) (w1 w2 : World) :
  pgFaults w1 = [] -> pgFaults w2 = [] ->
  exists w1' w2',
    presentationService.createAndSavePlaceholder env1 p1 slideNumber totalSlides w1
    = (Ok tt, w1')
    /\ presentationService.createAndSavePlaceholder env2 p2 slideNumber totalSlides w2
       = (Ok tt, w2')
    /\ List.map slide_image (slidesT (pg w1'))
       = List.map slide_image (slidesT (pg w1))
           ++ [Pure.createPlaceholderImage slideNumber totalSlides]
    /\ List.map slide_image (slidesT (pg w2'))
       = List.map slide_image (slidesT (pg w2))
           ++ [Pure.createPlaceholderImage slideNumber totalSlides]
    /\ fs w1' = fs w1 /\ fs w2' = fs w2
    /\ Pure.createPlaceholderImage slideNumber totalSlides
       = Buffer.toBase64
           (Buffer.fromString (Pure.placeholderSvg slideNumber totalSlides)).
Proof.
  intros H1 H2.
  destruct (createAndSavePlaceholder_healthy env1 p1 slideNumber totalSlides w1 H1)
    as (w1' & E1 & Hfs1 & Hpg1 & _).
  destruct (createAndSavePlaceholder_healthy env2 p2 slideNumber totalSlides w2 H2)
    as (w2' & E2 & Hfs2 & Hpg2 & _).
  exists w1', w2'. rewrite Hpg1, Hpg2. cbn [addSlide slidesT].
  rewrite !List.map_app. cbn [List.map slide_image].
  repeat split; assumption || reflexivity.
Qed.

Lemma placeholder_deterministic_witness :
  exists w1' w2',
    presentationService.createAndSavePlaceholder Examples.bareEnv "p1" 3 10
      Examples.emptyWorld
    = (Ok tt, w1')
    /\ presentationService.createAndSavePlaceholder Examples.convertingEnv "p2" 3 10
         Examples.annotatedWorld
       = (Ok tt, w2')
    /\ List.map slide_image (slidesT (pg w1'))
       = [Pure.createPlaceholderImage 3 10]
    /\ List.map slide_image (slidesT (pg w2'))
       = ["aW1hZ2U="; Pure.createPlaceholderImage 3 10]
    /\ fs w1' = [] /\ fs w2' = []
    /\ Pure.createPlaceholderImage 3 10
       = Buffer.toBase64 (Buffer.fromString (Pure.placeholderSvg 3 10)).
Proof.
  exact (placeholder_deterministic Examples.bareEnv Examples.convertingEnv
           "p1" "p2" 3 10 Examples.emptyWorld Examples.annotatedWorld
           eq_refl eq_refl).
Defined.

(** ** Text extraction *)

Section TextFacts.
Import JsString Regex Pure.

Lemma string_of_list_app (l1 l2 : list ascii) :
  string_of_list_ascii (l1 ++ l2)
  = string_of_list_ascii l1 +:+ string_of_list_ascii l2.
Proof.
  induction l1 as [|c l1 IH]; [reflexivity|].
  cbn [List.app string_of_list_ascii]. rewrite IH. reflexivity.
Qed.

Lemma ofRev_app (s : string) (l : list ascii) :
  ofRev (rev (list_ascii_of_string s) ++ l) = ofRev l +:+ s.
Proof.
  unfold ofRev. rewrite List.rev_app_distr, List.rev_involutive,
    string_of_list_app, string_of_list_ascii_of_string.
  reflexivity.
Qed.

Lemma append_empty_r (s : string) : s +:+ "" = s.
Proof.
  induction s as [|c s IH]; [reflexivity|]. rewrite append_cons, IH.
  reflexivity.
Qed.

Lemma append_assoc (a b c : string) : (a +:+ b) +:+ c = a +:+ (b +:+ c).
Proof.
  induction a as [|x a IH]; [reflexivity|]. rewrite !append_cons, IH.
  reflexivity.
Qed.

Lemma pushString_consumed (s : string) (st : mstate) :
  consumed (pushString s st) = rev (list_ascii_of_string s) ++ consumed st.
Proof.
  revert st. induction s as [|c s IH]; intros st; [reflexivity|].
  cbn [pushString]. rewrite IH. cbn. rewrite <- List.app_assoc. reflexivity.
Qed.

Lemma prefix_append (p s : string) : String.prefix p (p +:+ s) = true.
Proof.
  induction p as [|c p IH]; [apply prefix_nil|].
  rewrite append_cons, prefix_cons, Ascii.eqb_refl. exact IH.
Qed.

Lemma dropString_append (p s : string) :
  dropString (String.length p) (p +:+ s) = s.
Proof. induction p as [|c p IH]; [reflexivity|]. exact IH. Qed.

(** A text tag does not begin in [before] even when a tag follows. *)
Lemma prefix_tag_before (tag before rest : string) (c : ascii) :
  String.prefix (String "<" tag) (String c before) = false ->
  allChars (notChar "<") tag = true ->
  String.prefix (String "<" tag) (String c before +:+ String "<" rest) = false.
Proof.
  rewrite append_cons, !prefix_cons.
  destruct (Ascii.eqb "<" c); [|reflexivity]. cbn [andb].
  revert before. induction tag as [|t tag IH]; intros before H Htag.
  - rewrite prefix_nil in H. discriminate.
  - cbn [allChars] in Htag. apply andb_true_iff in Htag.
    destruct Htag as [Ht Htag].
    destruct before as [|b before].
    + rewrite append_nil, prefix_cons.
      unfold notChar in Ht. apply negb_true_iff in Ht.
      rewrite Ascii.eqb_sym, Ht. reflexivity.
    + rewrite append_cons, prefix_cons. rewrite prefix_cons in H.
      destruct (Ascii.eqb t b); [|reflexivity]. cbn [andb] in *.
      apply IH; assumption.
Qed.

Lemma occurrences_none (p : string) (c : ascii) (s : string) :
  occurrences p (String c s) = O ->
  String.prefix p (String c s) = false /\ occurrences p s = O.
Proof.
  cbn [occurrences]. destruct (String.prefix p (String c s)); cbn; [lia|].
  intros H. split; [reflexivity | exact H].
Qed.

(** The search for a pattern that begins with a text tag passes over
    [before]. *)
Lemma searchFrom_before (tag : string) (p : regex) (before rest : string)
    (pre : list ascii) :
  allChars (notChar "<") tag = true ->
  occurrences (String "<" tag) before = O ->
  searchFrom (lit (String "<" tag) ++ p) pre (before +:+ String "<" rest)
  = searchFrom (lit (String "<" tag) ++ p)
      (rev (list_ascii_of_string before) ++ pre) (String "<" rest).
Proof.
  intros Htag. revert pre. induction before as [|c before IH]; intros pre H.
  - reflexivity.
  - apply occurrences_none in H. destruct H as [Hp H].
    pose proof (prefix_tag_before tag before rest c Hp Htag) as Hp'.
    rewrite append_cons in Hp' |- *. cbn [searchFrom].
    rewrite matchHere_lit_app, Hp'. rewrite IH by exact H.
    cbn [list_ascii_of_string rev]. rewrite <- List.app_assoc. reflexivity.
Qed.

Lemma matchAllFrom_before (tag : string) (p : regex) (before rest : string) :
  allChars (notChar "<") tag = true ->
  occurrences (String "<" tag) before = O ->
  matchAllFrom (lit (String "<" tag) ++ p) O (before +:+ String "<" rest)
  = matchAllFrom (lit (String "<" tag) ++ p) O (String "<" rest).
Proof.
  intros Htag. induction before as [|c before IH]; intros H.
  - reflexivity.
  - apply occurrences_none in H. destruct H as [Hp H].
    pose proof (prefix_tag_before tag before rest c Hp Htag) as Hp'.
    rewrite append_cons in Hp' |- *. cbn [matchAllFrom].
    rewrite matchHere_lit_app, Hp'. apply IH. exact H.
Qed.

Lemma matchHere_close (p : regex) (st : mstate) (s : string) :
  matchHere (GClose :: p) st s = matchHere p (closeGroup st) s.
Proof. reflexivity. Qed.

Lemma rep_unfold (rest : mstate -> string -> option (mstate * string))
    (cls : ascii -> bool) (greedy : bool) (n : nat) (st : mstate) (s : string) :
  rep rest cls 0 greedy n st s
  = let more :=
      match s with
      | String c s' =>
          if cls c then rep rest cls 0 greedy (S n) (push c st) s' else None
      | EmptyString => None
      end in
    if greedy then match more with Some r => Some r | None => rest st s end
    else match rest st s with Some r => Some r | None => more end.
Proof. destruct s; reflexivity. Qed.

(** Reading a plain run up to the closing tag: lazily and greedily alike,
    the run is read whole. *)
Lemma rep_plain (cls : ascii -> bool) (greedy : bool) (closing : string)
    (first tail : string) :
  allChars (fun c => cls c && notChar "<" c) first = true ->
  cls "<"%char = false \/ greedy = false ->
  forall (n : nat) (st : mstate),
    rep (matchHere (GClose :: lit (String "<" closing))) cls 0 greedy n st
      (first +:+ String "<" closing +:+ tail)
    = Some (pushString (String "<" closing) (closeGroup (pushString first st)),
            tail).
Proof.
  intros Hfirst Hcls. induction first as [|c first IH]; intros n st.
  - rewrite append_nil. rewrite append_cons. rewrite rep_unfold. cbv zeta.
    assert (Hstop : matchHere (GClose :: lit (String "<" closing)) st
                      (String "<" (closing +:+ tail))
                    = Some (pushString (String "<" closing) (closeGroup st), tail)).
    { rewrite matchHere_close, matchHere_lit_state.
      rewrite <- append_cons, prefix_append, dropString_append. reflexivity. }
    rewrite Hstop. destruct greedy; [|reflexivity].
    destruct Hcls as [Hcls|Hcls]; [|discriminate]. rewrite Hcls. reflexivity.
  - cbn [allChars] in Hfirst. apply andb_true_iff in Hfirst.
    destruct Hfirst as [Hc Hfirst]. apply andb_true_iff in Hc.
    destruct Hc as [Hc Hlt].
    rewrite append_cons. rewrite rep_unfold. cbv zeta. rewrite Hc.
    rewrite (IH Hfirst).
    destruct greedy; [reflexivity|].
    rewrite matchHere_close, matchHere_lit_state, prefix_cons.
    unfold notChar in Hlt. apply negb_true_iff in Hlt. rewrite Hlt.
    reflexivity.
Qed.

Lemma allChars_weaken (f g : ascii -> bool) (s : string) :
  (forall c, f c = true -> g c = true) ->
  allChars f s = true -> allChars g s = true.
Proof.
  intros Hfg. induction s as [|c s IH]; [reflexivity|]. cbn.
  intros H. apply andb_true_iff in H. destruct H as [Hc H].
  rewrite (Hfg c Hc), (IH H). reflexivity.
Qed.

(** A pattern made of the opening tag, a group that reads the run, and the
    closing tag matches a plain run in its tags, and its group is the run. *)
Lemma matchHere_run (cls : ascii -> bool) (greedy : bool) (first tail : string) :
  allChars (fun c => cls c && notChar "<" c) first = true ->
  cls "<"%char = false \/ greedy = false ->
  exists r,
    matchHere (lit "<a:t>" ++ [GOpen; Rep cls 0 greedy; GClose] ++ lit "</a:t>")
      start ("<a:t>" +:+ first +:+ "</a:t>" +:+ tail) = Some r
    /\ snd r = tail
    /\ ofRev (captured (fst r)) = first
    /\ ofRev (consumed (fst r)) = "<a:t>" +:+ first +:+ "</a:t>".
Proof.
  intros Hfirst Hcls. rewrite matchHere_lit_app, prefix_append, dropString_append.
  change (matchHere ([GOpen; Rep cls 0 greedy; GClose] ++ lit "</a:t>")
            (pushString "<a:t>" start) (first +:+ "</a:t>" +:+ tail))
    with (rep (matchHere (GClose :: lit "</a:t>")) cls 0 greedy 0
            (openGroup (pushString "<a:t>" start)) (first +:+ "</a:t>" +:+ tail)).
  rewrite (rep_plain cls greedy "/a:t>" first tail Hfirst Hcls).
  eexists. split; [reflexivity|]. cbn [fst snd]. split; [reflexivity|]. split.
  - rewrite pushString_captured_off by reflexivity. cbn [closeGroup captured].
    rewrite pushString_captured_on by reflexivity. cbn [openGroup captured].
    rewrite List.app_nil_r. apply ofRev_rev.
  - rewrite pushString_consumed. cbn [closeGroup consumed].
    rewrite pushString_consumed. cbn [openGroup consumed].
    rewrite pushString_consumed. cbn [start consumed].
    rewrite !ofRev_app. unfold ofRev. cbn [rev string_of_list_ascii].
    rewrite append_nil, append_assoc. reflexivity.
Qed.

Lemma searchFrom_unfold (p : regex) (pre : list ascii) (s : string) :
  searchFrom p pre s
  = match matchHere p start s with
    | Some r => Some (mkResult pre r)
    | None =>
        match s with
        | String c s' => searchFrom p (c :: pre) s'
        | EmptyString => None
        end
    end.
Proof. destruct s; reflexivity. Qed.

Lemma strip_tags (first : string) :
  allChars (notChar "<") first = true ->
  replaceFirst (lit "</a:t>")
    (replaceFirst (lit "<a:t>") ("<a:t>" +:+ first +:+ "</a:t>") (fun _ => ""))
    (fun _ => "")
  = first.
Proof.
  intros Hfirst.
  assert (H1 : replaceFirst (lit "<a:t>") ("<a:t>" +:+ first +:+ "</a:t>")
                 (fun _ => "") = first +:+ "</a:t>").
  { unfold replaceFirst, search. rewrite searchFrom_unfold.
    rewrite matchHere_lit_state, prefix_append, dropString_append. reflexivity. }
  rewrite H1. unfold replaceFirst, search.
  assert (H2 : forall pre,
            searchFrom (lit "</a:t>") pre (first +:+ "</a:t>")
            = Some (Result (ofRev pre +:+ first) "</a:t>" "" "")).
  { clear H1. induction first as [|c first IH]; intros pre.
    - rewrite append_empty_r. reflexivity.
    - cbn [allChars] in Hfirst. apply andb_true_iff in Hfirst.
      destruct Hfirst as [Hc Hfirst]. rewrite append_cons, searchFrom_unfold.
      rewrite matchHere_lit_state, prefix_cons.
      unfold notChar in Hc. apply negb_true_iff in Hc. rewrite Hc. cbn [andb].
      rewrite (IH Hfirst). unfold ofRev. cbn [rev].
      rewrite string_of_list_app, append_assoc. reflexivity. }
  rewrite H2. cbn [before after]. unfold ofRev. cbn [rev string_of_list_ascii].
  rewrite append_nil, !append_empty_r. reflexivity.
Qed.

End TextFacts.

(** C8 fails on the code, on three markups.  An empty first run: the title
    is the default and no run at all.  A first run with a line break: the
    title is the second run and the first run is kept in the content.  Two
    runs with the same text: the second one is left out of the content
    although it is not blank and is not the first run. *)
Lemma title_is_not_always_first_run :
  let empty := "<a:t></a:t><a:t>Hello</a:t>" in
  let broken := "<a:t>Agenda" +:+ String JsString.lf "Today</a:t><a:t>Intro</a:t>" in
  let twice := "<a:t>Hi</a:t><a:t>Hi</a:t>" in
  (Pure.textRuns empty = [""; "Hello"]
   /\ Pure.extractTextFromSlideXML empty = Pure.mkSlideText "Slide Title" ["Hello"]
   /\ ~ titleIsFirstRun empty)
  /\ (Pure.textRuns broken = ["Agenda" +:+ String JsString.lf "Today"; "Intro"]
      /\ Pure.extractTextFromSlideXML broken
         = Pure.mkSlideText "Intro" ["Agenda" +:+ String JsString.lf "Today"]
      /\ ~ titleIsFirstRun broken)
  /\ (Pure.textRuns twice = ["Hi"; "Hi"]
      /\ Pure.extractTextFromSlideXML twice = Pure.mkSlideText "Hi" []
      /\ ~ titleIsFirstRun twice).
Proof.
  cbv zeta. repeat split; try (vm_compute; reflexivity).
  - intros H. destruct (H "" ["Hello"] eq_refl) as [Ht _].
    vm_compute in Ht. discriminate Ht.
  - intros H.
    destruct (H ("Agenda" +:+ String JsString.lf "Today") ["Intro"] eq_refl)
      as [Ht _].
    vm_compute in Ht. discriminate Ht.
  - intros H. destruct (H "Hi" ["Hi"] eq_refl) as [_ Hc].
    vm_compute in Hc. discriminate Hc.
Qed.

Section TextResults.
Import JsString Regex Pure.

Lemma matchAllFrom_unfold (p : regex) (c : ascii) (s : string) :
  matchAllFrom p O (String c s)
  = match matchHere p start (String c s) with
    | Some r =>
        mkResult [] r
          :: matchAllFrom p (Nat.pred (List.length (consumed (fst r)))) s
    | None => matchAllFrom p O s
    end.
Proof. reflexivity. Qed.

Lemma plainRun_parts (first : string) :
  plainRun first = true ->
  first <> ""
  /\ allChars (fun c => notLineTerminator c && notChar "<" c) first = true
  /\ allChars (fun c => notChar "<" c && notChar "<" c) first = true
  /\ allChars (notChar "<") first = true.
Proof.
  unfold plainRun. intros H. apply andb_true_iff in H. destruct H as [Hne H].
  apply negb_true_iff, String.eqb_neq in Hne.
  split; [exact Hne|]. split; [exact H|]. split.
  - eapply allChars_weaken; [|exact H]. intros c Hc.
    apply andb_true_iff in Hc. destruct Hc as [_ Hc]. rewrite Hc. reflexivity.
  - eapply allChars_weaken; [|exact H]. intros c Hc.
    apply andb_true_iff in Hc. apply Hc.
Qed.

End TextResults.

(** C8, as the code has it.  When the first text tag of the markup holds a
    run that is not empty and has no line break, the title is that first
    run, and the content is made of the runs after it, in order, that are
    not blank once trimmed and whose text differs from the title. *)
Theorem text_extraction (before first after : string) :
  noTextTag before = true ->
  plainRun first = true ->
  let slideXML := before +:+ "<a:t>" +:+ first +:+ "</a:t>" +:+ after in
  Pure.title (Pure.extractTextFromSlideXML slideXML) = first
  /\ exists others,
       Pure.textRuns slideXML = first :: others
       /\ Pure.content (Pure.extractTextFromSlideXML slideXML)
          = List.filter
              (fun text => nonBlank text && negb (String.eqb text first))
              others.
Proof.
  intros Hbefore Hfirst slideXML.
  apply plainRun_parts in Hfirst.
  destruct Hfirst as (Hne & Hlazy & Hgreedy & Hplain).
  unfold noTextTag in Hbefore. apply Nat.eqb_eq in Hbefore.
  assert (Htitle : Pure.slideTitle slideXML = first).
  { unfold Pure.slideTitle, Regex.search, slideXML.
    change ("<a:t>" +:+ first +:+ "</a:t>" +:+ after)
      with (String "<" ("a:t>" +:+ first +:+ "</a:t>" +:+ after)).
    change Pure.titlePattern
      with (Regex.lit (String "<" "a:t>")
              ++ ([Regex.GOpen; Regex.Rep JsString.notLineTerminator 0 false;
                   Regex.GClose] ++ Regex.lit "</a:t>")).
    rewrite (searchFrom_before "a:t>" _ before _ [] eq_refl Hbefore).
    rewrite searchFrom_unfold.
    destruct (matchHere_run JsString.notLineTerminator false first after Hlazy
                (or_intror eq_refl)) as (r & Hr & _ & Hgroup & _).
    change (String "<" ("a:t>" +:+ first +:+ "</a:t>" +:+ after))
      with ("<a:t>" +:+ first +:+ "</a:t>" +:+ after).
    change (Regex.lit (String "<" "a:t>")
              ++ ([Regex.GOpen; Regex.Rep JsString.notLineTerminator 0 false;
                   Regex.GClose] ++ Regex.lit "</a:t>"))
      with (Regex.lit "<a:t>"
              ++ [Regex.GOpen; Regex.Rep JsString.notLineTerminator 0 false;
                  Regex.GClose] ++ Regex.lit "</a:t>").
    rewrite Hr. cbn [Regex.group1 Regex.mkResult]. rewrite Hgroup.
    destruct (String.eqb first "") eqn:E; [|reflexivity].
    apply String.eqb_eq in E. contradiction. }
  assert (Hruns : exists others, Pure.textRuns slideXML = first :: others).
  { unfold Pure.textRuns, Regex.matchAll, slideXML.
    change ("<a:t>" +:+ first +:+ "</a:t>" +:+ after)
      with (String "<" ("a:t>" +:+ first +:+ "</a:t>" +:+ after)).
    change Pure.textPattern
      with (Regex.lit (String "<" "a:t>")
              ++ ([Regex.GOpen; Regex.Rep (JsString.notChar "<") 0 true;
                   Regex.GClose] ++ Regex.lit "</a:t>")).
    rewrite (matchAllFrom_before "a:t>" _ before _ eq_refl Hbefore).
    rewrite matchAllFrom_unfold.
    destruct (matchHere_run (JsString.notChar "<") true first after Hgreedy
                (or_introl eq_refl)) as (r & Hr & _ & _ & Hwhole).
    change (String "<" ("a:t>" +:+ first +:+ "</a:t>" +:+ after))
      with ("<a:t>" +:+ first +:+ "</a:t>" +:+ after).
    change (Regex.lit (String "<" "a:t>")
              ++ ([Regex.GOpen; Regex.Rep (JsString.notChar "<") 0 true;
                   Regex.GClose] ++ Regex.lit "</a:t>"))
      with (Regex.lit "<a:t>"
              ++ [Regex.GOpen; Regex.Rep (JsString.notChar "<") 0 true;
                  Regex.GClose] ++ Regex.lit "</a:t>").
    rewrite Hr. cbn [List.map Regex.whole Regex.mkResult]. rewrite Hwhole.
    rewrite (strip_tags first Hplain). eexists. reflexivity. }
  destruct Hruns as [others Hruns].
  split; [exact Htitle|]. exists others. split; [exact Hruns|].
  unfold Pure.extractTextFromSlideXML. cbn [Pure.content].
  rewrite Hruns, Htitle. cbn [List.filter].
  rewrite String.eqb_refl, andb_false_r. reflexivity.
Qed.

Lemma text_extraction_witness :
  Pure.title
    (Pure.extractTextFromSlideXML
       ("<p:sp><a:r>" +:+ "<a:t>" +:+ "Plan" +:+ "</a:t>"
          +:+ "</a:r><a:t> </a:t><a:t>Plan</a:t><a:t>Costs</a:t></p:sp>"))
  = "Plan"
  /\ exists others,
       Pure.textRuns
         ("<p:sp><a:r>" +:+ "<a:t>" +:+ "Plan" +:+ "</a:t>"
            +:+ "</a:r><a:t> </a:t><a:t>Plan</a:t><a:t>Costs</a:t></p:sp>")
       = "Plan" :: others
       /\ Pure.content
            (Pure.extractTextFromSlideXML
               ("<p:sp><a:r>" +:+ "<a:t>" +:+ "Plan" +:+ "</a:t>"
                  +:+ "</a:r><a:t> </a:t><a:t>Plan</a:t><a:t>Costs</a:t></p:sp>"))
          = List.filter
              (fun text => nonBlank text && negb (String.eqb text "Plan"))
              others.
Proof.
  exact (text_extraction "<p:sp><a:r>" "Plan"
           "</a:r><a:t> </a:t><a:t>Plan</a:t><a:t>Costs</a:t></p:sp>"
           eq_refl eq_refl).
Defined.

(** ** Base64 *)

Section Base64Facts.

Lemma in_byteRange (a : N) : (a < 256)%N -> In a byteRange.
Proof.
  intros H. unfold byteRange.
  replace a with (N.of_nat (N.to_nat a)) by apply N2Nat.id.
  apply in_map, in_seq. lia.
Qed.

Lemma byte_pairs (f : N -> N -> bool) :
  forallb (fun a => forallb (f a) byteRange) byteRange = true ->
  forall a b, (a < 256)%N -> (b < 256)%N -> f a b = true.
Proof.
  intros H a b Ha Hb.
  rewrite forallb_forall in H. specialize (H a (in_byteRange a Ha)).
  rewrite forallb_forall in H. exact (H b (in_byteRange b Hb)).
Qed.

Lemma sextet_inverse (n : N) :
  sextetOk n = true ->
  forall s, Buffer.sextets (String (Buffer.sextet n) s) = n :: Buffer.sextets s.
Proof.
  unfold sextetOk. intros H s. apply andb_prop in H as [H1 H2].
  cbn [Buffer.sextets]. apply negb_true_iff in H1. rewrite H1.
  destruct (Buffer.unsextet (Buffer.sextet n)); [|discriminate].
  apply N.eqb_eq in H2. now subst.
Qed.

Lemma group_pairs :
  forallb (fun a => forallb (fun b =>
      sextetOk (N.shiftr a 2)
      && sextetOk (N.shiftl (N.land a 3) 4)
      && sextetOk (N.lor (N.shiftl (N.land a 3) 4) (N.shiftr b 4))
      && sextetOk (N.shiftl (N.land b 15) 2)
      && sextetOk (N.lor (N.shiftl (N.land a 15) 2) (N.shiftr b 6))
      && sextetOk (N.land b 63)
      && (N.lor (N.shiftl (N.shiftr a 2) 2)
            (N.shiftr (N.lor (N.shiftl (N.land a 3) 4) (N.shiftr b 4)) 4) =? a)%N
      && (N.lor (N.shiftl (N.shiftr a 2) 2)
            (N.shiftr (N.shiftl (N.land a 3) 4) 4) =? a)%N
      && (N.land (N.lor (N.shiftl (N.land a 3) 4) (N.shiftr b 4)) 15
          =? N.shiftr b 4)%N
      && (N.lor (N.shiftl (N.shiftr a 4) 4)
            (N.shiftr (N.lor (N.shiftl (N.land a 15) 2) (N.shiftr b 6)) 2) =? a)%N
      && (N.lor (N.shiftl (N.shiftr a 4) 4)
            (N.shiftr (N.shiftl (N.land a 15) 2) 2) =? a)%N
      && (N.lor (N.shiftl
                   (N.land (N.lor (N.shiftl (N.land a 15) 2) (N.shiftr b 6)) 3) 6)
            (N.land b 63) =? b)%N) byteRange) byteRange = true.
Proof. vm_compute. reflexivity. Qed.


Lemma group_facts (a b : N) :
  (a < 256)%N -> (b < 256)%N ->
  (sextetOk (N.shiftr a 2) = true
   /\ sextetOk (N.shiftl (N.land a 3) 4) = true
   /\ sextetOk (N.lor (N.shiftl (N.land a 3) 4) (N.shiftr b 4)) = true
   /\ sextetOk (N.shiftl (N.land b 15) 2) = true
   /\ sextetOk (N.lor (N.shiftl (N.land a 15) 2) (N.shiftr b 6)) = true
   /\ sextetOk (N.land b 63) = true)
  /\ N.lor (N.shiftl (N.shiftr a 2) 2)
       (N.shiftr (N.lor (N.shiftl (N.land a 3) 4) (N.shiftr b 4)) 4) = a
  /\ N.lor (N.shiftl (N.shiftr a 2) 2) (N.shiftr (N.shiftl (N.land a 3) 4) 4) = a
  /\ N.land (N.lor (N.shiftl (N.land a 3) 4) (N.shiftr b 4)) 15 = N.shiftr b 4
  /\ N.lor (N.shiftl (N.shiftr a 4) 4)
       (N.shiftr (N.lor (N.shiftl (N.land a 15) 2) (N.shiftr b 6)) 2) = a
  /\ N.lor (N.shiftl (N.shiftr a 4) 4) (N.shiftr (N.shiftl (N.land a 15) 2) 2) = a
  /\ N.lor (N.shiftl (N.land (N.lor (N.shiftl (N.land a 15) 2) (N.shiftr b 6)) 3) 6)
       (N.land b 63) = b.
Proof.
  intros Ha Hb. pose proof (byte_pairs _ group_pairs a b Ha Hb) as H.
  cbv beta in H.
  do 11 (apply andb_prop in H; destruct H as [H ?]).
  repeat match goal with E : (_ =? _)%N = true |- _ => apply N.eqb_eq in E end.
  repeat split; assumption.
Qed.

Lemma fromBase64_toBase64 (l : list Buffer.byte) :
  Forall isByte l -> Buffer.fromBase64 (Buffer.toBase64 l) = l.
Proof.
  assert (G : forall n l, (List.length l <= n)%nat -> Forall isByte l ->
              Buffer.fromBase64 (Buffer.toBase64 l) = l).
  { clear l. induction n as [|n IH]; intros l Hn Hl.
    - destruct l; [reflexivity | cbn in Hn; lia].
    - destruct l as [|a [|b [|c l']]].
      + reflexivity.
      + inversion Hl as [|? ? Ha _]; subst.
        destruct (group_facts a a Ha Ha) as [(S1 & S2 & _) (_ & E & _)].
        unfold Buffer.fromBase64. cbn [Buffer.toBase64].
        rewrite (sextet_inverse _ S1), (sextet_inverse _ S2).
        cbn. now rewrite E.
      + inversion Hl as [|? ? Ha Hl1]; subst.
        inversion Hl1 as [|? ? Hb _]; subst.
        destruct (group_facts a b Ha Hb) as [(S1 & _ & S2 & S3 & _) (E1 & _ & E2 & _)].
        destruct (group_facts b b Hb Hb) as [_ (_ & _ & _ & _ & E3 & _)].
        unfold Buffer.fromBase64. cbn [Buffer.toBase64].
        rewrite (sextet_inverse _ S1), (sextet_inverse _ S2), (sextet_inverse _ S3).
        cbn [Buffer.sextets Ascii.eqb Bool.eqb Buffer.bytesOfSextets].
        now rewrite E1, E2, E3.
      + inversion Hl as [|? ? Ha Hl1]; subst.
        inversion Hl1 as [|? ? Hb Hl2]; subst.
        inversion Hl2 as [|? ? Hc Hl3]; subst.
        destruct (group_facts a b Ha Hb) as [(S1 & _ & S2 & _) (E1 & _ & E2 & _)].
        destruct (group_facts b c Hb Hc) as [(_ & _ & _ & _ & S3 & S4) (_ & _ & _ & E3 & _ & E4)].
        unfold Buffer.fromBase64 in *. cbn [Buffer.toBase64].
        rewrite (sextet_inverse _ S1), (sextet_inverse _ S2),
          (sextet_inverse _ S3), (sextet_inverse _ S4).
        cbn [Buffer.bytesOfSextets].
        rewrite E1, E2, E3, E4.
        rewrite IH; [reflexivity | cbn in Hn; lia | assumption]. }
  intros H. exact (G _ l (le_n _) H).
Qed.

End Base64Facts.

(** ** The image route *)

Section ImageRouteFacts.
Import JsString Pure.

Lemma fromBinary_bytes (s : string) : Forall isByte (Buffer.fromBinary s).
Proof.
  induction s as [|c s IH]; constructor; [apply N_ascii_bounded | exact IH].
Qed.

Lemma utf8_bytes (c : ascii) : Forall isByte (Buffer.utf8 c).
Proof.
  destruct c as [[] [] [] [] [] [] [] []];
    vm_compute; repeat constructor.
Qed.

Lemma fromString_bytes (s : string) : Forall isByte (Buffer.fromString s).
Proof.
  induction s as [|c s IH]; [constructor|].
  cbn [Buffer.fromString]. apply Forall_app. split; [apply utf8_bytes | exact IH].
Qed.

(** Only a first byte 60, the character [<], gives a text that begins like
    the two prefixes of the route. *)
Lemma head_pairs :
  forallb (fun a => forallb (fun b =>
      (a =? 60)%N
      || negb (Ascii.eqb "P" (Buffer.sextet (N.shiftr a 2))
               && (Ascii.eqb "H" (Buffer.sextet (N.shiftl (N.land a 3) 4))
                   || Ascii.eqb "D" (Buffer.sextet (N.shiftl (N.land a 3) 4))
                   || Ascii.eqb "H"
                        (Buffer.sextet
                           (N.lor (N.shiftl (N.land a 3) 4) (N.shiftr b 4)))
                   || Ascii.eqb "D"
                        (Buffer.sextet
                           (N.lor (N.shiftl (N.land a 3) 4) (N.shiftr b 4))))))
    byteRange) byteRange = true.
Proof. vm_compute. reflexivity. Qed.

Lemma base64_head (a : Buffer.byte) (l : list Buffer.byte) :
  isByte a -> Forall isByte l -> a <> 60%N ->
  startsWith (Buffer.toBase64 (a :: l)) "PHN2Zy" = false
  /\ startsWith (Buffer.toBase64 (a :: l)) "PD94bWw=" = false
  /\ String.eqb (Buffer.toBase64 (a :: l)) "" = false.
Proof.
  intros Ha Hl Hne. unfold startsWith.
  assert (Hb : exists b, isByte b
                /\ (l = [] \/ exists l', l = b :: l')).
  { destruct l as [|b l']; [exists a | exists b].
    - split; [exact Ha | now left].
    - inversion Hl; subst. split; [assumption | right; now exists l']. }
  destruct Hb as (b & Hb & Hcase).
  pose proof (byte_pairs _ head_pairs a b Ha Hb) as H. cbv beta in H.
  apply orb_prop in H. destruct H as [H | H];
    [apply N.eqb_eq in H; contradiction|].
  apply negb_true_iff in H.
  destruct Hcase as [-> | [l' ->]].
  - cbn [Buffer.toBase64]. rewrite !prefix_cons.
    destruct (Ascii.eqb "P" (Buffer.sextet (N.shiftr a 2)));
      [|repeat split; reflexivity].
    cbn [andb] in *. apply orb_false_elim in H as [H _].
    apply orb_false_elim in H as [H _].
    apply orb_false_elim in H as [H1 H2]. rewrite H1, H2.
    repeat split; reflexivity.
  - destruct l' as [|c l''].
    + cbn [Buffer.toBase64]. rewrite !prefix_cons.
      destruct (Ascii.eqb "P" (Buffer.sextet (N.shiftr a 2)));
        [|repeat split; reflexivity].
      cbn [andb] in *. apply orb_false_elim in H as [H H2].
      apply orb_false_elim in H as [H H1]. rewrite H1, H2.
      repeat split; reflexivity.
    + cbn [Buffer.toBase64]. rewrite !prefix_cons.
      destruct (Ascii.eqb "P" (Buffer.sextet (N.shiftr a 2)));
        [|repeat split; reflexivity].
      cbn [andb] in *. apply orb_false_elim in H as [H H2].
      apply orb_false_elim in H as [H H1]. rewrite H1, H2.
      repeat split; reflexivity.
Qed.

Lemma getSlide_healthy (slideId : string) (w : World) :
  pgFaults w = [] ->
  storage.getSlide slideId w
  = (Ok (List.find (fun r => String.eqb (slide_id r) slideId) (slidesT (pg w))), w).
Proof.
  intros H. unfold storage.getSlide. rewrite (pgStatement_healthy _ _ H).
  cbn [fst snd]. now rewrite (world_eta _ H).
Qed.

(** An image whose text has none of the two prefixes is sent as bytes. *)
Lemma getSlideImage_binary (toStringUtf8 : list Buffer.byte -> string)
    (slideId : string) (slide : SlideRow) (w : World) :
  pgFaults w = [] ->
  List.find (fun r => String.eqb (slide_id r) slideId) (slidesT (pg w)) = Some slide ->
  String.eqb (slide_image slide) "" = false ->
  startsWith (slide_image slide) "PHN2Zy" = false ->
  startsWith (slide_image slide) "PD94bWw=" = false ->
  routes.getSlideImage toStringUtf8 slideId w
  = (Ok (Some (routes.sendBinary (Buffer.fromBase64 (slide_image slide)))), w).
Proof.
  intros Hw Hfind He H1 H2. unfold routes.getSlideImage, tryCatch, bind.
  rewrite (getSlide_healthy _ _ Hw), Hfind, He, H1, H2. reflexivity.
Qed.


Lemma q_prefix (p s : string) :
  q p = p -> String.prefix p s = true -> String.prefix p (q s) = true.
Proof.
  revert s. induction p as [|c p IH]; intros s Hq H; [apply prefix_nil|].
  destruct s as [|d s]; [discriminate|].
  rewrite prefix_cons in H. apply andb_prop in H as [H1 H2].
  apply Ascii.eqb_eq in H1. subst d.
  cbn [q] in Hq |- *. injection Hq as Hc Hp.
  rewrite Hc, prefix_cons, Ascii.eqb_refl. exact (IH s Hp H2).
Qed.

Lemma prefix_append_l (p a b : string) :
  String.prefix p a = true -> String.prefix p (a +:+ b) = true.
Proof.
  intros H. destruct (prefix_app _ _ H) as [a' ->].
  rewrite append_assoc. apply prefix_append.
Qed.

Lemma placeholderSvg_head (slideNumber totalSlides : Z) :
  String.prefix "<?xml " (placeholderSvg slideNumber totalSlides) = true.
Proof.
  unfold placeholderSvg. apply prefix_append_l, q_prefix; reflexivity.
Qed.

Lemma richSvg_head (slideNumber totalSlides : Z) (title : string)
    (content images : list string) :
  exists svg,
    createRichSlideVisualization slideNumber totalSlides title content images
    = Buffer.toBase64 (Buffer.fromString svg)
    /\ String.prefix "<?xml " svg = true.
Proof.
  unfold createRichSlideVisualization. eexists. split; [reflexivity|].
  apply prefix_append_l, q_prefix; reflexivity.
Qed.

(** The text of an XML declaration is sent as bytes under the default
    content type. *)
Lemma getSlideImage_xml (toStringUtf8 : list Buffer.byte -> string)
    (slideId : string) (slide : SlideRow) (svg : string) (w : World) :
  pgFaults w = [] ->
  List.find (fun r => String.eqb (slide_id r) slideId) (slidesT (pg w)) = Some slide ->
  slide_image slide = Buffer.toBase64 (Buffer.fromString svg) ->
  String.prefix "<?xml " svg = true ->
  routes.getSlideImage toStringUtf8 slideId w
  = (Ok (Some (routes.mkReply 200 (Some "image/png")
                 (Some "public, max-age=86400")
                 (routes.Bytes (Buffer.fromString svg)))), w).
Proof.
  intros Hw Hfind Himage Hsvg.
  destruct (prefix_app _ _ Hsvg) as [rest E].
  assert (Hbytes : Buffer.fromString svg
                   = 60%N :: 63%N :: 120%N :: 109%N :: 108%N :: 32%N
                       :: Buffer.fromString rest).
  { rewrite E. reflexivity. }
  assert (Htext : exists t, slide_image slide = "PD94bWwg" +:+ t).
  { rewrite Himage, Hbytes. eexists. cbn [Buffer.toBase64]. reflexivity. }
  destruct Htext as [t Ht].
  rewrite (getSlideImage_binary toStringUtf8 slideId slide w Hw Hfind).
  - rewrite Himage, (fromBase64_toBase64 _ (fromString_bytes _)).
    unfold routes.sendBinary. do 4 f_equal.
    rewrite Hbytes. unfold routes.signatureType.
    cbn [List.length List.nth Nat.ltb Nat.leb N.eqb Pos.eqb andb].
    rewrite andb_false_r. reflexivity.
  - rewrite Ht. reflexivity.
  - rewrite Ht. reflexivity.
  - rewrite Ht. reflexivity.
Qed.

End ImageRouteFacts.

(** X1. An image file that the conversion has stored (the base64 text of
    its bytes) and whose first byte is not the character [<] is sent back
    byte for byte by the image route, with status 200, the content type
    read from its signature and a cache lifetime of one day, whatever the
    decoder of texts does. *)
Theorem stored_image_is_served_unchanged
    (toStringUtf8 : list Buffer.byte -> string) (slideId : string)
    (slide : SlideRow) (c : ascii) (data : string) (w : World) :
  pgFaults w = [] ->
  List.find (fun r => String.eqb (slide_id r) slideId) (slidesT (pg w)) = Some slide ->
  slide_image slide = Buffer.toBase64 (Buffer.fromBinary (String c data)) ->
  c <> "<"%char ->
  routes.getSlideImage toStringUtf8 slideId w
  = (Ok (Some (routes.mkReply 200
                 (Some (routes.signatureType (Buffer.fromBinary (String c data))))
                 (Some "public, max-age=86400")
                 (routes.Bytes (Buffer.fromBinary (String c data))))), w).
Proof.
  intros Hw Hfind Himage Hc.
  assert (Hne : N_of_ascii c <> 60%N).
  { intros E. apply Hc. rewrite <- (ascii_N_embedding c), E. reflexivity. }
  destruct (base64_head (N_of_ascii c) (Buffer.fromBinary data)
              (N_ascii_bounded c) (fromBinary_bytes data) Hne) as (H1 & H2 & H3).
  change (N_of_ascii c :: Buffer.fromBinary data)
    with (Buffer.fromBinary (String c data)) in H1, H2, H3.
  rewrite <- Himage in H1, H2, H3.
  rewrite (getSlideImage_binary _ _ _ _ Hw Hfind H3 H1 H2), Himage.
  rewrite (fromBase64_toBase64 _ (fromBinary_bytes _)). reflexivity.
Qed.

Lemma stored_image_is_served_unchanged_witness :
  routes.getSlideImage (fun _ => "") "s1" Examples.annotatedWorld
  = (Ok (Some (routes.mkReply 200 (Some "image/png")
                 (Some "public, max-age=86400")
                 (routes.Bytes [105; 109; 97; 103; 101]%N))),
     Examples.annotatedWorld).
Proof.
  apply (stored_image_is_served_unchanged (fun _ => "") "s1"
           (mkSlideRow "p1" "s1" 1 "aW1hZ2U=") "i" "mage"
           Examples.annotatedWorld);
    [reflexivity | reflexivity | reflexivity | discriminate].
Defined.

(** X2. The images that the server draws itself, the placeholder and the
    rich visualization, begin with an XML declaration followed by a space;
    their base64 text has neither of the two prefixes that the image route
    tests, so the route never takes its SVG branch for them: it sends their
    bytes under the content type [image/png]. *)
Theorem generated_svg_is_served_as_png
    (toStringUtf8 : list Buffer.byte -> string) (slideId : string)
    (slide : SlideRow) (w : World) :
  pgFaults w = [] ->
  List.find (fun r => String.eqb (slide_id r) slideId) (slidesT (pg w)) = Some slide ->
  (forall slideNumber totalSlides,
      slide_image slide = Pure.createPlaceholderImage slideNumber totalSlides ->
      routes.getSlideImage toStringUtf8 slideId w
      = (Ok (Some (routes.mkReply 200 (Some "image/png")
                     (Some "public, max-age=86400")
                     (routes.Bytes
                        (Buffer.fromString
                           (Pure.placeholderSvg slideNumber totalSlides))))), w))
  /\ (forall slideNumber totalSlides title content images,
        slide_image slide
        = Pure.createRichSlideVisualization slideNumber totalSlides title
            content images ->
        exists svg,
          slide_image slide = Buffer.toBase64 (Buffer.fromString svg)
          /\ JsString.startsWith svg "<?xml " = true
          /\ routes.getSlideImage toStringUtf8 slideId w
             = (Ok (Some (routes.mkReply 200 (Some "image/png")
                            (Some "public, max-age=86400")
                            (routes.Bytes (Buffer.fromString svg)))), w)).
Proof.
  intros Hw Hfind. split.
  - intros n t Himage.
    exact (getSlideImage_xml _ _ _ _ _ Hw Hfind Himage (placeholderSvg_head n t)).
  - intros n t title content images Himage.
    destruct (richSvg_head n t title content images) as (svg & E & Hsvg).
    exists svg. rewrite E in Himage.
    split; [exact Himage|]. split; [exact Hsvg|].
    exact (getSlideImage_xml _ _ _ _ _ Hw Hfind Himage Hsvg).
Qed.

Lemma generated_svg_is_served_as_png_witness :
  routes.getSlideImage (fun _ => "") "s1" Examples.placeholderWorld
  = (Ok (Some (routes.mkReply 200 (Some "image/png")
                 (Some "public, max-age=86400")
                 (routes.Bytes
                    (Buffer.fromString (Pure.placeholderSvg 1 10))))),
     Examples.placeholderWorld).
Proof.
  exact (proj1 (generated_svg_is_served_as_png (fun _ => "") "s1"
                  (mkSlideRow "p1" "s1" 1 (Pure.createPlaceholderImage 1 10))
                  Examples.placeholderWorld eq_refl eq_refl)
           1 10 eq_refl).
Defined.

(** ** Escaping *)

Section EscapeFacts.
Import JsString Pure.

Lemma hasChar_append (c : ascii) (a b : string) :
  hasChar c (a +:+ b) = hasChar c a || hasChar c b.
Proof.
  induction a as [|x a IH]; [reflexivity|].
  rewrite append_cons. cbn [hasChar]. rewrite IH. apply orb_assoc.
Qed.

Lemma replaceChar_removes (c : ascii) (by_ s : string) :
  hasChar c by_ = false -> hasChar c (replaceChar c by_ s) = false.
Proof.
  intros H. induction s as [|x s IH]; [reflexivity|].
  cbn [replaceChar]. destruct (Ascii.eqb x c) eqn:E.
  - rewrite hasChar_append, H, IH. reflexivity.
  - cbn [hasChar]. rewrite E, IH. reflexivity.
Qed.

Lemma replaceChar_keeps_out (d c : ascii) (by_ s : string) :
  hasChar d by_ = false -> hasChar d s = false ->
  hasChar d (replaceChar c by_ s) = false.
Proof.
  intros H. induction s as [|x s IH]; intros Hs; [reflexivity|].
  cbn [hasChar] in Hs. apply orb_false_elim in Hs as [Hx Hs].
  cbn [replaceChar]. destruct (Ascii.eqb x c).
  - rewrite hasChar_append, H, (IH Hs). reflexivity.
  - cbn [hasChar]. rewrite Hx, (IH Hs). reflexivity.
Qed.

End EscapeFacts.

(** X3. The text that [escapeHtml] returns holds none of the characters
    [<], [>], the double quote and the apostrophe, whatever text it is
    given; a text without these four characters and without [&] is
    returned as it is. *)
Theorem escapeHtml_leaves_no_markup (text : string) :
  hasChar "<" (Pure.escapeHtml text) = false
  /\ hasChar ">" (Pure.escapeHtml text) = false
  /\ hasChar JsString.dq (Pure.escapeHtml text) = false
  /\ hasChar "'" (Pure.escapeHtml text) = false
  /\ (hasChar "&" text = false -> hasChar "<" text = false ->
      hasChar ">" text = false -> hasChar JsString.dq text = false ->
      hasChar "'" text = false -> Pure.escapeHtml text = text).
Proof.
  unfold Pure.escapeHtml.
  assert (Hlt : hasChar "<"
                  (Pure.replaceChar "<" "&lt;" (Pure.replaceChar "&" "&amp;" text))
                = false)
    by (apply replaceChar_removes; reflexivity).
  assert (Hgt : hasChar ">"
                  (Pure.replaceChar ">" "&gt;"
                     (Pure.replaceChar "<" "&lt;"
                        (Pure.replaceChar "&" "&amp;" text))) = false)
    by (apply replaceChar_removes; reflexivity).
  assert (Hdq : hasChar JsString.dq
                  (Pure.replaceChar JsString.dq "&quot;"
                     (Pure.replaceChar ">" "&gt;"
                        (Pure.replaceChar "<" "&lt;"
                           (Pure.replaceChar "&" "&amp;" text)))) = false)
    by (apply replaceChar_removes; reflexivity).
  repeat split.
  - do 3 (apply replaceChar_keeps_out; [reflexivity|]). exact Hlt.
  - do 2 (apply replaceChar_keeps_out; [reflexivity|]). exact Hgt.
  - apply replaceChar_keeps_out; [reflexivity|]. exact Hdq.
  - apply replaceChar_removes. reflexivity.
  - intros Ha Hl Hg Hd Hq.
    assert (Hid : forall c by_ s, hasChar c s = false ->
                    Pure.replaceChar c by_ s = s).
    { intros c by_ s. induction s as [|x s IH]; intros H; [reflexivity|].
      cbn [hasChar] in H. apply orb_false_elim in H as [Hx Hs].
      cbn [Pure.replaceChar]. rewrite Hx, (IH Hs). reflexivity. }
    rewrite (Hid "&"%char _ _ Ha), (Hid "<"%char _ _ Hl), (Hid ">"%char _ _ Hg),
      (Hid JsString.dq _ _ Hd), (Hid "'"%char _ _ Hq). reflexivity.
Qed.

(** ** The placeholders of the last resort *)

Section LastResortFacts.
Import JsString Regex Pure presentationService.




End LastResortFacts.



(** ** The mirror *)

Section MirrorFacts.

Lemma sqliteStatement_healthy {A : Type} (f : Sqlite -> A * Sqlite) (w : World) :
  sqliteFaults w = [] ->
  sqliteStatement f w
  = (Ok (fst (f (sqlite w))),
     mkWorld (fs w) (pg w) (snd (f (sqlite w))) (uuids w) (pgFaults w) []).
Proof.
  intros H. unfold sqliteStatement. rewrite H.
  destruct (f (sqlite w)). reflexivity.
Qed.

Lemma getPresentation_healthy (id : string) (w : World) :
  pgFaults w = [] ->
  storage.getPresentation id w
  = (Ok (List.find (fun r => String.eqb (pres_id r) id) (presentationsT (pg w))),
     w).
Proof.
  intros H. unfold storage.getPresentation. rewrite (pgStatement_healthy _ _ H).
  cbn [fst snd]. now rewrite (world_eta _ H).
Qed.

Lemma sameSlide_row (presentationId slideId : string) (r : OutputRow)
    (tags : list Tag) :
  sqliteStorage.sameSlide presentationId slideId r = true ->
  mkOutputRow (out_presentation_id r) (out_slide_id r) tags
  = mkOutputRow presentationId slideId tags.
Proof.
  unfold sqliteStorage.sameSlide. intros H. apply andb_prop in H as [H1 H2].
  apply String.eqb_eq in H1, H2. now rewrite H1, H2.
Qed.

Lemma find_none_filter {A : Type} (f : A -> bool) (l : list A) :
  List.find f l = None -> List.filter f l = [].
Proof.
  induction l as [|x l IH]; [reflexivity|]. cbn.
  destruct (f x); [discriminate | exact IH].
Qed.

Lemma find_some_filter {A : Type} (f : A -> bool) (l : list A) (x : A) :
  List.find f l = Some x -> (1 <= List.length (List.filter f l))%nat.
Proof.
  induction l as [|y l IH]; [discriminate|]. cbn.
  destruct (f y); [cbn; lia | exact IH].
Qed.

(** The [UPDATE] of [insertAnnotations]. *)
Lemma update_rows (presentationId slideId : string) (tags : list Tag)
    (rows : list OutputRow) :
  let f := fun r =>
             if sqliteStorage.sameSlide presentationId slideId r
             then mkOutputRow (out_presentation_id r) (out_slide_id r) tags
             else r in
  rowsBeside presentationId slideId (List.map f rows)
  = rowsBeside presentationId slideId rows
  /\ rowsOf presentationId slideId (List.map f rows)
     = List.map (fun _ => mkOutputRow presentationId slideId tags)
         (rowsOf presentationId slideId rows).
Proof.
  cbv zeta. unfold rowsBeside, rowsOf.
  induction rows as [|r rows [IH1 IH2]]; [split; reflexivity|].
  cbn [List.map List.filter].
  destruct (sqliteStorage.sameSlide presentationId slideId r) eqn:E.
  - rewrite (sameSlide_row _ _ _ tags E).
    assert (E' : sqliteStorage.sameSlide presentationId slideId
                   (mkOutputRow presentationId slideId tags) = true).
    { unfold sqliteStorage.sameSlide. cbn. now rewrite !String.eqb_refl. }
    rewrite E'. cbn [negb List.map]. rewrite IH1, IH2. split; reflexivity.
  - rewrite E. cbn [negb]. rewrite IH1, IH2. split; reflexivity.
Qed.

Lemma insertAnnotations_healthy (presentationId slideId : string)
    (tags : list Tag) (w : World) :
  sqliteFaults w = [] ->
  exists rows,
    sqliteStorage.insertAnnotations presentationId slideId tags w
    = (Ok tt,
       mkWorld (fs w) (pg w) (mkSqlite (inputT (sqlite w)) rows) (uuids w)
         (pgFaults w) [])
    /\ rowsBeside presentationId slideId rows
       = rowsBeside presentationId slideId (outputT (sqlite w))
    /\ rowsOf presentationId slideId rows
       = List.repeat (mkOutputRow presentationId slideId tags)
           (Nat.max 1
              (List.length (rowsOf presentationId slideId (outputT (sqlite w))))).
Proof.
  intros H. unfold sqliteStorage.insertAnnotations, bind.
  rewrite (sqliteStatement_healthy _ _ H). cbn [fst snd].
  destruct (List.find (sqliteStorage.sameSlide presentationId slideId)
              (outputT (sqlite w))) as [r|] eqn:Hfind.
  - rewrite sqliteStatement_healthy by reflexivity.
    cbn [fst snd sqlite fs pg uuids pgFaults].
    eexists. split; [reflexivity|].
    destruct (update_rows presentationId slideId tags (outputT (sqlite w)))
      as [U1 U2].
    split; [exact U1|]. rewrite U2.
    pose proof (find_some_filter _ _ _ Hfind) as Hlen.
    fold (rowsOf presentationId slideId (outputT (sqlite w))) in Hlen.
    rewrite Nat.max_r by exact Hlen.
    generalize (rowsOf presentationId slideId (outputT (sqlite w))).
    intros l. induction l as [|x l IHl]; [reflexivity|]. cbn. now rewrite IHl.
  - rewrite sqliteStatement_healthy by reflexivity.
    cbn [fst snd sqlite fs pg uuids pgFaults].
    eexists. split; [reflexivity|].
    assert (E' : sqliteStorage.sameSlide presentationId slideId
                   (mkOutputRow presentationId slideId tags) = true).
    { unfold sqliteStorage.sameSlide. cbn. now rewrite !String.eqb_refl. }
    unfold rowsBeside, rowsOf. rewrite !List.filter_app. cbn [List.filter].
    rewrite E'. cbn [negb]. rewrite List.app_nil_r.
    split; [reflexivity|].
    rewrite (find_none_filter _ _ Hfind). reflexivity.
Qed.

Lemma upserted_row_listed (presentationId slideId : string) (tags : list Tag)
    (rows : list OutputRow) (n : nat) :
  rowsOf presentationId slideId rows
  = List.repeat (mkOutputRow presentationId slideId tags) (Nat.max 1 n) ->
  In (slideId, tags)
    (List.map (fun row => (out_slide_id row, out_tags row))
       (List.filter (fun r => String.eqb (out_presentation_id r) presentationId)
          rows)).
Proof.
  intros Hof.
  assert (Hin : In (mkOutputRow presentationId slideId tags)
                  (rowsOf presentationId slideId rows)).
  { rewrite Hof. destruct (Nat.max 1 n) eqn:E; [lia | left; reflexivity]. }
  apply List.filter_In in Hin as [Hin _].
  apply (List.in_map (fun row => (out_slide_id row, out_tags row))
           _ (mkOutputRow presentationId slideId tags)).
  apply List.filter_In. split; [exact Hin|]. cbn. apply String.eqb_refl.
Qed.

End MirrorFacts.


(** X6. The mirror's [insertAnnotations] is an upsert: on a mirror that
    answers it returns normally, leaves the primary store, the [input] table
    and the rows of every other slide as they were, and afterwards every
    row of the slide holds the new tags; a slide that had no row has
    exactly one, and no row is added to a slide that had some. *)
Theorem insertAnnotations_upserts (presentationId slideId : string)
    (tags : list Tag) (w : World) :
  sqliteFaults w = [] ->
  exists w',
    sqliteStorage.insertAnnotations presentationId slideId tags w = (Ok tt, w')
    /\ pg w' = pg w /\ fs w' = fs w
    /\ inputT (sqlite w') = inputT (sqlite w)
    /\ rowsBeside presentationId slideId (outputT (sqlite w'))
       = rowsBeside presentationId slideId (outputT (sqlite w))
    /\ Forall (fun r => out_tags r = tags)
         (rowsOf presentationId slideId (outputT (sqlite w')))
    /\ List.length (rowsOf presentationId slideId (outputT (sqlite w')))
       = Nat.max 1
           (List.length (rowsOf presentationId slideId (outputT (sqlite w))))
    /\ exists l,
         sqliteStorage.getAnnotations presentationId w' = (Ok l, w')
         /\ In (slideId, tags) l.
Proof.
  intros H.
  destruct (insertAnnotations_healthy presentationId slideId tags w H)
    as (rows & E & Hbeside & Hof).
  eexists. split; [exact E|]. cbn [pg fs sqlite inputT outputT].
  do 4 (split; [first [reflexivity | exact Hbeside]|]).
  split; [|split].
  - rewrite Hof. apply List.Forall_forall. intros r Hr.
    apply List.repeat_spec in Hr. subst r. reflexivity.
  - rewrite Hof. apply List.repeat_length.
  - unfold sqliteStorage.getAnnotations.
    rewrite sqliteStatement_healthy by reflexivity.
    cbn [fst snd sqlite fs pg uuids pgFaults outputT].
    eexists. split; [reflexivity|].
    exact (upserted_row_listed _ _ _ _ _ Hof).
Qed.

Lemma insertAnnotations_upserts_witness :
  exists w',
    sqliteStorage.insertAnnotations "p1" "s1" [mkTag "topic" "new"]
      (mkWorld [] (pg Examples.annotatedWorld)
         (mkSqlite []
            [mkOutputRow "p1" "s1" [mkTag "topic" "old"];
             mkOutputRow "p1" "s2" [mkTag "kind" "chart"]])
         0 [] [])
    = (Ok tt, w')
    /\ rowsBeside "p1" "s1" (outputT (sqlite w'))
       = [mkOutputRow "p1" "s2" [mkTag "kind" "chart"]]
    /\ List.length (rowsOf "p1" "s1" (outputT (sqlite w'))) = 1%nat.
Proof.
  destruct (insertAnnotations_upserts "p1" "s1" [mkTag "topic" "new"]
              (mkWorld [] (pg Examples.annotatedWorld)
                 (mkSqlite []
                    [mkOutputRow "p1" "s1" [mkTag "topic" "old"];
                     mkOutputRow "p1" "s2" [mkTag "kind" "chart"]])
                 0 [] [])
              eq_refl)
    as (w' & E & _ & _ & _ & Hbeside & _ & Hlen & _).
  exists w'. split; [exact E|]. split; [exact Hbeside | exact Hlen].
Defined.

(** X7. Replacing annotations is not atomic.  When [saveAnnotations]
    throws, the mirror is as it was; the primary store is as it was only if
    its first statement, the [DELETE], is the one that failed.  If the
    [DELETE] went through, the annotations that the slide had are gone,
    whether the slide was then not found or a later statement failed. *)
Theorem failed_save_loses_annotations (slideId : string) (tags : list Tag)
    (w w' : World) (e : string) :
  storage.saveAnnotations slideId tags w = (Throw e, w') ->
  sqlite w' = sqlite w
  /\ fs w' = fs w
  /\ pg w' = if primaryAnswers w then deleteAnnotations slideId (pg w) else pg w.
Proof.
  unfold storage.saveAnnotations, primaryAnswers, bind.
  assert (Hstep : forall (A : Type) (f : Pg -> A * Pg) (v : World),
            exists r v',
              pgStatement f v = (r, v')
              /\ sqlite v' = sqlite v /\ fs v' = fs v
              /\ (match r with
                  | Ok a => primaryAnswers v = true /\ a = fst (f (pg v))
                            /\ pg v' = snd (f (pg v))
                  | Throw _ => primaryAnswers v = false /\ pg v' = pg v
                  end)).
  { intros A f v. unfold pgStatement, primaryAnswers.
    destruct (pgFaults v) as [|[] faults]; destruct (f (pg v)) as [a d];
      eexists; eexists; (split; [reflexivity|]); cbn; repeat split; reflexivity. }
  destruct (Hstep unit
              (fun d =>
                 (tt, mkPg (presentationsT d) (slidesT d)
                        (List.filter
                           (fun r => negb (String.eqb (ann_slide_id r) slideId))
                           (slideAnnotationsT d)))) w)
    as (r1 & w1 & -> & Hs1 & Hf1 & H1).
  fold (primaryAnswers w).
  destruct r1 as [[]|e1].
  - destruct H1 as (-> & _ & Hpg1). cbn [snd] in Hpg1.
    fold (deleteAnnotations slideId (pg w)) in Hpg1.
    destruct (0 <? Z.of_nat (List.length tags)); [|discriminate].
    unfold storage.getSlide.
    destruct (Hstep _
                (fun d =>
                   (List.find (fun r => String.eqb (slide_id r) slideId)
                      (slidesT d), d)) w1)
      as (r2 & w2 & -> & Hs2 & Hf2 & H2).
    destruct r2 as [slide|e2].
    + destruct H2 as (_ & -> & Hpg2). cbn [fst snd] in *.
      destruct (List.find (fun r => String.eqb (slide_id r) slideId)
                  (slidesT (pg w1))) as [s|].
      * destruct (Hstep unit
                    (fun d =>
                       (tt, mkPg (presentationsT d) (slidesT d)
                              (slideAnnotationsT d
                                 ++ [mkAnnotationRow (slide_presentation_id s)
                                       slideId tags]))) w2)
          as (r3 & w3 & -> & Hs3 & Hf3 & H3).
        destruct r3 as [[]|e3].
        -- unfold tryCatch.
           destruct (sqliteStorage.insertAnnotations (slide_presentation_id s)
                       slideId tags w3) as [[[]|] ?]; discriminate.
        -- destruct H3 as (_ & Hpg3). intros E. injection E as _ <-.
           rewrite Hs3, Hs2, Hs1, Hf3, Hf2, Hf1, Hpg3, Hpg2, Hpg1.
           repeat split; reflexivity.
      * unfold throw. intros E. injection E as _ <-.
        rewrite Hs2, Hs1, Hf2, Hf1, Hpg2, Hpg1. repeat split; reflexivity.
    + destruct H2 as (_ & Hpg2). intros E. injection E as _ <-.
      rewrite Hs2, Hs1, Hf2, Hf1, Hpg2, Hpg1. repeat split; reflexivity.
  - destruct H1 as (-> & Hpg1). intros E. injection E as _ <-.
    rewrite Hs1, Hf1, Hpg1. repeat split; reflexivity.
Qed.

Lemma failed_save_loses_annotations_witness :
  slideAnnotationsT (pg Examples.annotatedWorld)
  = [mkAnnotationRow "p1" "s1" [mkTag "topic" "old"]]
  /\ pg (mkWorld [] (mkPg [mkPresentationRow "p1" "deck.pptx" false]
                          [mkSlideRow "p1" "s1" 1 "aW1hZ2U="] [])
           (mkSqlite [] []) 0 [] [])
     = deleteAnnotations "s1"
         (pg (mkWorld [] (pg Examples.annotatedWorld) (mkSqlite [] []) 0
                [false; false; true] [])).
Proof.
  split; [reflexivity|].
  exact (proj2 (proj2
           (failed_save_loses_annotations "s1" [mkTag "topic" "new"]
              (mkWorld [] (pg Examples.annotatedWorld) (mkSqlite [] []) 0
                 [false; false; true] [])
              (mkWorld [] (mkPg [mkPresentationRow "p1" "deck.pptx" false]
                                [mkSlideRow "p1" "s1" 1 "aW1hZ2U="] [])
                 (mkSqlite [] []) 0 [] [])
              "database error" eq_refl))).
Defined.

(** X8. Clearing the annotations of a slide does not reach the mirror.
    After tags have been saved for a slide and then an empty list is saved
    for it, both stores answering, the primary store has no annotation for
    the slide under any presentation, while the mirror is what it was after
    the first save and still returns the tags for the slide. *)
Theorem clearing_does_not_reach_mirror (slideId : string) (tag : Tag)
    (tags : list Tag) (slide : SlideRow) (w : World) :
  pgFaults w = [] -> sqliteFaults w = [] ->
  List.find (fun r => String.eqb (slide_id r) slideId) (slidesT (pg w)) = Some slide ->
  exists w1 w2 l,
    storage.saveAnnotations slideId (tag :: tags) w = (Ok tt, w1)
    /\ storage.saveAnnotations slideId [] w1 = (Ok tt, w2)
    /\ (forall presentationId,
          storage.getAnnotations presentationId w2
          = (Ok (annotationsOf presentationId (pg w2)), w2)
          /\ annotationsOf presentationId (pg w2) !! slideId = None)
    /\ sqlite w2 = sqlite w1
    /\ sqliteStorage.getAnnotations (slide_presentation_id slide) w2 = (Ok l, w2)
    /\ In (slideId, tag :: tags) l.
Proof.
  intros Hpg Hsq Hfind.
  unfold storage.saveAnnotations at 1. unfold bind at 1.
  rewrite (pgStatement_healthy _ _ Hpg). cbn [fst snd].
  replace (0 <? Z.of_nat (List.length (tag :: tags))) with true
    by (symmetry; apply Z.ltb_lt; cbn [List.length]; lia).
  unfold bind at 1. rewrite getSlide_healthy by reflexivity.
  cbn [pg slidesT]. rewrite Hfind. unfold bind at 1.
  rewrite pgStatement_healthy by reflexivity.
  cbn [fst snd pg fs sqlite uuids sqliteFaults presentationsT slidesT
       slideAnnotationsT].
  unfold tryCatch.
  match goal with
  | |- context [sqliteStorage.insertAnnotations ?p ?s ?t ?v] =>
      destruct (insertAnnotations_healthy p s t v Hsq) as (rows & E1 & _ & Hof);
      rewrite E1
  end.
  cbn [fs pg sqlite uuids pgFaults] in *.
  match type of E1 with _ = (_, ?v) => set (w1 := v) end.
  set (w2 := mkWorld (fs w1) (deleteAnnotations slideId (pg w1)) (sqlite w1)
               (uuids w1) [] (sqliteFaults w1)).
  exists w1, w2. eexists. split; [reflexivity|].
  split.
  { unfold storage.saveAnnotations, bind.
    rewrite pgStatement_healthy by reflexivity. reflexivity. }
  split; [|split; [reflexivity|]].
  - intros presentationId.
    split; [apply getAnnotations_healthy; reflexivity|].
    unfold annotationsOf. cbn [w2 pg].
    rewrite (fold_insert_other slideId _ ∅
               (deleted_rows_other slideId presentationId (pg w1))).
    apply lookup_empty.
  - split.
    + unfold sqliteStorage.getAnnotations.
      rewrite sqliteStatement_healthy by reflexivity. reflexivity.
    + exact (upserted_row_listed _ _ _ _ _ Hof).
Qed.

Lemma clearing_does_not_reach_mirror_witness :
  exists w1 w2 l,
    storage.saveAnnotations "s1" [mkTag "topic" "new"] Examples.annotatedWorld
    = (Ok tt, w1)
    /\ storage.saveAnnotations "s1" [] w1 = (Ok tt, w2)
    /\ (forall presentationId,
          storage.getAnnotations presentationId w2
          = (Ok (annotationsOf presentationId (pg w2)), w2)
          /\ annotationsOf presentationId (pg w2) !! "s1" = None)
    /\ sqlite w2 = sqlite w1
    /\ sqliteStorage.getAnnotations "p1" w2 = (Ok l, w2)
    /\ In ("s1", [mkTag "topic" "new"]) l.
Proof.
  exact (clearing_does_not_reach_mirror "s1" (mkTag "topic" "new") []
           (mkSlideRow "p1" "s1" 1 "aW1hZ2U=") Examples.annotatedWorld
           eq_refl eq_refl eq_refl).
Defined.

(** ** The routes of presentations and annotations *)

Section RouteFacts.

Lemma find_map_same {A : Type} (p : A -> bool) (f : A -> A) (l : list A) :
  (forall x, p (f x) = p x) ->
  List.find p (List.map f l) = option_map f (List.find p l).
Proof.
  intros H. induction l as [|x l IH]; [reflexivity|].
  cbn [List.map List.find]. rewrite H. destruct (p x); [reflexivity | exact IH].
Qed.


Lemma markSubmitted_id (presentationId : string) (r : PresentationRow) :
  pres_id (markSubmitted presentationId r) = pres_id r.
Proof.
  unfold markSubmitted. destruct (String.eqb (pres_id r) presentationId);
    reflexivity.
Qed.

Lemma markSubmitted_twice (presentationId : string) (r : PresentationRow) :
  markSubmitted presentationId (markSubmitted presentationId r)
  = markSubmitted presentationId r.
Proof.
  unfold markSubmitted.
  destruct (String.eqb (pres_id r) presentationId) eqn:E; cbn [pres_id pres_name];
    rewrite E; reflexivity.
Qed.

Lemma markSubmitted_unknown (presentationId : string) (l : list PresentationRow) :
  List.find (fun r => String.eqb (pres_id r) presentationId) l = None ->
  List.map (markSubmitted presentationId) l = l.
Proof.
  induction l as [|r l IH]; [reflexivity|]. cbn [List.find List.map].
  unfold markSubmitted at 1.
  destruct (String.eqb (pres_id r) presentationId); [discriminate|].
  intros H. now rewrite (IH H).
Qed.

Lemma submitPresentation_healthy (presentationId : string) (w : World) :
  pgFaults w = [] ->
  storage.submitPresentation presentationId w
  = (Ok tt,
     withPg w
       (mkPg (List.map (markSubmitted presentationId) (presentationsT (pg w)))
          (slidesT (pg w)) (slideAnnotationsT (pg w)))).
Proof.
  intros H. unfold storage.submitPresentation.
  rewrite (pgStatement_healthy _ _ H). unfold withPg. rewrite H. reflexivity.
Qed.

End RouteFacts.

(** X9. Submitting never rejects: on a primary store that answers, the
    submit route replies 200 with the message of success for every
    identifier, also one that names no presentation, in which case nothing
    changes at all.  Otherwise only the [submitted] flag of the rows of that
    presentation changes; slides, annotations, mirror and files are left
    alone, and submitting a second time changes nothing more. *)
Theorem submit_never_rejects (presentationId : string) (w : World) :
  pgFaults w = [] ->
  exists w',
    routes.submitPresentation presentationId w
    = (Ok (Some (routes.json 200
                   (routes.Message "Annotations submitted successfully"))), w')
    /\ routes.submitPresentation presentationId w'
       = (Ok (Some (routes.json 200
                      (routes.Message "Annotations submitted successfully"))), w')
    /\ slidesT (pg w') = slidesT (pg w)
    /\ slideAnnotationsT (pg w') = slideAnnotationsT (pg w)
    /\ sqlite w' = sqlite w /\ fs w' = fs w
    /\ (forall id,
          storage.getPresentation id w'
          = (Ok (option_map (markSubmitted presentationId)
                   (List.find (fun r => String.eqb (pres_id r) id)
                      (presentationsT (pg w)))), w'))
    /\ (List.find (fun r => String.eqb (pres_id r) presentationId)
          (presentationsT (pg w)) = None -> w' = w).
Proof.
  intros H. unfold routes.submitPresentation, tryCatch, bind.
  rewrite (submitPresentation_healthy _ _ H).
  eexists. split; [reflexivity|].
  split.
  { rewrite submitPresentation_healthy by exact H.
    unfold withPg. cbn [fs pg sqlite uuids pgFaults sqliteFaults presentationsT
                          slidesT slideAnnotationsT].
    rewrite List.map_map.
    rewrite (List.map_ext _ _ (markSubmitted_twice presentationId)).
    reflexivity. }
  cbn [withPg pg slidesT slideAnnotationsT sqlite fs].
  do 4 (split; [reflexivity|]).
  split.
  - intros id. rewrite getPresentation_healthy by exact H.
    cbn [withPg pg presentationsT]. f_equal. f_equal.
    apply (find_map_same (fun r => String.eqb (pres_id r) id)).
    intros r. now rewrite markSubmitted_id.
  - intros Hnone. rewrite (markSubmitted_unknown _ _ Hnone).
    unfold withPg. destruct w as [t [ps ss anns] m u pf sf]. reflexivity.
Qed.

Lemma submit_never_rejects_witness :
  exists w',
    routes.submitPresentation "p1" Examples.annotatedWorld
    = (Ok (Some (routes.json 200
                   (routes.Message "Annotations submitted successfully"))), w')
    /\ storage.getPresentation "p1" w'
       = (Ok (Some (mkPresentationRow "p1" "deck.pptx" true)), w')
    /\ routes.submitPresentation "ghost" Examples.annotatedWorld
       = (Ok (Some (routes.json 200
                      (routes.Message "Annotations submitted successfully"))),
          Examples.annotatedWorld).
Proof.
  destruct (submit_never_rejects "p1" Examples.annotatedWorld eq_refl)
    as (w' & E & _ & _ & _ & _ & _ & Hget & _).
  exists w'. split; [exact E|]. split; [exact (Hget "p1")|].
  destruct (submit_never_rejects "ghost" Examples.annotatedWorld eq_refl)
    as (w'' & E' & _ & _ & _ & _ & _ & _ & Hsame).
  rewrite <- (Hsame eq_refl) at 2. exact E'.
Defined.



(** X11. The slides route never rejects either: on a primary store that
    answers it replies 200 with exactly the slides of the presentation (no
    slide of another one, none left out, repeated rows as often as they are
    stored) in ascending slide number, which is the empty list for an
    identifier that names no presentation; the store is not changed. *)
Theorem slides_route_lists_in_order (presentationId : string) (w : World) :
  pgFaults w = [] ->
  exists slides,
    routes.getSlides presentationId w
    = (Ok (Some (routes.json 200 (routes.SlidesBody slides))), w)
    /\ Permutation slides
         (List.filter
            (fun r => String.eqb (slide_presentation_id r) presentationId)
            (slidesT (pg w)))
    /\ StronglySorted (fun a b => slide_number a <= slide_number b) slides
    /\ (forall r,
          In r slides
          <-> In r (slidesT (pg w)) /\ slide_presentation_id r = presentationId).
Proof.
  intros H. unfold routes.getSlides, tryCatch, bind, storage.getSlides.
  rewrite (pgStatement_healthy _ _ H). cbn [fst snd]. rewrite (world_eta _ H).
  eexists. split; [reflexivity|].
  assert (Hperm : Permutation
            (orderBy slide_number
               (List.filter
                  (fun r => String.eqb (slide_presentation_id r) presentationId)
                  (slidesT (pg w))))
            (List.filter
               (fun r => String.eqb (slide_presentation_id r) presentationId)
               (slidesT (pg w)))).
  { apply sortBy_perm. }
  split; [exact Hperm|]. split.
  - apply (sortBy_sorted _ slide_number). intros a b. reflexivity.
  - intros r. split.
    + intros Hin. apply (Permutation_in _ Hperm) in Hin.
      apply List.filter_In in Hin as [Hin E]. apply String.eqb_eq in E.
      split; assumption.
    + intros [Hin E]. apply (Permutation_in _ (Permutation_sym Hperm)).
      apply List.filter_In. split; [exact Hin|]. now apply String.eqb_eq.
Qed.

Lemma slides_route_lists_in_order_witness :
  exists slides,
    routes.getSlides "ghost" Examples.annotatedWorld
    = (Ok (Some (routes.json 200 (routes.SlidesBody slides))),
       Examples.annotatedWorld)
    /\ Permutation slides [].
Proof.
  destruct (slides_route_lists_in_order "ghost" Examples.annotatedWorld eq_refl)
    as (slides & E & Hperm & _).
  exists slides. split; [exact E | exact Hperm].
Defined.

(** X12. The replies of the route that saves annotations, on a primary
    store that answers and whatever the mirror does: 400 for a body that is
    no array, with nothing changed; 500 with the message [Slide not found]
    for tags sent to a slide that does not exist; 200 with the slide and
    the tags echoed in every other case, which includes an empty array sent
    to a slide that does not exist. *)
Theorem annotation_route_replies (slideId : string)
    (requestBody : routes.RequestBody) (w : World) :
  pgFaults w = [] ->
  exists w',
    routes.saveAnnotations slideId requestBody w
    = (Ok (Some (annotationReply slideId requestBody (pg w))), w')
    /\ (requestBody = routes.NotAnArray -> w' = w)
    /\ fs w' = fs w
    /\ presentationsT (pg w') = presentationsT (pg w)
    /\ slidesT (pg w') = slidesT (pg w).
Proof.
  intros H. unfold routes.saveAnnotations, annotationReply, tryCatch.
  destruct requestBody as [|tags].
  - exists w. repeat split; reflexivity.
  - unfold bind at 1. unfold storage.saveAnnotations, bind.
    rewrite (pgStatement_healthy _ _ H). cbn [fst snd].
    destruct tags as [|tag tags].
    + eexists. split; [reflexivity|]. cbn. repeat split; try reflexivity.
      discriminate.
    + replace (0 <? Z.of_nat (List.length (tag :: tags))) with true
        by (symmetry; apply Z.ltb_lt; cbn [List.length]; lia).
      rewrite getSlide_healthy by reflexivity. cbn [pg slidesT].
      destruct (List.find (fun r => String.eqb (slide_id r) slideId)
                  (slidesT (pg w))) as [slide|].
      * rewrite pgStatement_healthy by reflexivity.
        cbn [fst snd fs pg sqlite uuids sqliteFaults]. unfold tryCatch.
        match goal with
        | |- context [sqliteStorage.insertAnnotations ?p ?s ?t ?v] =>
            destruct (insertAnnotations_frame p s t v) as (r & d & faults & E);
            rewrite E
        end.
        destruct r as [[]|e]; eexists; (split; [reflexivity|]); cbn;
          repeat split; try reflexivity; discriminate.
      * eexists. split; [reflexivity|]. cbn. repeat split; try reflexivity.
        discriminate.
Qed.

Lemma annotation_route_replies_witness :
  routes.saveAnnotations "s1" routes.NotAnArray Examples.annotatedWorld
  = (Ok (Some (routes.json 400
                 (routes.Message
                    "Invalid tags format. Expected an array of key-value pairs"))),
     Examples.annotatedWorld)
  /\ exists w',
       routes.saveAnnotations "ghost" (routes.TagArray [mkTag "topic" "new"])
         Examples.annotatedWorld
       = (Ok (Some (routes.json 500 (routes.Message "Slide not found"))), w').
Proof.
  split.
  - destruct (annotation_route_replies "s1" routes.NotAnArray
                Examples.annotatedWorld eq_refl) as (w' & E & Hsame & _).
    rewrite <- (Hsame eq_refl) at 2. exact E.
  - destruct (annotation_route_replies "ghost"
                (routes.TagArray [mkTag "topic" "new"])
                Examples.annotatedWorld eq_refl) as (w' & E & _).
    exists w'. exact E.
Defined.

(** ** The order of the slide-XML entries *)

Section EntryOrderFacts.
Import JsString Regex Pure.







End EntryOrderFacts.


(** ** The images of a slide *)

Section MediaFacts.
Import JsString Regex Pure presentationService.

Lemma pushData_media (images : list string) (entry : ZipEntry) (w : World) :
  pushData images entry w = (Ok (images ++ mediaOf [entry]), w).
Proof.
  unfold pushData, tryCatch, bind, AdmZip.getData, mediaOf.
  cbn [List.flat_map]. rewrite List.app_nil_r.
  destruct (entryData entry) as [d|]; cbn [ret throw].
  - reflexivity.
  - rewrite List.app_nil_r. reflexivity.
Qed.

Lemma pushData_all (entries : list ZipEntry) (images : list string) (w : World) :
  foldOf entries images pushData w = (Ok (images ++ mediaOf entries), w).
Proof.
  revert images. induction entries as [|e entries IH]; intros images.
  - cbn. rewrite List.app_nil_r. reflexivity.
  - cbn [foldOf]. unfold bind. rewrite pushData_media, IH.
    rewrite <- List.app_assoc. unfold mediaOf. cbn [List.flat_map].
    rewrite List.app_nil_r. reflexivity.
Qed.

(** A loop over the relationship files that finds nothing. *)
Lemma rels_loop_quiet (zip rels : list ZipEntry)
    (body : string -> list string -> M (list string)) (w : World) :
  List.forallb (fun e => readable zip (entryName e)) rels = true ->
  (forall relsContent images v, body relsContent images v = (Ok images, v)) ->
  foldOf rels []
    (fun (images : list string) relsEntry =>
       let* relsContent := AdmZip.readAsText zip (entryName relsEntry) in
       body relsContent images) w
  = (Ok [], w).
Proof.
  intros H Hbody. induction rels as [|e rels IH]; [reflexivity|].
  cbn [List.forallb] in H. apply andb_prop in H as [He Hrels].
  cbn [foldOf]. unfold bind at 1. unfold bind at 1.
  destruct (readAsText_readable zip (entryName e) w He) as [text ->].
  rewrite Hbody. exact (IH Hrels).
Qed.

End MediaFacts.

(** X14. A slide without image references is shown with every picture of
    the deck.  When the relationship files of the archive can be read and
    the slide refers to no image, [findImagesInPresentation] returns the
    base64 text of each media entry ([.png], [.jpg], [.jpeg], [.gif] under
    [ppt/media/]) that can be decompressed, in the order of the archive; an
    entry that cannot be decompressed is skipped without an error.  In an
    archive without relationship files this is the result for every slide,
    whatever it refers to. *)
Theorem slide_without_references_gets_all_media (zip : list ZipEntry)
    (outputDir : string) (w : World) :
  relsReadable zip = true ->
  presentationService.findImagesInPresentation zip [] outputDir w
  = (Ok (allMedia zip), w)
  /\ (List.filter presentationService.isSlideRels zip = [] ->
      forall imageRefs,
        presentationService.findImagesInPresentation zip imageRefs outputDir w
        = (Ok (allMedia zip), w)).
Proof.
  intros H. unfold relsReadable in H. split.
  - unfold presentationService.findImagesInPresentation. cbv zeta.
    unfold bind at 1.
    erewrite (rels_loop_quiet zip _ _ w H).
    + cbn [List.length Nat.eqb]. rewrite pushData_all. reflexivity.
    + intros relsContent images v. reflexivity.
  - intros Hnone imageRefs.
    unfold presentationService.findImagesInPresentation. cbv zeta.
    unfold bind at 1. rewrite Hnone. cbn [presentationService.foldOf ret List.length Nat.eqb].
    rewrite pushData_all. reflexivity.
Qed.

Lemma slide_without_references_gets_all_media_witness :
  presentationService.findImagesInPresentation
    [mkZipEntry "ppt/slides/slide1.xml" (Some "<p:sld/>");
     mkZipEntry "ppt/media/image1.png" (Some "image");
     mkZipEntry "ppt/media/image2.gif" None;
     mkZipEntry "ppt/media/notes.txt" (Some "text")]
    [] "/srv/uploads/p1" Examples.emptyWorld
  = (Ok ["aW1hZ2U="], Examples.emptyWorld).
Proof.
  exact (proj1 (slide_without_references_gets_all_media
                  [mkZipEntry "ppt/slides/slide1.xml" (Some "<p:sld/>");
                   mkZipEntry "ppt/media/image1.png" (Some "image");
                   mkZipEntry "ppt/media/image2.gif" None;
                   mkZipEntry "ppt/media/notes.txt" (Some "text")]
                  "/srv/uploads/p1" Examples.emptyWorld eq_refl)).
Defined.

(** ** The annotation form and the pager *)

Section FormFacts.

Lemma withoutIndex_before {A : Type} (index i : nat) (l : list A) :
  (index < i)%nat -> AnnotationForm.withoutIndex index i l = l.
Proof.
  revert i. induction l as [|x l IH]; intros i H; [reflexivity|].
  cbn [AnnotationForm.withoutIndex].
  replace (i =? index)%nat with false by (symmetry; apply Nat.eqb_neq; lia).
  rewrite IH by lia. reflexivity.
Qed.

Lemma withoutIndex_split {A : Type} (index i : nat) (l : list A) :
  (i <= index)%nat ->
  AnnotationForm.withoutIndex index i l
  = List.firstn (index - i) l ++ List.skipn (S (index - i)) l.
Proof.
  revert i. induction l as [|x l IH]; intros i H; [now destruct (index - i)%nat|].
  cbn [AnnotationForm.withoutIndex].
  destruct (i =? index)%nat eqn:E.
  - apply Nat.eqb_eq in E. subst i. rewrite Nat.sub_diag.
    cbn [List.firstn List.skipn List.app]. apply withoutIndex_before. lia.
  - apply Nat.eqb_neq in E. rewrite IH by lia.
    replace (index - i)%nat with (S (index - S i)) by lia.
    reflexivity.
Qed.

End FormFacts.

(** X15. What the annotation form hands to the server.  Submitting the
    form never sends an empty list and never a field whose key or value is
    blank: it sends the complete fields in their order, or nothing at all
    when there is none.  Removing an annotation sends the annotations
    without every one that has the same key, which may be the empty list;
    annotations under other keys are kept, in their order. *)
Theorem form_payloads (annotationFields annotations : list Tag)
    (key_ : string) :
  match AnnotationForm.handleSubmit annotationFields with
  | Some tags =>
      tags <> [] /\ tags = List.filter complete annotationFields
      /\ Forall (fun field =>
                   JsString.trim (key field) <> ""
                   /\ JsString.trim (value field) <> "") tags
  | None =>
      Forall (fun field =>
                JsString.trim (key field) = ""
                \/ JsString.trim (value field) = "") annotationFields
  end
  /\ Forall (fun annotation => key annotation <> key_)
       (AnnotationForm.handleRemoveAnnotation key_ annotations)
  /\ (forall other,
        other <> key_ ->
        List.filter (fun annotation => String.eqb (key annotation) other)
          (AnnotationForm.handleRemoveAnnotation key_ annotations)
        = List.filter (fun annotation => String.eqb (key annotation) other)
            annotations)
  /\ (Forall (fun annotation => key annotation = key_) annotations ->
      AnnotationForm.handleRemoveAnnotation key_ annotations = []).
Proof.
  split; [|split; [|split]].
  - unfold AnnotationForm.handleSubmit. fold complete.
    change (fun field : Tag =>
              negb (String.eqb (JsString.trim (key field)) "")
              && negb (String.eqb (JsString.trim (value field)) ""))
      with complete.
    destruct (0 <? List.length (List.filter complete annotationFields))%nat eqn:E.
    + apply Nat.ltb_lt in E. split; [|split; [reflexivity|]].
      * intros Hnil. rewrite Hnil in E. cbn in E. lia.
      * apply List.Forall_forall. intros field Hin.
        apply List.filter_In in Hin as [_ Hc]. unfold complete in Hc.
        apply andb_prop in Hc as [Hk Hv].
        apply negb_true_iff in Hk, Hv. apply String.eqb_neq in Hk, Hv.
        split; assumption.
    + apply Nat.ltb_ge in E. apply List.Forall_forall. intros field Hin.
      destruct (complete field) eqn:Hc.
      * assert (Hin' : In field (List.filter complete annotationFields))
          by (apply List.filter_In; split; assumption).
        destruct (List.filter complete annotationFields);
          [destruct Hin' | cbn in E; lia].
      * unfold complete in Hc. apply andb_false_iff in Hc as [Hc | Hc];
          apply negb_false_iff in Hc; apply String.eqb_eq in Hc;
          [left | right]; exact Hc.
  - unfold AnnotationForm.handleRemoveAnnotation. apply List.Forall_forall.
    intros annotation Hin. apply List.filter_In in Hin as [_ Hne].
    apply negb_true_iff in Hne. now apply String.eqb_neq in Hne.
  - intros other Hother. unfold AnnotationForm.handleRemoveAnnotation.
    induction annotations as [|a l IH]; [reflexivity|].
    cbn [List.filter]. destruct (String.eqb (key a) key_) eqn:E1;
      destruct (String.eqb (key a) other) eqn:E2; cbn [negb List.filter];
      rewrite ?E2, IH; try reflexivity.
    apply String.eqb_eq in E1, E2. congruence.
  - intros Hall. unfold AnnotationForm.handleRemoveAnnotation.
    induction Hall as [|a l Ha _ IH]; [reflexivity|].
    cbn [List.filter]. rewrite Ha, String.eqb_refl. exact IH.
Qed.

(** X16. The form always shows at least one field.  Removing a field
    never leaves an empty list: with two fields or more the field at the
    index is taken out and the others keep their order, the only field is
    replaced by a blank one, and an index outside the list changes nothing.
    Adding a field appends one blank field, and a slide without annotations
    is given one blank field. *)
Theorem form_keeps_a_field (index : nat) (annotationFields : list Tag) :
  AnnotationForm.handleRemoveField index annotationFields <> []
  /\ AnnotationForm.handleAddField annotationFields <> []
  /\ AnnotationForm.fieldsFor annotationFields <> []
  /\ ((index < List.length annotationFields)%nat ->
      (2 <= List.length annotationFields)%nat ->
      AnnotationForm.handleRemoveField index annotationFields
      = List.firstn index annotationFields
          ++ List.skipn (S index) annotationFields
      /\ List.length (AnnotationForm.handleRemoveField index annotationFields)
         = (List.length annotationFields - 1)%nat)
  /\ ((List.length annotationFields <= index)%nat -> annotationFields <> [] ->
      AnnotationForm.handleRemoveField index annotationFields = annotationFields)
  /\ (forall field,
        AnnotationForm.handleRemoveField 0 [field] = [AnnotationForm.blank])
  /\ (annotationFields <> [] ->
      AnnotationForm.fieldsFor annotationFields = annotationFields).
Proof.
  assert (Hsplit : AnnotationForm.withoutIndex index 0 annotationFields
                   = List.firstn index annotationFields
                       ++ List.skipn (S index) annotationFields).
  { rewrite withoutIndex_split by lia. now rewrite Nat.sub_0_r. }
  split; [|split; [|split; [|split; [|split; [|split]]]]].
  - unfold AnnotationForm.handleRemoveField.
    destruct (0 <? List.length (AnnotationForm.withoutIndex index 0 annotationFields))%nat
      eqn:E; [|discriminate].
    apply Nat.ltb_lt in E. intros Hnil. rewrite Hnil in E. cbn in E. lia.
  - unfold AnnotationForm.handleAddField. destruct annotationFields; discriminate.
  - unfold AnnotationForm.fieldsFor.
    destruct annotationFields; [discriminate | cbn; discriminate].
  - intros Hlt Hlen. unfold AnnotationForm.handleRemoveField. rewrite Hsplit.
    assert (Hl : List.length
                   (List.firstn index annotationFields
                      ++ List.skipn (S index) annotationFields)
                 = (List.length annotationFields - 1)%nat).
    { rewrite List.length_app, List.length_firstn, List.length_skipn. lia. }
    rewrite Hl.
    replace (0 <? List.length annotationFields - 1)%nat with true
      by (symmetry; apply Nat.ltb_lt; lia).
    split; [reflexivity | exact Hl].
  - intros Hge Hne. unfold AnnotationForm.handleRemoveField. rewrite Hsplit.
    rewrite List.firstn_all2 by exact Hge.
    rewrite List.skipn_all2 by lia. rewrite List.app_nil_r.
    destruct annotationFields; [contradiction | reflexivity].
  - intros field. reflexivity.
  - intros Hne. unfold AnnotationForm.fieldsFor.
    destruct annotationFields; [contradiction | reflexivity].
Qed.

(** X17. The pager never leaves the deck.  From the first slide, where the
    page opens, any run of the buttons [Previous] and [Next] leaves the
    index between 0 and the index of the last slide (0 for an empty deck);
    [Previous] on the first slide and [Next] on the last one change
    nothing, and every other press moves by exactly one slide. *)
Theorem pager_stays_in_the_deck (slides : list SlideRow) (moves : list Move) :
  0 <= page slides 0 moves <= Z.max 0 (Z.of_nat (List.length slides) - 1)
  /\ SlideAnnotation.handlePreviousSlide 0 = 0
  /\ SlideAnnotation.handleNextSlide slides (Z.of_nat (List.length slides) - 1)
     = Z.of_nat (List.length slides) - 1
  /\ (forall i,
        0 < i -> SlideAnnotation.handlePreviousSlide i = i - 1)
  /\ (forall i,
        i < Z.of_nat (List.length slides) - 1 ->
        SlideAnnotation.handleNextSlide slides i = i + 1).
Proof.
  split; [|split; [|split; [|split]]].
  - unfold page.
    assert (G : forall i,
              0 <= i <= Z.max 0 (Z.of_nat (List.length slides) - 1) ->
              0 <= List.fold_left
                     (fun i move =>
                        match move with
                        | Previous => SlideAnnotation.handlePreviousSlide i
                        | Next => SlideAnnotation.handleNextSlide slides i
                        end) moves i
                <= Z.max 0 (Z.of_nat (List.length slides) - 1)).
    { induction moves as [|move moves IH]; intros i Hi; [exact Hi|].
      cbn [List.fold_left]. apply IH.
      destruct move; unfold SlideAnnotation.handlePreviousSlide,
        SlideAnnotation.handleNextSlide.
      - destruct (0 <? i) eqn:E; [apply Z.ltb_lt in E|]; lia.
      - destruct (i <? Z.of_nat (List.length slides) - 1) eqn:E;
          [apply Z.ltb_lt in E|]; lia. }
    apply G. lia.
  - reflexivity.
  - unfold SlideAnnotation.handleNextSlide. now rewrite Z.ltb_irrefl.
  - intros i Hi. unfold SlideAnnotation.handlePreviousSlide.
    replace (0 <? i) with true by (symmetry; now apply Z.ltb_lt). reflexivity.
  - intros i Hi. unfold SlideAnnotation.handleNextSlide.
    replace (i <? Z.of_nat (List.length slides) - 1) with true
      by (symmetry; now apply Z.ltb_lt).
    reflexivity.
Qed.

(** ** The exits of the entry point *)


(** ** The entry point on a primary store that answers *)

Section PrimaryFacts.
Import JsString Regex Pure presentationService.
Variable presentationId : string.





















(** *** Returning on a primary store that answers *)









(** *** At least one slide *)

















End PrimaryFacts.





(** ** Image references *)

Section ReferenceFacts.
Import JsString Regex Pure.

Lemma matchHere_embed (st : mstate) (s : string) (r : mstate * string) :
  matchHere embedPattern st s = Some r ->
  plainReference (ofRev (captured (fst r))).
Proof.
  unfold embedPattern. rewrite matchHere_lit_app.
  destruct (String.prefix (q "r:embed=`") s); [|discriminate].
  cbn [List.app matchHere]. rewrite matchHere_lit_app.
  match goal with
  | |- context [String.prefix "rId" ?s0] => destruct (String.prefix "rId" s0)
  end; [|discriminate].
  cbn [List.app matchHere].
  change (fun st0 s1 => matchHere (lit (q "`")) (closeGroup st0) s1)
    with (matchHere (GClose :: lit (q "`"))).
  rewrite (rep_greedy_digits _ _ _ _ (rest_after_digits (q "`") eq_refl)).
  match goal with
  | |- context [digitRun ?s0] =>
      pose proof (digitRun_digits s0) as Hd;
      destruct (digitRun s0) as [d rest]
  end.
  cbn [fst snd Nat.add] in *.
  destruct d as [|c d]; [discriminate|].
  cbn [String.length Nat.leb matchHere]. rewrite matchHere_lit_state.
  destruct (String.prefix (q "`") rest); [|discriminate].
  intros E. injection E as <-.
  cbn [fst push closeGroup captured capturing].
  rewrite pushString_captured_on by reflexivity.
  cbn [push openGroup captured capturing].
  exists (String c d). split; [|split; [exact Hd | discriminate]].
  unfold ofRev. rewrite List.rev_app_distr, List.rev_involutive.
  cbn [List.rev List.app string_of_list_ascii].
  rewrite string_of_list_ascii_of_string. reflexivity.
Qed.

Lemma matchAllFrom_embed (slideXML : string) (skip : nat) :
  Forall plainReference
    (List.map group1 (matchAllFrom embedPattern skip slideXML)).
Proof.
  revert skip. induction slideXML as [|c s IH]; intros skip; [constructor|].
  cbn [matchAllFrom]. destruct skip as [|k]; [|apply IH].
  destruct (matchHere embedPattern start (String c s)) as [r|] eqn:E; [|apply IH].
  cbn [List.map]. constructor; [|apply IH].
  cbn [mkResult group1]. exact (matchHere_embed _ _ _ E).
Qed.

End ReferenceFacts.

(** X20. Every image reference that is read from a slide is the text
    [rId] followed by at least one digit and nothing else.  The pattern
    that [findImagesInPresentation] builds around a reference therefore
    holds the reference as plain text: no character of it has a meaning of
    its own in a pattern. *)
Theorem image_references_are_plain (slideXML : string) :
  Forall plainReference (Pure.extractImageReferencesFromXML slideXML)
  /\ Forall
       (fun rId =>
          allChars
            (fun c =>
               JsString.isDigit c
               || Ascii.eqb c "r" || Ascii.eqb c "I" || Ascii.eqb c "d")
            rId = true)
       (Pure.extractImageReferencesFromXML slideXML).
Proof.
  assert (H : Forall plainReference (Pure.extractImageReferencesFromXML slideXML))
    by apply matchAllFrom_embed.
  split; [exact H|].
  apply List.Forall_forall. intros rId Hin.
  rewrite List.Forall_forall in H. destruct (H rId Hin) as (d & -> & Hd & _).
  clear Hin H.
  assert (Hall : allChars
                   (fun c =>
                      JsString.isDigit c
                      || Ascii.eqb c "r" || Ascii.eqb c "I" || Ascii.eqb c "d")
                   d = true).
  { unfold allDigits in Hd. induction d as [|c d IH]; [reflexivity|].
    inversion Hd as [|? ? Hc Hd']; subst. cbn [allChars].
    rewrite Hc, (IH Hd'). reflexivity. }
  rewrite !append_cons, append_nil. cbn [allChars]. rewrite Hall. reflexivity.
Qed.

(** ** The other listings *)

Section OtherListingFacts.
Import JsString Regex Pure.







End OtherListingFacts.


(** ** The two stores in step *)

Section SteadyFacts.
Import JsString Regex Pure presentationService.
Variable R : World -> World -> Prop.
Variable presentationId : string.
Hypothesis R_trans : forall w1 w2 w3, R w1 w2 -> R w2 w3 -> R w1 w3.
Hypothesis R_frame :
  forall w w',
    pg w' = pg w -> sqlite w' = sqlite w -> pgFaults w' = pgFaults w ->
    sqliteFaults w' = sqliteFaults w -> R w w'.
Hypothesis R_saveSlide :
  forall slideNumber slideId image,
    steady R (storage.saveSlide presentationId slideNumber slideId image).

Lemma steady_ret {A : Type} (a : A) : steady R (ret a).
Proof. intros w r w' E. injection E as <- <-. apply R_frame; reflexivity. Qed.

Lemma steady_throw {A : Type} (e : string) : steady R (@throw A e).
Proof. intros w r w' E. injection E as <- <-. apply R_frame; reflexivity. Qed.

Lemma steady_bind {A B : Type} (m : M A) (k : A -> M B) :
  steady R m -> (forall a, steady R (k a)) -> steady R (bind m k).
Proof.
  intros Hm Hk w r w' E. unfold bind in E.
  destruct (m w) as [[a|e] w1] eqn:E1.
  - exact (R_trans _ _ _ (Hm _ _ _ E1) (Hk a _ _ _ E)).
  - injection E as <- <-. exact (Hm _ _ _ E1).
Qed.

Lemma steady_tryCatch {A : Type} (m : M A) (h : string -> M A) :
  steady R m -> (forall e, steady R (h e)) -> steady R (tryCatch m h).
Proof.
  intros Hm Hh w r w' E. unfold tryCatch in E.
  destruct (m w) as [[a|e] w1] eqn:E1.
  - injection E as <- <-. exact (Hm _ _ _ E1).
  - exact (R_trans _ _ _ (Hm _ _ _ E1) (Hh e _ _ _ E)).
Qed.

Lemma steady_when (c : bool) (m : M unit) : steady R m -> steady R (when c m).
Proof. intros Hm. destruct c; [exact Hm | apply steady_ret]. Qed.

Lemma steady_forEachFrom {A : Type} (xs : list A) (body : Z -> A -> M unit) :
  (forall i x, steady R (body i x)) ->
  forall from, steady R (forEachFrom from xs body).
Proof.
  intros Hbody. induction xs as [|x xs IH]; intros from.
  - apply steady_ret.
  - cbn [forEachFrom]. apply steady_bind; [apply Hbody | intros _; apply IH].
Qed.

Lemma steady_forCount (count : nat) (body : Z -> M unit) :
  (forall i, steady R (body i)) -> forall i, steady R (forCount count i body).
Proof.
  intros Hbody. induction count as [|count IH]; intros i.
  - apply steady_ret.
  - cbn [forCount]. apply steady_bind; [apply Hbody | intros _; apply IH].
Qed.

Lemma steady_foldOf {A S : Type} (xs : list A) (body : S -> A -> M S) :
  (forall acc x, steady R (body acc x)) ->
  forall acc, steady R (foldOf xs acc body).
Proof.
  intros Hbody. induction xs as [|x xs IH]; intros acc.
  - apply steady_ret.
  - cbn [foldOf]. apply steady_bind; [apply Hbody | intros acc'; apply IH].
Qed.

Lemma steady_getFs : steady R Fs.getFs.
Proof. intros w r w' E. injection E as <- <-. apply R_frame; reflexivity. Qed.

Lemma steady_putFs (t : FS) : steady R (Fs.putFs t).
Proof. intros w r w' E. injection E as <- <-. apply R_frame; reflexivity. Qed.

Lemma steady_execPromise (env : Env) (command : string) :
  steady R (execPromise env command).
Proof.
  intros w r w' E. unfold execPromise in E.
  destruct (shell env command (fs w)) as [ok t]. injection E as <- <-.
  apply R_frame; reflexivity.
Qed.

Lemma steady_uuidv4 (env : Env) : steady R (uuidv4 env).
Proof. intros w r w' E. injection E as <- <-. apply R_frame; reflexivity. Qed.

Ltac steady_step :=
  cbv beta zeta;
  lazymatch goal with
  | |- steady _ (ret _) => apply steady_ret
  | |- steady _ (throw _) => apply steady_throw
  | |- steady _ (bind _ _) => apply steady_bind; [|intros ?]
  | |- steady _ (tryCatch _ _) => apply steady_tryCatch; [|intros ?]
  | |- steady _ (when _ _) => apply steady_when
  | |- steady _ (forEachFrom _ _ _) => apply steady_forEachFrom; intros ? ?
  | |- steady _ (forCount _ _ _) => apply steady_forCount; intros ?
  | |- steady _ (forRange _ _ _) => unfold forRange
  | |- steady _ (foldOf _ _ _) => apply steady_foldOf; intros ? ?
  | |- steady _ Fs.getFs => apply steady_getFs
  | |- steady _ (Fs.putFs _) => apply steady_putFs
  | |- steady _ (execPromise _ _) => apply steady_execPromise
  | |- steady _ (uuidv4 _) => apply steady_uuidv4
  | |- steady _ (storage.saveSlide _ _ _ _) => apply R_saveSlide
  | |- steady _ (Fs.existsSync _) => unfold Fs.existsSync
  | |- steady _ (Fs.mkdirSync _) => unfold Fs.mkdirSync
  | |- steady _ (Fs.readdirSync _) => unfold Fs.readdirSync
  | |- steady _ (Fs.readFileSync _) => unfold Fs.readFileSync
  | |- steady _ (Fs.unlinkSync _) => unfold Fs.unlinkSync
  | |- steady _ (Fs.renameSync _ _) => unfold Fs.renameSync
  | |- steady _ (AdmZip.open _ _) => unfold AdmZip.open
  | |- steady _ (AdmZip.getData _) => unfold AdmZip.getData
  | |- steady _ (AdmZip.readAsText _ _) => unfold AdmZip.readAsText
  | |- steady _ (createAndSavePlaceholder _ _ _ _) =>
      unfold createAndSavePlaceholder
  | |- steady _ (createFallbackSlides _ _ _) => unfold createFallbackSlides
  | |- steady _ (pushData _ _) => unfold pushData
  | |- steady _ (findImagesInPresentation _ _ _) =>
      unfold findImagesInPresentation
  | |- steady _ (renderSlide _ _ _ _ _ _ _) => unfold renderSlide
  | |- steady _ (processSlides _ _ _ _ _) => unfold processSlides
  | |- steady _ (saveImages _ _ _ _ _) => unfold saveImages
  | |- steady _ (exportPdf _ _ _ _) => unfold exportPdf
  | |- steady _ (ensureDir _) => unfold ensureDir
  | |- steady _ (getSlideCount _ _) => unfold getSlideCount
  | |- steady _ (cleanUpUpload _) => unfold cleanUpUpload
  | |- steady _ (firstAttempt _ _ _ _) => unfold firstAttempt
  | |- steady _ (secondAttempt _ _ _ _) => unfold secondAttempt
  | |- steady _ (conversion _ _ _ _) => unfold conversion
  | |- steady _ (if ?b then _ else _) => destruct b
  | |- steady _ (match ?x with _ => _ end) => destruct x
  end.


Lemma steady_ensureDir (dir : string) : steady R (ensureDir dir).
Proof. repeat steady_step. Qed.

End SteadyFacts.

Section InStepFacts.
Variables presentationId name : string.




End InStepFacts.


